(** * simplefs: a shallow embedding of [simple.c]

    The development follows [src/simplefs/simple.c] function by function.

    - Machine integers are [Z] with the wrap-around written out
      ([to_u64], [to_s64], [to_int]).
    - The block device is an array of blocks ([list block]); a block that
      [sb_bread] cannot deliver is a missing index.  A block is viewed at
      the type the code casts [bh->b_data] to; the byte layout of the
      structs is not modelled, so each block carries its view and a cast
      to another view is a [BAD_CAST] fault (outside the model).
    - Kernel code runs in the monad [kernel]: a state transformer over the
      mounted [super_block] whose result is either a normal return or a
      [fault] ([BUG_ON], an access outside a buffer, a NULL dereference,
      an undefined shift).
    - The model is of one thread: no mutex is ever contended, so
      [mutex_lock_interruptible] takes the lock at once and returns 0 and
      the three mutexes are invisible.  Kernel memory allocation
      ([new_inode], [kmem_cache_alloc], [d_make_root]) succeeds.  VFS
      bookkeeping that no function of the file reads back (timestamps,
      [i_op], [i_fop], owner) is left out of [inode].
    - The header [super.h] is not part of the sources at hand.  Its
      constants are Section variables carrying the macro names; its
      struct declarations are modelled from the way [simple.c] uses
      them. *)

From Stdlib Require Import ZArith Lia Bool.
From stdpp Require Import base tactics option list strings.

Local Open Scope Z_scope.

(** ** Machine integers *)

Definition to_u64 (z : Z) : Z := z mod 2 ^ 64.
Definition to_s64 (z : Z) : Z := (z + 2 ^ 63) mod 2 ^ 64 - 2 ^ 63.
Definition to_int (z : Z) : Z := (z + 2 ^ 31) mod 2 ^ 32 - 2 ^ 31.

(** ** Errors and faults *)

Inductive errno := EPERM | EINTR | EIO | ENOMEM | EFAULT | EINVAL | ENOSPC.

Inductive fault :=
| BUG_ON          (* BUG_ON(!bh) fired *)
| OUT_OF_BOUNDS   (* access outside the buffer of a block *)
| NULL_DEREF      (* dereference of a NULL pointer *)
| BAD_CAST        (* block viewed at a type it does not hold *)
| BAD_SHIFT.      (* shift count not below the width of int *)

Inductive result (A : Type) :=
| Ret (a : A)
| Fault (f : fault).
Arguments Ret {A} a.
Arguments Fault {A} f.

(** ** On-disk structures *)

(** Modelled from the spec: [struct simplefs_super_block] of [super.h]:
    magic, version, block size, object count and free-block bitmask, all
    unsigned 64-bit. *)
Record simplefs_super_block := {
  version : Z;
  magic : Z;
  block_size : Z;
  inodes_count : Z;
  free_blocks : Z
}.

(** Modelled from the spec: [struct simplefs_inode] of [super.h].
    [file_size] and [dir_children_count] are the two names of one field
    (size accounting for the object's single data block). *)
Record simplefs_inode := {
  mode : Z;
  inode_no : Z;
  data_block_number : Z;
  dir_children_count : Z
}.
Abbreviation file_size := dir_children_count (only parsing).

(** Modelled from the spec: [struct simplefs_dir_record] of [super.h]. *)
Record simplefs_dir_record := {
  filename : string;
  rec_inode_no : Z
}.

Inductive block :=
| BSuper (sb : simplefs_super_block)
| BInodes (tbl : list simplefs_inode)
| BDir (recs : list simplefs_dir_record)
| BData (bytes : list Byte.byte).

Definition as_inodes (b : block) : option (list simplefs_inode) :=
  match b with BInodes t => Some t | _ => None end.
Definition as_dir (b : block) : option (list simplefs_dir_record) :=
  match b with BDir r => Some r | _ => None end.
Definition as_data (b : block) : option (list Byte.byte) :=
  match b with BData d => Some d | _ => None end.
Definition as_super (b : block) : option simplefs_super_block :=
  match b with BSuper s => Some s | _ => None end.

(** ** The mounted file system *)

(** A request to the buffer cache, with the number of the block and the
    content of its buffer at that moment. *)
Inductive event :=
| MarkDirty (blk : Z) (data : block)     (* mark_buffer_dirty(bh) *)
| SyncDirty (blk : Z) (data : block).    (* sync_dirty_buffer(bh) *)

Definition event_block (e : event) : Z :=
  match e with MarkDirty n _ | SyncDirty n _ => n end.

Record super_block := {
  s_fs_info : simplefs_super_block;   (* SIMPLEFS_SB(vsb) *)
  s_bdev : list block;                (* the device behind sb_bread *)
  s_io : list event                   (* write-back requests, oldest first *)
}.

(** In-memory [struct inode]: number and private [simplefs_inode]. *)
Record inode := {
  i_ino : Z;
  i_private : option simplefs_inode
}.

(** What [dir_emit] is handed for one directory record: the filename
    buffer (the string it holds), the length passed with it, the object
    number and [ctx->pos] at that moment. *)
Record dirent := {
  d_name : string;
  d_namlen : Z;
  d_ino : Z;
  d_off : Z
}.

(** The error of the directory operations. *)
Inductive dir_errno := ENOTDIR.

(** ** The monad of kernel code *)

Definition kernel (A : Type) : Type := super_block -> result (A * super_block).

Definition kret {A} (a : A) : kernel A := fun s => Ret (a, s).
Definition kbind {A B} (m : kernel A) (k : A -> kernel B) : kernel B :=
  fun s => match m s with
           | Ret (a, s') => k a s'
           | Fault f => Fault f
           end.
Definition kfault {A} (f : fault) : kernel A := fun _ => Fault f.

#[global] Instance kernel_ret : MRet kernel := @kret.
#[global] Instance kernel_bind : MBind kernel :=
  fun A B k m => @kbind A B m k.

Definition get_sb : kernel simplefs_super_block :=
  fun s => Ret (s_fs_info s, s).
Definition set_sb (sb : simplefs_super_block) : kernel unit :=
  fun s => Ret (tt, {| s_fs_info := sb; s_bdev := s_bdev s; s_io := s_io s |}).

(** [sb_bread]: [None] is the NULL buffer head. *)
Definition sb_bread (n : Z) : kernel (option block) :=
  fun s => Ret (if 0 <=? n then s_bdev s !! Z.to_nat n else None, s).

(** A store through [bh->b_data] of the buffer of block [n]. *)
Definition store_buffer (n : Z) (b : block) : kernel unit :=
  fun s => Ret (tt, {| s_fs_info := s_fs_info s;
                       s_bdev := <[Z.to_nat n := b]> (s_bdev s);
                       s_io := s_io s |}).

(** A request on the buffer head of block [n]; the callers hold a
    buffer head that [sb_bread] delivered. *)
Definition emit (mk : Z -> block -> event) (n : Z) : kernel unit :=
  fun s => match s_bdev s !! Z.to_nat n with
           | Some b => Ret (tt, {| s_fs_info := s_fs_info s;
                                   s_bdev := s_bdev s;
                                   s_io := s_io s ++ [mk n b] |})
           | None => Fault NULL_DEREF
           end.
Definition mark_buffer_dirty : Z -> kernel unit := emit MarkDirty.
Definition sync_dirty_buffer : Z -> kernel unit := emit SyncDirty.

(** The value of the C expression [1 << i] at type [int]: the count must
    be below the width; a 1 shifted into the sign bit gives [INT_MIN],
    as GNU C defines it. *)
Definition int_shl_1 (i : Z) : result Z :=
  if (0 <=? i) && (i <? 32) then Ret (to_int (2 ^ i)) else Fault BAD_SHIFT.

Definition with_free_blocks (sb : simplefs_super_block) (fb : Z)
  : simplefs_super_block :=
  {| version := version sb; magic := magic sb; block_size := block_size sb;
     inodes_count := inodes_count sb; free_blocks := fb |}.

(** The state after a store into the buffer of block [n] followed by
    [mark_buffer_dirty] and [sync_dirty_buffer] on it. *)
Definition block_written (s : super_block) (n : Z) (b : block) : super_block :=
  {| s_fs_info := s_fs_info s;
     s_bdev := <[Z.to_nat n := b]> (s_bdev s);
     s_io := s_io s ++ [MarkDirty n b; SyncDirty n b] |}.

Section Simplefs.

Variable SIMPLEFS_MAGIC : Z.
Variable SIMPLEFS_DEFAULT_BLOCK_SIZE : Z.
Variable SIMPLEFS_FILENAME_MAXLEN : Z.
Variable SIMPLEFS_START_INO : Z.
Variable SIMPLEFS_RESERVED_INODES : Z.
Variable SIMPLEFS_ROOTDIR_INODE_NUMBER : Z.
Variable SIMPLEFS_SUPERBLOCK_BLOCK_NUMBER : Z.
Variable SIMPLEFS_INODESTORE_BLOCK_NUMBER : Z.
Variable SIMPLEFS_MAX_FILESYSTEM_OBJECTS_SUPPORTED : Z.

(** ** simplefs_sb_sync *)

Definition simplefs_sb_sync : kernel unit :=
  bh ← sb_bread SIMPLEFS_SUPERBLOCK_BLOCK_NUMBER;
  match bh with
  | None => kfault BUG_ON
  | Some _ =>
      sb ← get_sb;
      store_buffer SIMPLEFS_SUPERBLOCK_BLOCK_NUMBER (BSuper sb);;
      mark_buffer_dirty SIMPLEFS_SUPERBLOCK_BLOCK_NUMBER;;
      sync_dirty_buffer SIMPLEFS_SUPERBLOCK_BLOCK_NUMBER
  end.

(** The state [simplefs_sb_sync] leaves when the superblock's block can
    be read. *)
Definition synced (s : super_block) : super_block :=
  {| s_fs_info := s_fs_info s;
     s_bdev := <[Z.to_nat SIMPLEFS_SUPERBLOCK_BLOCK_NUMBER
                 := BSuper (s_fs_info s)]> (s_bdev s);
     s_io := s_io s
             ++ [MarkDirty SIMPLEFS_SUPERBLOCK_BLOCK_NUMBER
                   (BSuper (s_fs_info s));
                 SyncDirty SIMPLEFS_SUPERBLOCK_BLOCK_NUMBER
                   (BSuper (s_fs_info s))] |}.

(** ** simplefs_sb_get_a_freeblock *)

(** The loop [for (i = 3; i < MAX; i++) if (free_blocks & (1 << i)) break;]
    with [n] iterations left before [i] reaches the bound; the value is
    [i] after the loop. *)
Fixpoint freeblock_scan (n : nat) (i : Z) (fb : Z) : result Z :=
  match n with
  | O => Ret i
  | S n' =>
      match int_shl_1 i with
      | Fault f => Fault f
      | Ret m =>
          if Z.land fb (to_u64 m) =? 0
          then freeblock_scan n' (i + 1) fb
          else Ret i
      end
  end.

Definition simplefs_sb_get_a_freeblock : kernel (errno + Z) :=
  sb ← get_sb;
  match freeblock_scan
          (Z.to_nat (SIMPLEFS_MAX_FILESYSTEM_OBJECTS_SUPPORTED - 3)) 3
          (free_blocks sb) with
  | Fault f => kfault f
  | Ret i =>
      if i =? SIMPLEFS_MAX_FILESYSTEM_OBJECTS_SUPPORTED
      then kret (inl ENOSPC)
      else
        match int_shl_1 i with
        | Fault f => kfault f
        | Ret m =>
            set_sb (with_free_blocks sb
                      (Z.land (free_blocks sb) (to_u64 (to_int (Z.lnot m)))));;
            simplefs_sb_sync;;
            kret (inr i)
        end
  end.

(** The state a successful allocation leaves, [fb] being the new
    bitmask. *)
Definition allocated (s : super_block) (fb : Z) : super_block :=
  synced
    {| s_fs_info := with_free_blocks (s_fs_info s) fb;
       s_bdev := s_bdev s; s_io := s_io s |}.

(** ** simplefs_sb_get_objects_count *)

Definition simplefs_sb_get_objects_count : kernel Z :=
  sb ← get_sb;
  mret (inodes_count sb).

(** ** The inode store *)

(** The view of the inode store block, [BUG_ON(!bh)] included. *)
Definition inode_store_bread : kernel (list simplefs_inode) :=
  bh ← sb_bread SIMPLEFS_INODESTORE_BLOCK_NUMBER;
  match bh with
  | None => kfault BUG_ON
  | Some b =>
      match as_inodes b with
      | None => kfault BAD_CAST
      | Some tbl => mret tbl
      end
  end.

(** [while (start->inode_no != search->inode_no && count < inodes_count)
    { count++; start++; }] followed by the test of [start->inode_no]:
    [n] is [inodes_count - count], [cells] the array from [start] on and
    [idx] the distance of [start] from the head of the table.  The record
    under [start] is read before [count] is compared. *)
Fixpoint inode_search_loop (n : nat) (cells : list simplefs_inode)
    (idx : nat) (ino : Z) {struct cells} : result (option nat) :=
  match cells with
  | [] => Fault OUT_OF_BOUNDS
  | c :: rest =>
      if inode_no c =? ino then Ret (Some idx)
      else match n with
           | O => Ret None
           | S n' => inode_search_loop n' rest (S idx) ino
           end
  end.

(** The result is the position of the record pointed to, or [None] for
    NULL. *)
Definition simplefs_inode_search (sb : simplefs_super_block)
    (start : list simplefs_inode) (search : simplefs_inode)
  : result (option nat) :=
  inode_search_loop (Z.to_nat (inodes_count sb)) start 0 (inode_no search).

Definition with_inodes_count (sb : simplefs_super_block) (n : Z)
  : simplefs_super_block :=
  {| version := version sb; magic := magic sb; block_size := block_size sb;
     inodes_count := n; free_blocks := free_blocks sb |}.

Definition simplefs_inode_add (i : simplefs_inode) : kernel unit :=
  tbl ← inode_store_bread;
  sb ← get_sb;
  if (Z.of_nat (length tbl) <=? inodes_count sb)
  then kfault OUT_OF_BOUNDS
  else
    store_buffer SIMPLEFS_INODESTORE_BLOCK_NUMBER
      (BInodes (<[Z.to_nat (inodes_count sb) := i]> tbl));;
    set_sb (with_inodes_count sb (to_u64 (inodes_count sb + 1)));;
    mark_buffer_dirty SIMPLEFS_INODESTORE_BLOCK_NUMBER;;
    simplefs_sb_sync.

(** The state [simplefs_inode_add] leaves, [tbl] being the inode table
    before the call. *)
Definition inode_appended (s : super_block) (tbl : list simplefs_inode)
    (i : simplefs_inode) : super_block :=
  let tbl' := <[Z.to_nat (inodes_count (s_fs_info s)) := i]> tbl in
  synced
    {| s_fs_info :=
         with_inodes_count (s_fs_info s)
           (to_u64 (inodes_count (s_fs_info s) + 1));
       s_bdev := <[Z.to_nat SIMPLEFS_INODESTORE_BLOCK_NUMBER
                   := BInodes tbl']> (s_bdev s);
       s_io := s_io s
               ++ [MarkDirty SIMPLEFS_INODESTORE_BLOCK_NUMBER (BInodes tbl')] |}.

(** [for (i = 0; i < inodes_count; i++) { if (sfs_inode->inode_no ==
    inode_no) ...break; sfs_inode++; }] with [n] iterations left. *)
Fixpoint get_inode_loop (n : nat) (cells : list simplefs_inode) (ino : Z)
  : result (option simplefs_inode) :=
  match n with
  | O => Ret None
  | S n' =>
      match cells with
      | [] => Fault OUT_OF_BOUNDS
      | c :: rest =>
          if inode_no c =? ino then Ret (Some c)
          else get_inode_loop n' rest ino
      end
  end.

Definition simplefs_get_inode (ino : Z) : kernel (option simplefs_inode) :=
  sb ← get_sb;
  tbl ← inode_store_bread;
  match get_inode_loop (Z.to_nat (inodes_count sb)) tbl ino with
  | Fault f => kfault f
  | Ret r => mret r
  end.

Definition simplefs_inode_save (sfs_inode : simplefs_inode)
  : kernel (errno + unit) :=
  tbl ← inode_store_bread;
  sb ← get_sb;
  match simplefs_inode_search sb tbl sfs_inode with
  | Fault f => kfault f
  | Ret (Some k) =>
      store_buffer SIMPLEFS_INODESTORE_BLOCK_NUMBER
        (BInodes (<[k := sfs_inode]> tbl));;
      mark_buffer_dirty SIMPLEFS_INODESTORE_BLOCK_NUMBER;;
      sync_dirty_buffer SIMPLEFS_INODESTORE_BLOCK_NUMBER;;
      mret (inr tt)
  | Ret None => mret (inl EIO)
  end.

Definition with_size (i : simplefs_inode) (n : Z) : simplefs_inode :=
  {| mode := mode i; inode_no := inode_no i;
     data_block_number := data_block_number i; dir_children_count := n |}.

Definition with_private (f : inode) (i : simplefs_inode) : inode :=
  {| i_ino := i_ino f; i_private := Some i |}.

(** ** simplefs_read *)

(** [buf_ok] says whether the user buffer is accessible: the copy of
    [n > 0] bytes to an inaccessible buffer leaves bytes uncopied.  The
    value is the [ssize_t] result, with the bytes stored in the user
    buffer, and the file position [*ppos] on return. *)
Definition simplefs_read (filp : inode) (buf_ok : bool) (len : Z) (ppos : Z)
  : kernel ((errno + Z * list Byte.byte) * Z) :=
  match i_private filp with
  | None => kfault NULL_DEREF
  | Some ino =>
      if file_size ino <=? to_u64 ppos then mret (inr (0, []), ppos)
      else
        bh ← sb_bread (data_block_number ino);
        match bh with
        | None => mret (inr (0, []), ppos)
        | Some b =>
            match as_data b with
            | None => kfault BAD_CAST
            | Some buffer =>
                let nbytes := to_int (Z.min (file_size ino) len) in
                let n := to_u64 nbytes in
                if negb buf_ok && (0 <? n) then mret (inl EFAULT, ppos)
                else if Z.of_nat (length buffer) <? n
                then kfault OUT_OF_BOUNDS
                else mret (inr (nbytes, take (Z.to_nat n) buffer),
                           to_s64 (ppos + nbytes))
            end
        end
  end.

(** ** simplefs_write *)

(** [buffer += *ppos; copy_from_user(buffer, buf, len)]: the bytes of the
    buffer after the copy, when the copy stays inside it. *)
Definition splice (buffer : list Byte.byte) (ppos : Z) (bytes : list Byte.byte)
  : option (list Byte.byte) :=
  let len := Z.of_nat (length bytes) in
  if len =? 0 then Some buffer
  else if (0 <=? ppos) && (ppos + len <=? Z.of_nat (length buffer))
  then Some (take (Z.to_nat ppos) buffer ++ bytes
               ++ drop (Z.to_nat (ppos + len)) buffer)
  else None.

(** The user buffer holds [bytes] ([len] is their number); the content of
    the block buffer after a faulting copy is not modelled (it is left as
    it was).  The value is the [ssize_t] result, the file's inode with its
    private part as the call leaves it, and [*ppos] on return. *)
Definition simplefs_write (filp : inode) (buf_ok : bool)
    (bytes : list Byte.byte) (ppos : Z)
  : kernel ((errno + Z) * inode * Z) :=
  let len := Z.of_nat (length bytes) in
  match i_private filp with
  | None => kfault NULL_DEREF
  | Some sfs_inode =>
      bh ← sb_bread (data_block_number sfs_inode);
      match bh with
      | None => mret (inr 0, filp, ppos)
      | Some b =>
          match as_data b with
          | None => kfault BAD_CAST
          | Some buffer =>
              if negb buf_ok && (0 <? len) then mret (inl EFAULT, filp, ppos)
              else
                match splice buffer ppos bytes with
                | None => kfault OUT_OF_BOUNDS
                | Some buffer' =>
                    store_buffer (data_block_number sfs_inode) (BData buffer');;
                    let ppos' := to_s64 (to_u64 ppos + len) in
                    mark_buffer_dirty (data_block_number sfs_inode);;
                    sync_dirty_buffer (data_block_number sfs_inode);;
                    let sfs_inode' := with_size sfs_inode (to_u64 ppos') in
                    retval ← simplefs_inode_save sfs_inode';
                    mret (match retval with
                          | inl e => inl e
                          | inr _ => inr len
                          end, with_private filp sfs_inode', ppos')
                end
          end
      end
  end.

(** ** simplefs_create_fs_object *)

Definition S_IFMT : Z := 61440.    (* 0170000 *)
Definition S_IFDIR : Z := 16384.   (* 0040000 *)
Definition S_IFREG : Z := 32768.   (* 0100000 *)
Definition S_ISDIR (m : Z) : bool := Z.land m S_IFMT =? S_IFDIR.
Definition S_ISREG (m : Z) : bool := Z.land m S_IFMT =? S_IFREG.

(** The value is the return code, with the inode attached to the dentry
    on success, and the parent's in-memory inode as the call leaves
    it. *)
Definition simplefs_create_fs_object (dir : inode) (name : string) (mode : Z)
  : kernel ((errno + inode) * inode) :=
  count ← simplefs_sb_get_objects_count;
  if SIMPLEFS_MAX_FILESYSTEM_OBJECTS_SUPPORTED <=? count
  then mret (inl ENOSPC, dir)
  else if negb (S_ISDIR mode) && negb (S_ISREG mode)
  then mret (inl EINVAL, dir)
  else
    let ino :=
      to_u64 (count + SIMPLEFS_START_INO - SIMPLEFS_RESERVED_INODES + 1) in
    r ← simplefs_sb_get_a_freeblock;
    match r with
    | inl e => mret (inl e, dir)
    | inr blk =>
        let sfs_inode :=
          {| mode := mode; inode_no := ino; data_block_number := blk;
             dir_children_count := 0 |} in
        simplefs_inode_add sfs_inode;;
        match i_private dir with
        | None => kfault NULL_DEREF
        | Some parent_dir_inode =>
            bh ← sb_bread (data_block_number parent_dir_inode);
            match bh with
            | None => kfault BUG_ON
            | Some b =>
                match as_dir b with
                | None => kfault BAD_CAST
                | Some recs =>
                    if (Z.of_nat (length recs)
                          <=? dir_children_count parent_dir_inode)
                       || (SIMPLEFS_FILENAME_MAXLEN
                             <=? Z.of_nat (String.length name))
                    then kfault OUT_OF_BOUNDS
                    else
                      store_buffer (data_block_number parent_dir_inode)
                        (BDir (<[Z.to_nat (dir_children_count parent_dir_inode)
                                 := {| filename := name; rec_inode_no := ino |}]>
                                 recs));;
                      mark_buffer_dirty (data_block_number parent_dir_inode);;
                      sync_dirty_buffer (data_block_number parent_dir_inode);;
                      let parent' :=
                        with_size parent_dir_inode
                          (to_u64 (dir_children_count parent_dir_inode + 1)) in
                      ret ← simplefs_inode_save parent';
                      match ret with
                      | inl e => mret (inl e, with_private dir parent')
                      | inr _ =>
                          mret (inr {| i_ino := ino;
                                       i_private := Some sfs_inode |},
                                with_private dir parent')
                      end
                end
            end
        end
    end.

(** ** simplefs_lookup *)

(** [for (i = 0; i < dir_children_count; i++) { if (!strcmp(
    record->filename, name)) ...; record++; }] with [n] iterations
    left. *)
Fixpoint lookup_scan (n : nat) (recs : list simplefs_dir_record)
    (name : string) : result (option simplefs_dir_record) :=
  match n with
  | O => Ret None
  | S n' =>
      match recs with
      | [] => Fault OUT_OF_BOUNDS
      | r :: rest =>
          if String.eqb (filename r) name then Ret (Some r)
          else lookup_scan n' rest name
      end
  end.

(** The value is the inode attached to the dentry by [d_add], [None] when
    the dentry stays negative. *)
Definition simplefs_lookup (parent_inode : inode) (name : string)
  : kernel (option inode) :=
  match i_private parent_inode with
  | None => kfault NULL_DEREF
  | Some parent =>
      bh ← sb_bread (data_block_number parent);
      match bh with
      | None => kfault BUG_ON
      | Some b =>
          match as_dir b with
          | None => kfault BAD_CAST
          | Some recs =>
              match lookup_scan (Z.to_nat (dir_children_count parent))
                      recs name with
              | Fault f => kfault f
              | Ret None => mret None
              | Ret (Some record) =>
                  sfs_inode ← simplefs_get_inode (rec_inode_no record);
                  match sfs_inode with
                  | None => kfault NULL_DEREF
                  | Some i =>
                      mret (Some {| i_ino := rec_inode_no record;
                                    i_private := Some i |})
                  end
              end
          end
      end
  end.

(** ** simplefs_fill_super *)

(** Runs on the VFS super block before [s_fs_info] is set; the value is
    the return code with, on success, the root inode under [s_root]. *)
Definition simplefs_fill_super : kernel (errno + inode) :=
  bh ← sb_bread SIMPLEFS_SUPERBLOCK_BLOCK_NUMBER;
  match bh with
  | None => kfault BUG_ON
  | Some b =>
      match as_super b with
      | None => kfault BAD_CAST
      | Some sb_disk =>
          if negb (magic sb_disk =? SIMPLEFS_MAGIC) then mret (inl EPERM)
          else if negb (block_size sb_disk =? SIMPLEFS_DEFAULT_BLOCK_SIZE)
          then mret (inl EPERM)
          else
            set_sb sb_disk;;
            root ← simplefs_get_inode SIMPLEFS_ROOTDIR_INODE_NUMBER;
            mret (inr {| i_ino := SIMPLEFS_ROOTDIR_INODE_NUMBER;
                         i_private := root |})
      end
  end.

(** ** simplefs_mkdir and simplefs_create *)

Definition simplefs_mkdir (dir : inode) (name : string) (mode : Z)
  : kernel ((errno + inode) * inode) :=
  simplefs_create_fs_object dir name (Z.lor S_IFDIR mode).

(** [excl] is not used. *)
Definition simplefs_create (dir : inode) (name : string) (mode : Z)
    (excl : bool) : kernel ((errno + inode) * inode) :=
  simplefs_create_fs_object dir name mode.

(** ** simplefs_iterate *)

(** [sizeof(struct simplefs_dir_record)], by which the position moves
    for each record. *)
Variable SIMPLEFS_DIR_RECORD_SIZE : Z.

(** [for (i = 0; i < dir_children_count; i++) { dir_emit(ctx,
    record->filename, SIMPLEFS_FILENAME_MAXLEN, record->inode_no,
    DT_UNKNOWN); ctx->pos += sizeof(struct simplefs_dir_record);
    record++; }] with [n] iterations left and [pos] the value of
    [ctx->pos]: the entries handed to [dir_emit], in order, and
    [ctx->pos] after the loop.  The return value of [dir_emit] is not
    looked at. *)
Fixpoint iterate_loop (n : nat) (recs : list simplefs_dir_record) (pos : Z)
  : result (list dirent * Z) :=
  match n with
  | O => Ret ([], pos)
  | S n' =>
      match recs with
      | [] => Fault OUT_OF_BOUNDS
      | r :: rest =>
          match iterate_loop n' rest
                  (to_s64 (pos + SIMPLEFS_DIR_RECORD_SIZE)) with
          | Fault f => Fault f
          | Ret (es, pos') =>
              Ret ({| d_name := filename r;
                      d_namlen := SIMPLEFS_FILENAME_MAXLEN;
                      d_ino := rec_inode_no r;
                      d_off := pos |} :: es, pos')
          end
      end
  end.

(** The value is the return code, the entries handed to [dir_emit] and
    [ctx->pos] on return. *)
Definition simplefs_iterate (filp : inode) (ctx_pos : Z)
  : kernel ((dir_errno + unit) * list dirent * Z) :=
  if negb (ctx_pos =? 0) then mret (inr tt, [], ctx_pos)
  else
    match i_private filp with
    | None => kfault NULL_DEREF
    | Some sfs_inode =>
        if negb (S_ISDIR (mode sfs_inode))
        then mret (inl ENOTDIR, [], ctx_pos)
        else
          bh ← sb_bread (data_block_number sfs_inode);
          match bh with
          | None => kfault BUG_ON
          | Some b =>
              match as_dir b with
              | None => kfault BAD_CAST
              | Some recs =>
                  match iterate_loop
                          (Z.to_nat (dir_children_count sfs_inode))
                          recs ctx_pos with
                  | Fault f => kfault f
                  | Ret (es, pos') => mret (inr tt, es, pos')
                  end
              end
          end
    end.

End Simplefs.

(** ** Invariants of a mounted file system *)

(** The block of the superblock holds the superblock the mounted file
    system works on. *)
Definition superblock_synced (SB_BLOCK : Z) (s : super_block) : Prop :=
  0 <= SB_BLOCK
  /\ s_bdev s !! Z.to_nat SB_BLOCK = Some (BSuper (s_fs_info s)).

(** The entries [simplefs_iterate] hands over for the records [recs],
    from position 0 on. *)
Definition listing (MAXLEN SIZE : Z) (recs : list simplefs_dir_record)
  : list dirent :=
  imap (fun j r => {| d_name := filename r; d_namlen := MAXLEN;
                      d_ino := rec_inode_no r;
                      d_off := Z.of_nat j * SIZE |}) recs.

(** The live records of the inode table: the first [inodes_count]. *)
Definition live_inodes (s : super_block) (tbl : list simplefs_inode)
  : list simplefs_inode :=
  take (Z.to_nat (inodes_count (s_fs_info s))) tbl.

(** No data block of a live object is in the free set (the bits of the
    blocks 0 to 2 are never looked at by the allocator). *)
Definition blocks_busy (INO_BLOCK : Z) (s : super_block) : Prop :=
  forall tbl c,
    s_bdev s !! Z.to_nat INO_BLOCK = Some (BInodes tbl) ->
    c ∈ live_inodes s tbl ->
    3 <= data_block_number c ->
    Z.testbit (free_blocks (s_fs_info s)) (data_block_number c) = false.

(** ** A concrete instance

    Values for the constants of [super.h] and a small formatted image:
    the root directory (inode 1, data block 2) holds one file (inode 2,
    data block 3).  The inode table has two live records; the block
    behind them holds what the device held when it was formatted, here the
    record of an object numbered 10.  The functions are evaluated on the
    image below. *)
Module Image.

Definition MAGIC : Z := 268640275.          (* 0x10032013 *)
Definition BLOCK_SIZE : Z := 4096.
Definition FILENAME_MAXLEN : Z := 255.
Definition START_INO : Z := 10.
Definition RESERVED_INODES : Z := 3.
Definition ROOTDIR_INODE_NUMBER : Z := 1.
Definition SUPERBLOCK_BLOCK_NUMBER : Z := 0.
Definition INODESTORE_BLOCK_NUMBER : Z := 1.
Definition MAX_OBJECTS : Z := 64.

Definition root_inode : simplefs_inode :=
  {| mode := S_IFDIR; inode_no := 1; data_block_number := 2;
     dir_children_count := 1 |}.
Definition file_inode : simplefs_inode :=
  {| mode := S_IFREG; inode_no := 2; data_block_number := 3;
     dir_children_count := 4 |}.
Definition stale_inode : simplefs_inode :=
  {| mode := S_IFREG; inode_no := 10; data_block_number := 4;
     dir_children_count := 7 |}.
Definition blank_inode : simplefs_inode :=
  {| mode := 0; inode_no := 0; data_block_number := 0;
     dir_children_count := 0 |}.
Definition blank_record : simplefs_dir_record :=
  {| filename := EmptyString; rec_inode_no := 0 |}.

Definition disk_sb : simplefs_super_block :=
  {| version := 1; magic := MAGIC; block_size := BLOCK_SIZE;
     inodes_count := 2; free_blocks := 2 ^ 64 - 1 - 8 |}.

Definition abcd : list Byte.byte := [Byte.x61; Byte.x62; Byte.x63; Byte.x64].

Definition root_records : list simplefs_dir_record :=
  [{| filename := "hello"; rec_inode_no := 2 |}; blank_record; blank_record].

Definition table : list simplefs_inode :=
  [root_inode; file_inode; stale_inode; blank_inode].

Definition device : list block :=
  [ BSuper disk_sb;
    BInodes table;
    BDir root_records;
    BData (abcd ++ repeat Byte.x00 4);
    BData (repeat Byte.x00 8);
    BDir [blank_record; blank_record] ].

Definition mounted : super_block :=
  {| s_fs_info := disk_sb; s_bdev := device; s_io := [] |}.

Definition root : inode := {| i_ino := 1; i_private := Some root_inode |}.
Definition file : inode := {| i_ino := 2; i_private := Some file_inode |}.

Definition with_bitmask (fb : Z) : super_block :=
  {| s_fs_info := with_free_blocks disk_sb fb; s_bdev := device; s_io := [] |}.

(** The VFS super block handed to [simplefs_fill_super] for a device
    whose block 0 is [sb]; [s_fs_info] is not set yet. *)
Definition unmounted (sb : simplefs_super_block) : super_block :=
  {| s_fs_info := {| version := 0; magic := 0; block_size := 0;
                     inodes_count := 0; free_blocks := 0 |};
     s_bdev := <[0%nat := BSuper sb]> device; s_io := [] |}.

Definition bad_magic_sb : simplefs_super_block :=
  {| version := 1; magic := 61267; block_size := BLOCK_SIZE;
     inodes_count := 2; free_blocks := 2 ^ 64 - 1 - 8 |}.
Definition bad_size_sb : simplefs_super_block :=
  {| version := 1; magic := MAGIC; block_size := 1024;
     inodes_count := 2; free_blocks := 2 ^ 64 - 1 - 8 |}.

(** An inode numbered like the record left behind the live ones. *)
Definition unappended_inode : simplefs_inode :=
  {| mode := S_IFREG; inode_no := 10; data_block_number := 5;
     dir_children_count := 3 |}.

Definition sb_get_a_freeblock : kernel (errno + Z) :=
  simplefs_sb_get_a_freeblock SUPERBLOCK_BLOCK_NUMBER MAX_OBJECTS.
Definition inode_save : simplefs_inode -> kernel (errno + unit) :=
  simplefs_inode_save INODESTORE_BLOCK_NUMBER.
Definition get_inode : Z -> kernel (option simplefs_inode) :=
  simplefs_get_inode INODESTORE_BLOCK_NUMBER.
Definition write := simplefs_write INODESTORE_BLOCK_NUMBER.
Definition create :=
  simplefs_create_fs_object FILENAME_MAXLEN START_INO RESERVED_INODES
    SUPERBLOCK_BLOCK_NUMBER INODESTORE_BLOCK_NUMBER MAX_OBJECTS.
Definition lookup := simplefs_lookup INODESTORE_BLOCK_NUMBER.
Definition fill_super :=
  simplefs_fill_super MAGIC BLOCK_SIZE ROOTDIR_INODE_NUMBER
    SUPERBLOCK_BLOCK_NUMBER INODESTORE_BLOCK_NUMBER.

Definition DIR_RECORD_SIZE : Z := 264.
Definition iterate := simplefs_iterate FILENAME_MAXLEN DIR_RECORD_SIZE.
Definition mkdir :=
  simplefs_mkdir FILENAME_MAXLEN START_INO RESERVED_INODES
    SUPERBLOCK_BLOCK_NUMBER INODESTORE_BLOCK_NUMBER MAX_OBJECTS.
Definition inode_add : simplefs_inode -> kernel unit :=
  simplefs_inode_add SUPERBLOCK_BLOCK_NUMBER INODESTORE_BLOCK_NUMBER.

(** A file and a directory whose private inodes carry numbers that are
    in no record of the table. *)
Definition unstored_file : inode :=
  {| i_ino := 99;
     i_private := Some {| mode := S_IFREG; inode_no := 99;
                          data_block_number := 3;
                          dir_children_count := 4 |} |}.
Definition unstored_dir : inode :=
  {| i_ino := 77;
     i_private := Some {| mode := S_IFDIR; inode_no := 77;
                          data_block_number := 2;
                          dir_children_count := 1 |} |}.

(** An image whose only free block is block 40: the file "hello"
    (inode 2) holds block 31, the last of the 32 blocks of the device. *)
Definition held_inode : simplefs_inode :=
  {| mode := S_IFREG; inode_no := 2; data_block_number := 31;
     dir_children_count := 4 |}.
Definition crowded_sb : simplefs_super_block :=
  with_free_blocks disk_sb (2 ^ 40).
Definition crowded : super_block :=
  {| s_fs_info := crowded_sb;
     s_bdev := [BSuper crowded_sb;
                BInodes [root_inode; held_inode; blank_inode; blank_inode];
                BDir root_records]
               ++ repeat (BData (repeat Byte.x00 8)) 29;
     s_io := [] |}.
(** The record create stores for a regular file numbered 10 on block 31. *)
Definition twin_inode : simplefs_inode :=
  {| mode := S_IFREG; inode_no := 10; data_block_number := 31;
     dir_children_count := 0 |}.

(** The bound of an image that supports 16 objects. *)
Definition SMALL_MAX : Z := 16.
Definition small_create :=
  simplefs_create_fs_object FILENAME_MAXLEN START_INO RESERVED_INODES
    SUPERBLOCK_BLOCK_NUMBER INODESTORE_BLOCK_NUMBER SMALL_MAX.

End Image.

(** * Properties *)

(** ** Machine integers *)

Lemma to_u64_small z : 0 <= z < 2 ^ 64 -> to_u64 z = z.
Proof. intros H. unfold to_u64. apply Z.mod_small; lia. Qed.

Lemma to_s64_small z : - 2 ^ 63 <= z < 2 ^ 63 -> to_s64 z = z.
Proof. intros H. unfold to_s64. rewrite Z.mod_small; lia. Qed.

Lemma to_int_small z : - 2 ^ 31 <= z < 2 ^ 31 -> to_int z = z.
Proof. intros H. unfold to_int. rewrite Z.mod_small; lia. Qed.

Lemma pow2_lt_pow2 i j : 0 <= i < j -> 0 < 2 ^ i < 2 ^ j.
Proof.
  intros H. split; [apply Z.pow_pos_nonneg; lia|].
  apply Z.pow_lt_mono_r; lia.
Qed.

Lemma int_shl_1_low i : 0 <= i < 31 -> int_shl_1 i = Ret (2 ^ i).
Proof.
  intros H. unfold int_shl_1.
  replace ((0 <=? i) && (i <? 32)) with true
    by (symmetry; apply andb_true_iff; split; [apply Z.leb_le|apply Z.ltb_lt]; lia).
  f_equal. apply to_int_small.
  pose proof (pow2_lt_pow2 i 31). lia.
Qed.

Lemma land_pow2_eqb fb i :
  0 <= i -> (Z.land fb (2 ^ i) =? 0) = negb (Z.testbit fb i).
Proof.
  intros Hi. destruct (Z.testbit fb i) eqn:Hb; simpl.
  - apply Z.eqb_neq. intros H0.
    assert (Z.testbit (Z.land fb (2 ^ i)) i = false) as Hf
      by (rewrite H0; apply Z.bits_0).
    rewrite Z.land_spec, Hb, Z.pow2_bits_true in Hf by lia. discriminate.
  - apply Z.eqb_eq. apply Z.bits_inj'. intros k Hk.
    rewrite Z.land_spec, Z.bits_0, Z.pow2_bits_eqb by lia.
    destruct (Z.eqb_spec i k) as [->|]; [rewrite Hb|]; auto using andb_false_r.
Qed.

(** [fb &= ~(1 << i)] for a count below the sign bit: the conversion of
    the negative [int] to 64 bits extends the sign, and bit [i] alone is
    cleared. *)
Lemma land_lnot_pow2 fb i :
  0 <= fb < 2 ^ 64 -> 0 <= i < 31 ->
  Z.land fb (to_u64 (to_int (Z.lnot (2 ^ i)))) = Z.clearbit fb i.
Proof.
  intros Hfb Hi.
  pose proof (pow2_lt_pow2 i 31 ltac:(lia)) as Hp.
  rewrite to_int_small by (unfold Z.lnot; lia).
  apply Z.bits_inj'. intros k Hk.
  rewrite Z.land_spec, Z.clearbit_eqb by lia.
  unfold to_u64. destruct (Z.ltb_spec k 64) as [Hlt|Hge].
  - rewrite Z.mod_pow2_bits_low, Z.lnot_spec, Z.pow2_bits_eqb by lia.
    rewrite (Z.eqb_sym i k). reflexivity.
  - rewrite Z.mod_pow2_bits_high by lia. rewrite andb_false_r.
    assert (Z.testbit fb k = false) as ->; [|reflexivity].
    destruct (Z.eq_dec fb 0) as [->|Hne]; [apply Z.bits_0|].
    apply Z.bits_above_log2; [lia|].
    apply Z.lt_le_trans with 64; [|lia].
    apply Z.log2_lt_pow2; lia.
Qed.

Lemma leb_true_of x y : x <= y -> (x <=? y) = true.
Proof. apply Z.leb_le. Qed.

Lemma leb_false_of x y : y < x -> (x <=? y) = false.
Proof. apply Z.leb_gt. Qed.

(** ** The monad *)

Lemma kbind_run {A B} (m : kernel A) (k : A -> kernel B) s :
  (m ≫= k) s = match m s with
                | Ret (a, s') => k a s'
                | Fault f => Fault f
                end.
Proof. reflexivity. Qed.

Lemma kret_run {A} (a : A) s : (mret a : kernel A) s = Ret (a, s).
Proof. reflexivity. Qed.

(** ** The buffer cache *)

Lemma sb_bread_inv n s r s' :
  sb_bread n s = Ret (r, s') ->
  s' = s /\ (forall b, r = Some b -> 0 <= n /\ s_bdev s !! Z.to_nat n = Some b).
Proof.
  unfold sb_bread. intros H. injection H as <- <-. split; [reflexivity|].
  intros b Hb. destruct (Z.leb_spec 0 n); [auto|discriminate].
Qed.

Lemma sb_bread_ok n s b :
  0 <= n -> s_bdev s !! Z.to_nat n = Some b -> sb_bread n s = Ret (Some b, s).
Proof. intros Hn Hb. unfold sb_bread. rewrite leb_true_of, Hb by lia. reflexivity. Qed.

Lemma emit_after_store mk n b s :
  is_Some (s_bdev s !! Z.to_nat n) ->
  emit mk n {| s_fs_info := s_fs_info s;
               s_bdev := <[Z.to_nat n := b]> (s_bdev s); s_io := s_io s |}
  = Ret (tt, {| s_fs_info := s_fs_info s;
                s_bdev := <[Z.to_nat n := b]> (s_bdev s);
                s_io := s_io s ++ [mk n b] |}).
Proof.
  intros Hs. unfold emit. cbn.
  rewrite list_lookup_insert_eq by (apply lookup_lt_is_Some; exact Hs).
  reflexivity.
Qed.

Section SuperblockManager.

Variable SB_BLOCK : Z.
Variable MAX : Z.

Lemma simplefs_sb_sync_ok s :
  0 <= SB_BLOCK -> is_Some (s_bdev s !! Z.to_nat SB_BLOCK) ->
  simplefs_sb_sync SB_BLOCK s = Ret (tt, synced SB_BLOCK s).
Proof.
  intros Hsb Hs. pose proof Hs as [b Hb]. unfold simplefs_sb_sync.
  unfold mbind, kernel_bind, kbind. rewrite (sb_bread_ok _ _ b) by assumption.
  unfold get_sb, store_buffer, mark_buffer_dirty, sync_dirty_buffer.
  pose proof (emit_after_store MarkDirty SB_BLOCK (BSuper (s_fs_info s)) s Hs) as E.
  cbn in E |- *. rewrite E. unfold emit. cbn.
  rewrite list_lookup_insert_eq by (apply lookup_lt_is_Some; exact Hs).
  unfold synced. rewrite <- (app_assoc (s_io s)). reflexivity.
Qed.

Lemma simplefs_sb_sync_inv s u s' :
  simplefs_sb_sync SB_BLOCK s = Ret (u, s') ->
  0 <= SB_BLOCK /\ is_Some (s_bdev s !! Z.to_nat SB_BLOCK)
  /\ s' = synced SB_BLOCK s.
Proof.
  intros H.
  assert (0 <= SB_BLOCK /\ is_Some (s_bdev s !! Z.to_nat SB_BLOCK)) as [Hn Hs].
  { unfold simplefs_sb_sync, mbind, kernel_bind, kbind in H.
    destruct (sb_bread SB_BLOCK s) as [[r s0]|] eqn:E; [|discriminate].
    apply sb_bread_inv in E as [-> Hr].
    destruct r as [b|]; [|discriminate].
    destruct (Hr b eq_refl) as [Hn Hb]. eauto. }
  rewrite simplefs_sb_sync_ok in H by assumption.
  injection H as <-. auto.
Qed.

(** What the scan loop computes while every count stays below the sign
    bit: the lowest set bit from [i] on, or the bound. *)
Lemma freeblock_scan_spec fb n i :
  0 <= i -> i + Z.of_nat n <= 31 ->
  exists j, freeblock_scan n i fb = Ret j
    /\ i <= j <= i + Z.of_nat n
    /\ (forall k, i <= k < j -> Z.testbit fb k = false)
    /\ (j < i + Z.of_nat n -> Z.testbit fb j = true).
Proof.
  revert i. induction n as [|n IH]; intros i Hi Hn.
  - exists i. split; [reflexivity|]. split; [lia|]. split; lia.
  - cbn [freeblock_scan]. rewrite int_shl_1_low by lia.
    rewrite to_u64_small
      by (pose proof (pow2_lt_pow2 i 64 ltac:(lia)); lia).
    rewrite land_pow2_eqb by lia.
    destruct (Z.testbit fb i) eqn:Hb; simpl.
    + exists i. split; [reflexivity|]. split; [lia|]. split; [lia|auto].
    + destruct (IH (i + 1)) as (j & Hj & Hr & Hlow & Hset); [lia|lia|].
      exists j. split; [exact Hj|]. split; [lia|]. split.
      * intros k Hk. destruct (Z.eq_dec k i) as [->|]; [exact Hb|].
        apply Hlow. lia.
      * intros Hlt. apply Hset. lia.
Qed.

Lemma freeblock_scan_first fb n i j :
  0 <= i -> i + Z.of_nat n <= 31 ->
  i <= j < i + Z.of_nat n ->
  Z.testbit fb j = true ->
  (forall k, i <= k < j -> Z.testbit fb k = false) ->
  freeblock_scan n i fb = Ret j.
Proof.
  intros Hi Hn Hj Hset Hlow.
  destruct (freeblock_scan_spec fb n i Hi Hn) as (j' & -> & Hr & Hlow' & Hset').
  f_equal. destruct (Z.lt_trichotomy j' j) as [Hlt|[->|Hgt]]; [|reflexivity|].
  - rewrite Hlow in Hset' by lia. discriminate Hset'. lia.
  - rewrite Hlow' in Hset by lia. discriminate.
Qed.

Lemma freeblock_scan_none fb n i :
  0 <= i -> i + Z.of_nat n <= 31 ->
  (forall k, i <= k < i + Z.of_nat n -> Z.testbit fb k = false) ->
  freeblock_scan n i fb = Ret (i + Z.of_nat n).
Proof.
  intros Hi Hn Hlow.
  destruct (freeblock_scan_spec fb n i Hi Hn) as (j' & -> & Hr & Hlow' & Hset').
  f_equal. destruct (Z.eq_dec j' (i + Z.of_nat n)) as [|Hne]; [assumption|].
  rewrite Hlow in Hset' by lia. discriminate Hset'. lia.
Qed.

(** The two ways [simplefs_sb_get_a_freeblock] returns: no-space with the
    state as it was, or a block with the bitmask updated and the
    superblock written back. *)
Lemma simplefs_sb_get_a_freeblock_inv s r s1 :
  simplefs_sb_get_a_freeblock SB_BLOCK MAX s = Ret (r, s1) ->
  (r = inl ENOSPC /\ s1 = s)
  \/ (exists blk fb, r = inr blk /\ s1 = allocated SB_BLOCK s fb
        /\ 0 <= SB_BLOCK /\ is_Some (s_bdev s !! Z.to_nat SB_BLOCK)).
Proof.
  unfold simplefs_sb_get_a_freeblock, mbind, kernel_bind, kbind, get_sb.
  destruct (freeblock_scan _ _ _) as [i|]; [|discriminate].
  destruct (i =? MAX).
  - intros H. injection H as <- <-. left. auto.
  - destruct (int_shl_1 i) as [m|]; [|discriminate]. cbn [set_sb].
    match goal with |- context [simplefs_sb_sync _ ?s0] =>
      destruct (simplefs_sb_sync SB_BLOCK s0) as [[u s2]|] eqn:E end;
      [|discriminate].
    apply simplefs_sb_sync_inv in E as (Hn & Hs & ->).
    intros H. injection H as <- <-. right. eexists _, _.
    split; [reflexivity|]. split; [reflexivity|]. auto.
Qed.

(** First fit, for a bound that keeps every shift below the sign bit. *)
Lemma freeblock_first_fit s j :
  3 <= MAX <= 31 ->
  0 <= free_blocks (s_fs_info s) < 2 ^ 64 ->
  0 <= SB_BLOCK -> is_Some (s_bdev s !! Z.to_nat SB_BLOCK) ->
  3 <= j < MAX ->
  Z.testbit (free_blocks (s_fs_info s)) j = true ->
  (forall k, 3 <= k < j -> Z.testbit (free_blocks (s_fs_info s)) k = false) ->
  simplefs_sb_get_a_freeblock SB_BLOCK MAX s =
    Ret (inr j,
         allocated SB_BLOCK s (Z.clearbit (free_blocks (s_fs_info s)) j)).
Proof.
  intros HM Hfb Hsb Hblk Hj Hset Hlow.
  unfold simplefs_sb_get_a_freeblock, mbind, kernel_bind, kbind, get_sb.
  rewrite (freeblock_scan_first _ _ 3 j) by (auto; lia).
  replace (j =? MAX) with false by (symmetry; apply Z.eqb_neq; lia).
  rewrite int_shl_1_low by lia. cbn [set_sb].
  rewrite land_lnot_pow2 by lia.
  rewrite simplefs_sb_sync_ok by assumption. reflexivity.
Qed.

Lemma freeblock_no_space s :
  3 <= MAX <= 31 ->
  (forall k, 3 <= k < MAX -> Z.testbit (free_blocks (s_fs_info s)) k = false) ->
  simplefs_sb_get_a_freeblock SB_BLOCK MAX s = Ret (inl ENOSPC, s).
Proof.
  intros HM Hlow.
  unfold simplefs_sb_get_a_freeblock, mbind, kernel_bind, kbind, get_sb.
  rewrite freeblock_scan_none by (try lia; intros k Hk; apply Hlow; lia).
  replace (3 + Z.of_nat (Z.to_nat (MAX - 3)) =? MAX) with true
    by (symmetry; apply Z.eqb_eq; lia).
  reflexivity.
Qed.

End SuperblockManager.

(** A store into a buffer, then [mark_buffer_dirty] and
    [sync_dirty_buffer] on it, in front of a continuation [k]. *)
Lemma write_back_run {A} n b (k : kernel A) s :
  is_Some (s_bdev s !! Z.to_nat n) ->
  (store_buffer n b;; mark_buffer_dirty n;; sync_dirty_buffer n;; k) s
  = k (block_written s n b).
Proof.
  intros Hs. unfold mbind, kernel_bind, kbind, store_buffer,
    mark_buffer_dirty, sync_dirty_buffer.
  pose proof (emit_after_store MarkDirty n b s Hs) as E. cbn in E |- *.
  rewrite E. unfold emit. cbn.
  rewrite list_lookup_insert_eq by (apply lookup_lt_is_Some; exact Hs).
  unfold block_written. rewrite <- (app_assoc (s_io s)). reflexivity.
Qed.

(** ** The inode store *)

Section InodeStore.

Variable SB_BLOCK : Z.
Variable INO_BLOCK : Z.

Lemma inode_store_bread_ok s tbl :
  0 <= INO_BLOCK -> s_bdev s !! Z.to_nat INO_BLOCK = Some (BInodes tbl) ->
  inode_store_bread INO_BLOCK s = Ret (tbl, s).
Proof.
  intros Hn Hb. unfold inode_store_bread, mbind, kernel_bind, kbind.
  rewrite (sb_bread_ok _ _ _ Hn Hb). reflexivity.
Qed.

Lemma inode_store_bread_inv s tbl s' :
  inode_store_bread INO_BLOCK s = Ret (tbl, s') ->
  s' = s /\ 0 <= INO_BLOCK
  /\ s_bdev s !! Z.to_nat INO_BLOCK = Some (BInodes tbl).
Proof.
  unfold inode_store_bread, mbind, kernel_bind, kbind. intros H.
  destruct (sb_bread INO_BLOCK s) as [[r s0]|] eqn:E; [|discriminate].
  apply sb_bread_inv in E as [-> Hr].
  destruct r as [b|]; [|discriminate].
  destruct (Hr b eq_refl) as [Hn Hb].
  destruct b; try discriminate. injection H as <- <-. auto.
Qed.

(** *** simplefs_get_inode: the scan stays within [inodes_count] records *)

Lemma get_inode_loop_found n cells ino k c :
  (k < n)%nat -> cells !! k = Some c -> inode_no c = ino ->
  (forall j cj, (j < k)%nat -> cells !! j = Some cj -> inode_no cj <> ino) ->
  get_inode_loop n cells ino = Ret (Some c).
Proof.
  revert cells k. induction n as [|n IH]; intros cells k Hk Hc Hino Hfirst; [lia|].
  destruct cells as [|c0 rest]; [discriminate|]. cbn [get_inode_loop].
  destruct k as [|k].
  - injection Hc as ->. rewrite Hino, Z.eqb_refl. reflexivity.
  - replace (inode_no c0 =? ino) with false
      by (symmetry; apply Z.eqb_neq; apply (Hfirst 0%nat c0); [lia|reflexivity]).
    apply (IH rest k); [lia|exact Hc|exact Hino|].
    intros j cj Hj Hcj. apply (Hfirst (S j) cj); [lia|exact Hcj].
Qed.

Lemma get_inode_loop_absent n cells ino :
  (n <= length cells)%nat ->
  (forall j cj, (j < n)%nat -> cells !! j = Some cj -> inode_no cj <> ino) ->
  get_inode_loop n cells ino = Ret None.
Proof.
  revert cells. induction n as [|n IH]; intros cells Hlen Hno; [reflexivity|].
  destruct cells as [|c0 rest]; [simpl in Hlen; lia|]. cbn [get_inode_loop].
  replace (inode_no c0 =? ino) with false
    by (symmetry; apply Z.eqb_neq; apply (Hno 0%nat c0); [lia|reflexivity]).
  apply IH; [simpl in Hlen; lia|].
  intros j cj Hj Hcj. apply (Hno (S j) cj); [lia|exact Hcj].
Qed.

(** The records from index [n] on are never read by [get_inode_loop n]. *)
Lemma get_inode_loop_prefix n cells cells' ino :
  take n cells = take n cells' ->
  get_inode_loop n cells ino = get_inode_loop n cells' ino.
Proof.
  revert cells cells'. induction n as [|n IH]; intros cells cells' H; [reflexivity|].
  destruct cells as [|c rest], cells' as [|c' rest']; try discriminate; [reflexivity|].
  cbn in H. injection H as -> H. cbn [get_inode_loop].
  destruct (inode_no c' =? ino); [reflexivity|]. apply IH, H.
Qed.

(** *** simplefs_inode_search: the record at index [inodes_count] is read *)

Lemma inode_search_loop_found n cells idx ino k c :
  (k <= n)%nat -> cells !! k = Some c -> inode_no c = ino ->
  (forall j cj, (j < k)%nat -> cells !! j = Some cj -> inode_no cj <> ino) ->
  inode_search_loop n cells idx ino = Ret (Some (idx + k)%nat).
Proof.
  revert n cells idx. induction k as [|k IH]; intros n cells idx Hk Hc Hino Hfirst.
  - destruct cells as [|c0 rest]; [discriminate|]. injection Hc as ->.
    destruct n; cbn [inode_search_loop]; rewrite Hino, Z.eqb_refl;
      f_equal; f_equal; lia.
  - destruct cells as [|c0 rest]; [discriminate|].
    destruct n as [|n]; [lia|]. cbn [inode_search_loop].
    replace (inode_no c0 =? ino) with false
      by (symmetry; apply Z.eqb_neq; apply (Hfirst 0%nat c0); [lia|reflexivity]).
    rewrite (IH n rest (S idx)); [f_equal; f_equal; lia|lia|exact Hc|exact Hino|].
    intros j cj Hj Hcj. apply (Hfirst (S j) cj); [lia|exact Hcj].
Qed.

Lemma inode_search_loop_absent n cells idx ino :
  (n < length cells)%nat ->
  (forall j cj, (j <= n)%nat -> cells !! j = Some cj -> inode_no cj <> ino) ->
  inode_search_loop n cells idx ino = Ret None.
Proof.
  revert cells idx. induction n as [|n IH]; intros cells idx Hlen Hno;
    (destruct cells as [|c0 rest]; [simpl in Hlen; lia|]); cbn [inode_search_loop];
    (replace (inode_no c0 =? ino) with false
      by (symmetry; apply Z.eqb_neq; apply (Hno 0%nat c0); [lia|reflexivity]));
    [reflexivity|].
  apply IH; [simpl in Hlen; lia|].
  intros j cj Hj Hcj. apply (Hno (S j) cj); [lia|exact Hcj].
Qed.

Lemma inode_search_loop_Some n cells idx ino p :
  inode_search_loop n cells idx ino = Ret (Some p) ->
  exists k c, p = (idx + k)%nat /\ (k <= n)%nat /\ cells !! k = Some c
    /\ inode_no c = ino
    /\ (forall j cj, (j < k)%nat -> cells !! j = Some cj -> inode_no cj <> ino).
Proof.
  revert n idx. induction cells as [|c0 rest IH]; intros n idx H; [discriminate|].
  cbn [inode_search_loop] in H. destruct (Z.eqb_spec (inode_no c0) ino) as [He|Hne].
  - injection H as <-. exists 0%nat, c0.
    split; [lia|]. split; [lia|]. split; [reflexivity|]. split; [exact He|].
    intros j cj Hj; lia.
  - destruct n as [|n]; [discriminate|].
    apply IH in H as (k & c & -> & Hk & Hc & Hino & Hfirst).
    exists (S k), c. split; [lia|]. split; [lia|]. split; [exact Hc|].
    split; [exact Hino|]. intros [|j] cj Hj Hcj.
    + injection Hcj as <-. exact Hne.
    + apply (Hfirst j cj); [lia|exact Hcj].
Qed.

(** *** The three operations on the store *)

Lemma simplefs_get_inode_run s tbl ino :
  0 <= INO_BLOCK -> s_bdev s !! Z.to_nat INO_BLOCK = Some (BInodes tbl) ->
  simplefs_get_inode INO_BLOCK ino s =
    match get_inode_loop (Z.to_nat (inodes_count (s_fs_info s))) tbl ino with
    | Fault f => Fault f
    | Ret r => Ret (r, s)
    end.
Proof.
  intros Hn Hb. unfold simplefs_get_inode, mbind, kernel_bind, kbind, get_sb.
  rewrite (inode_store_bread_ok s tbl Hn Hb).
  destruct (get_inode_loop _ _ _); reflexivity.
Qed.

Lemma simplefs_inode_add_inv i s u s' :
  simplefs_inode_add SB_BLOCK INO_BLOCK i s = Ret (u, s') ->
  exists tbl,
    0 <= INO_BLOCK /\ s_bdev s !! Z.to_nat INO_BLOCK = Some (BInodes tbl)
    /\ inodes_count (s_fs_info s) < Z.of_nat (length tbl)
    /\ 0 <= SB_BLOCK /\ is_Some (s_bdev s !! Z.to_nat SB_BLOCK)
    /\ s' = inode_appended SB_BLOCK INO_BLOCK s tbl i.
Proof.
  unfold simplefs_inode_add. unfold mbind at 1, kernel_bind, kbind. intros H.
  destruct (inode_store_bread INO_BLOCK s) as [[tbl s0]|] eqn:E; [|discriminate].
  apply inode_store_bread_inv in E as (-> & Hn & Hb). exists tbl.
  unfold mbind at 1, kernel_bind, kbind, get_sb in H.
  destruct (Z.leb_spec (Z.of_nat (length tbl)) (inodes_count (s_fs_info s)))
    as [|Hlt]; [discriminate|].
  unfold mbind, kernel_bind, kbind, store_buffer, set_sb, mark_buffer_dirty,
    emit in H. cbn in H.
  rewrite list_lookup_insert_eq in H
    by (apply lookup_lt_is_Some; eauto).
  match type of H with context [simplefs_sb_sync _ ?s0] =>
    destruct (simplefs_sb_sync SB_BLOCK s0) as [[u1 s2]|] eqn:E end;
    [|discriminate].
  apply simplefs_sb_sync_inv in E as (Hsb & Hs & ->). cbn in Hs.
  injection H as _ <-. repeat (split; [assumption|]). split; [|reflexivity].
  apply lookup_lt_is_Some. apply lookup_lt_is_Some in Hs.
  rewrite length_insert in Hs. exact Hs.
Qed.

Lemma simplefs_inode_save_inv i s r s' :
  simplefs_inode_save INO_BLOCK i s = Ret (r, s') ->
  exists tbl,
    0 <= INO_BLOCK /\ s_bdev s !! Z.to_nat INO_BLOCK = Some (BInodes tbl)
    /\ ((simplefs_inode_search (s_fs_info s) tbl i = Ret None
         /\ r = inl EIO /\ s' = s)
        \/ (exists k,
              simplefs_inode_search (s_fs_info s) tbl i = Ret (Some k)
              /\ r = inr tt
              /\ s' = block_written s INO_BLOCK (BInodes (<[k := i]> tbl)))).
Proof.
  unfold simplefs_inode_save. unfold mbind at 1, kernel_bind, kbind. intros H.
  destruct (inode_store_bread INO_BLOCK s) as [[tbl s0]|] eqn:E; [|discriminate].
  apply inode_store_bread_inv in E as (-> & Hn & Hb). exists tbl.
  split; [assumption|]. split; [assumption|].
  unfold mbind at 1, kernel_bind, kbind, get_sb in H.
  destruct (simplefs_inode_search (s_fs_info s) tbl i) as [[k|]|]; [| |discriminate].
  - right. exists k. rewrite write_back_run in H by eauto.
    injection H as <- <-. auto.
  - left. injection H as <- <-. auto.
Qed.

End InodeStore.

(** ** simplefs_read *)

(** The normal returns of [simplefs_read] on a file with a private
    inode. *)
Lemma simplefs_read_inv filp ino buf_ok len ppos s r ppos' s' :
  i_private filp = Some ino ->
  simplefs_read filp buf_ok len ppos s = Ret (r, ppos', s') ->
  s' = s
  /\ ((file_size ino <= to_u64 ppos /\ r = inr (0, []) /\ ppos' = ppos)
      \/ (to_u64 ppos < file_size ino
          /\ (data_block_number ino < 0
              \/ s_bdev s !! Z.to_nat (data_block_number ino) = None)
          /\ r = inr (0, []) /\ ppos' = ppos)
      \/ (to_u64 ppos < file_size ino /\ r = inl EFAULT /\ ppos' = ppos)
      \/ (exists buffer,
            let nbytes := to_int (Z.min (file_size ino) len) in
            to_u64 ppos < file_size ino
            /\ s_bdev s !! Z.to_nat (data_block_number ino) = Some (BData buffer)
            /\ to_u64 nbytes <= Z.of_nat (length buffer)
            /\ r = inr (nbytes, take (Z.to_nat (to_u64 nbytes)) buffer)
            /\ ppos' = to_s64 (ppos + nbytes))).
Proof.
  intros Hp. unfold simplefs_read. rewrite Hp.
  destruct (Z.leb_spec (file_size ino) (to_u64 ppos)) as [Hle|Hlt].
  - intros H. injection H as <- <- <-. auto 10.
  - unfold mbind, kernel_bind, kbind, sb_bread.
    destruct (Z.leb_spec 0 (data_block_number ino)) as [Hn|Hn].
    + destruct (s_bdev s !! Z.to_nat (data_block_number ino)) as [b|] eqn:Hb.
      * destruct b as [| | |buffer]; cbn [as_data]; try discriminate.
        destruct (negb buf_ok && _).
        { intros H. injection H as <- <- <-. auto 10. }
        destruct (Z.ltb_spec (Z.of_nat (length buffer))
                    (to_u64 (to_int (Z.min (file_size ino) len)))) as [|Hfit];
          [discriminate|].
        intros H. injection H as <- <- <-. split; [reflexivity|].
        right. right. right. exists buffer. cbn zeta. auto 10.
      * intros H. injection H as <- <- <-. auto 10.
    + intros H. injection H as <- <- <-. split; [reflexivity|].
      right. left. auto.
Qed.

(** C7: for every object and every offset with offset >= file_size, read
    returns zero bytes and no error, whatever the length asked for, and
    leaves the file position (and the file system) as it was. *)
Theorem read_at_or_past_end_returns_nothing filp ino buf_ok len ppos s :
  i_private filp = Some ino ->
  0 <= ppos < 2 ^ 63 ->
  file_size ino <= ppos ->
  simplefs_read filp buf_ok len ppos s = Ret (inr (0, []), ppos, s).
Proof.
  intros Hp Hpos Hle. unfold simplefs_read. rewrite Hp.
  rewrite to_u64_small by lia. rewrite leb_true_of by lia. reflexivity.
Qed.

Lemma read_at_or_past_end_witness :
  simplefs_read Image.file false 100 4 Image.mounted
  = Ret (inr (0, []), 4, Image.mounted).
Proof.
  apply (read_at_or_past_end_returns_nothing Image.file Image.file_inode).
  - reflexivity.
  - lia.
  - simpl. lia.
Defined.

(** C10: a read that returns a byte count leaves the whole file system
    state (superblock, inode store, data blocks, write-back requests) as
    it was; the file position advances by the number of bytes returned,
    which is the number of bytes delivered. *)
Theorem read_changes_only_the_position
    filp ino buf_ok len ppos s n data ppos' s' :
  i_private filp = Some ino ->
  0 <= file_size ino ->
  0 <= ppos -> 0 <= len < 2 ^ 31 -> ppos + len < 2 ^ 63 ->
  simplefs_read filp buf_ok len ppos s = Ret (inr (n, data), ppos', s') ->
  s' = s /\ ppos' = ppos + n /\ Z.of_nat (length data) = n.
Proof.
  intros Hp Hsz Hpos Hlen Hend H.
  apply (simplefs_read_inv _ _ _ _ _ _ _ _ _ Hp) in H as [-> H].
  split; [reflexivity|].
  destruct H as [(_ & E & ->)|[(_ & _ & E & ->)|[(_ & E & _)|(buffer & H)]]];
    try discriminate; try (injection E as -> ->; split; [lia|reflexivity]).
  cbn zeta in H. destruct H as (_ & _ & Hfit & E & ->).
  assert (0 <= Z.min (file_size ino) len < 2 ^ 31) as Hmin by lia.
  rewrite to_int_small in * by lia. rewrite to_u64_small in * by lia.
  injection E as -> ->. split.
  - apply to_s64_small. lia.
  - rewrite length_take. lia.
Qed.

Lemma read_changes_only_the_position_witness :
  simplefs_read Image.file true 3 0 Image.mounted
  = Ret (inr (3, [Byte.x61; Byte.x62; Byte.x63]), 3, Image.mounted)
  /\ 3 = 0 + 3
  /\ Z.of_nat (length [Byte.x61; Byte.x62; Byte.x63]) = 3.
Proof.
  split; [reflexivity|].
  apply (read_changes_only_the_position Image.file Image.file_inode true 3 0
           Image.mounted 3 [Byte.x61; Byte.x62; Byte.x63] 3 Image.mounted).
  - reflexivity.
  - simpl. lia.
  - lia.
  - lia.
  - lia.
  - reflexivity.
Defined.

(** The bytes a read delivers are the head of the data block, wherever
    the file position stands. *)
Lemma simplefs_read_delivers_block_head
    filp ino buf_ok len ppos s n data ppos' s' buffer :
  i_private filp = Some ino ->
  s_bdev s !! Z.to_nat (data_block_number ino) = Some (BData buffer) ->
  simplefs_read filp buf_ok len ppos s = Ret (inr (n, data), ppos', s') ->
  exists m, data = take m buffer.
Proof.
  intros Hp Hb H.
  apply (simplefs_read_inv _ _ _ _ _ _ _ _ _ Hp) in H as [-> H].
  destruct H as [(_ & E & _)|[(_ & _ & E & _)|[(_ & E & _)|(buffer' & H)]]];
    try discriminate; try (injection E as -> ->; exists 0%nat; reflexivity).
  cbn zeta in H. destruct H as (_ & Hb' & _ & E & _).
  rewrite Hb in Hb'. injection Hb' as <-. injection E as -> ->. eauto.
Qed.

(** C2: read(object, offset, length) with offset < file_size is to return
    min(file_size, length) bytes taken from the data block starting at
    position offset.  On the file of the image (size 4, content
    "abcd"), the read of 2 bytes at offset 2 delivers "ab", the bytes at
    position 0, not "cd"; the count and the advance of the position are
    as claimed. *)
Theorem read_ignores_offset :
  simplefs_read Image.file true 2 2 Image.mounted
  = Ret (inr (2, [Byte.x61; Byte.x62]), 4, Image.mounted)
  /\ Image.device !! 3%nat = Some (BData (Image.abcd ++ repeat Byte.x00 4))
  /\ take 2 (drop 2 (Image.abcd ++ repeat Byte.x00 4)) = [Byte.x63; Byte.x64].
Proof. repeat split. Qed.

(** ** simplefs_write *)

Section Write.

Variable INO_BLOCK : Z.

(** A write that reads its data block and returns a byte count: the
    bytes went into the block, the private inode carries the new size
    and [simplefs_inode_save] stored it. *)
Lemma simplefs_write_inv filp ino buf_ok bytes ppos s n filp' ppos' s' :
  i_private filp = Some ino ->
  0 <= data_block_number ino ->
  is_Some (s_bdev s !! Z.to_nat (data_block_number ino)) ->
  simplefs_write INO_BLOCK filp buf_ok bytes ppos s
  = Ret (inr n, filp', ppos', s') ->
  let len := Z.of_nat (length bytes) in
  let ino' := with_size ino (to_u64 (to_s64 (to_u64 ppos + len))) in
  exists buffer buffer' tbl k,
    s_bdev s !! Z.to_nat (data_block_number ino) = Some (BData buffer)
    /\ splice buffer ppos bytes = Some buffer'
    /\ n = len /\ filp' = with_private filp ino'
    /\ ppos' = to_s64 (to_u64 ppos + len)
    /\ s' = block_written
              (block_written s (data_block_number ino) (BData buffer'))
              INO_BLOCK (BInodes (<[k := ino']> tbl))
    /\ (k < length tbl)%nat
    /\ s_bdev s' !! Z.to_nat INO_BLOCK = Some (BInodes (<[k := ino']> tbl))
    /\ is_Some (s_bdev s' !! Z.to_nat (data_block_number ino)).
Proof.
  intros Hp Hn [b Hb]. unfold simplefs_write. rewrite Hp.
  unfold mbind at 1, kernel_bind, kbind.
  rewrite (sb_bread_ok _ _ b) by assumption.
  destruct b as [| | |buffer]; cbn [as_data]; try discriminate.
  destruct (negb buf_ok && _); [discriminate|].
  destruct (splice buffer ppos bytes) as [buffer'|] eqn:Hsp; [|discriminate].
  cbv zeta. rewrite write_back_run by eauto.
  unfold mbind, kernel_bind, kbind.
  match goal with |- context [simplefs_inode_save _ ?i ?s0] =>
    destruct (simplefs_inode_save INO_BLOCK i s0) as [[r s2]|] eqn:E end;
    [|discriminate].
  apply simplefs_inode_save_inv in E
    as (tbl & Hi & Htbl & [(_ & -> & _)|(k & Hk & -> & ->)]); [discriminate|].
  intros H. injection H as <- <- <- <-.
  exists buffer, buffer', tbl, k. repeat (split; [reflexivity || assumption|]).
  split; [|split].
  - unfold simplefs_inode_search in Hk.
    apply inode_search_loop_Some in Hk as (k' & c & -> & _ & Hc & _).
    apply lookup_lt_Some in Hc. exact Hc.
  - cbn. apply list_lookup_insert_eq. apply lookup_lt_Some in Htbl. exact Htbl.
  - cbn. apply lookup_lt_is_Some. rewrite !length_insert.
    apply lookup_lt_Some in Hb. exact Hb.
Qed.

Lemma write_end_offset ppos len :
  0 <= ppos -> 0 <= len -> ppos + len < 2 ^ 63 ->
  to_u64 (to_s64 (to_u64 ppos + len)) = ppos + len.
Proof.
  intros Hp Hl He. rewrite (to_u64_small ppos) by lia.
  rewrite to_s64_small by lia. apply to_u64_small. lia.
Qed.

(** C3: a successful write (the data block was read and a byte count
    returned) leaves file_size equal to offset + length(bytes), in the
    private inode and in the record of the inode store that the save
    overwrote, whatever the size was before; in particular a second
    successful write at the same offset leaves file_size equal to the
    second write's end offset, also when that is smaller. *)
Theorem write_sets_file_size_to_end_offset
    filp ino buf_ok bytes ppos s n filp1 ppos1 s1 :
  i_private filp = Some ino ->
  0 <= data_block_number ino ->
  is_Some (s_bdev s !! Z.to_nat (data_block_number ino)) ->
  0 <= ppos -> ppos + Z.of_nat (length bytes) < 2 ^ 63 ->
  simplefs_write INO_BLOCK filp buf_ok bytes ppos s
  = Ret (inr n, filp1, ppos1, s1) ->
  (exists ino1 tbl k,
     i_private filp1 = Some ino1
     /\ file_size ino1 = ppos + Z.of_nat (length bytes)
     /\ s_bdev s1 !! Z.to_nat INO_BLOCK = Some (BInodes tbl)
     /\ tbl !! k = Some ino1)
  /\ (forall buf_ok2 bytes2 n2 filp2 ppos2 s2,
        ppos + Z.of_nat (length bytes2) < 2 ^ 63 ->
        simplefs_write INO_BLOCK filp1 buf_ok2 bytes2 ppos s1
        = Ret (inr n2, filp2, ppos2, s2) ->
        exists ino2 tbl k,
          i_private filp2 = Some ino2
          /\ file_size ino2 = ppos + Z.of_nat (length bytes2)
          /\ s_bdev s2 !! Z.to_nat INO_BLOCK = Some (BInodes tbl)
          /\ tbl !! k = Some ino2).
Proof.
  intros Hp Hn Hs Hpos Hend H.
  assert (forall f i ok bs st m f' p' st',
            i_private f = Some i -> 0 <= data_block_number i ->
            is_Some (s_bdev st !! Z.to_nat (data_block_number i)) ->
            ppos + Z.of_nat (length bs) < 2 ^ 63 ->
            simplefs_write INO_BLOCK f ok bs ppos st = Ret (inr m, f', p', st') ->
            exists i' tbl k,
               (i_private f' = Some i'
                /\ file_size i' = ppos + Z.of_nat (length bs)
                /\ s_bdev st' !! Z.to_nat INO_BLOCK = Some (BInodes tbl)
                /\ tbl !! k = Some i')
               /\ data_block_number i' = data_block_number i
               /\ is_Some (s_bdev st' !! Z.to_nat (data_block_number i))) as Hone.
  { intros f i ok bs st m f' p' st' Hf Hblk Hsome Hlt Hw.
    pose proof (simplefs_write_inv _ _ _ _ _ _ _ _ _ _ Hf Hblk Hsome Hw) as Hinv.
    cbv zeta in Hinv.
    destruct Hinv
      as (buffer & buffer' & tbl & k & _ & _ & _ & -> & _ & _ & Hk & Hst & Hd).
    rewrite write_end_offset in Hst |- * by lia.
    exists (with_size i (ppos + Z.of_nat (length bs))),
      (<[k := with_size i (ppos + Z.of_nat (length bs))]> tbl), k.
    split; [|split; [reflexivity|exact Hd]].
    split; [reflexivity|]. split; [reflexivity|].
    split; [exact Hst|]. apply list_lookup_insert_eq. exact Hk. }
  destruct (Hone _ _ _ _ _ _ _ _ _ Hp Hn Hs Hend H)
    as (ino1 & tbl1 & k1 & Hfirst & Hblk1 & Hs1).
  split; [eauto|].
  intros buf_ok2 bytes2 n2 filp2 ppos2 s2 Hend2 H2.
  destruct Hfirst as (Hp1 & _).
  rewrite <- Hblk1 in Hs1.
  destruct (Hone _ _ _ _ _ _ _ _ _ Hp1 ltac:(lia) Hs1 Hend2 H2)
    as (ino2 & tbl2 & k2 & Hsecond & _).
  eauto.
Qed.

End Write.

(** ** simplefs_create_fs_object and simplefs_lookup *)

Section Create.

Variable FILENAME_MAXLEN : Z.
Variable START_INO : Z.
Variable RESERVED_INODES : Z.
Variable SB_BLOCK : Z.
Variable INO_BLOCK : Z.
Variable MAX : Z.

Abbreviation create :=
  (simplefs_create_fs_object FILENAME_MAXLEN START_INO RESERVED_INODES
     SB_BLOCK INO_BLOCK MAX).

Lemma create_success_inv dir name mode s child dir' s' :
  create dir name mode s = Ret (inr child, dir', s') ->
  let N := inodes_count (s_fs_info s) in
  let ino := to_u64 (N + START_INO - RESERVED_INODES + 1) in
  exists parent blk fb tbl recs tbl3 k,
    let pblk := data_block_number parent in
    let new := {| mode := mode; inode_no := ino; data_block_number := blk;
                  dir_children_count := 0 |} in
    let recs1 := <[Z.to_nat (dir_children_count parent)
                   := {| filename := name; rec_inode_no := ino |}]> recs in
    let parent' :=
      with_size parent (to_u64 (dir_children_count parent + 1)) in
    let s1 := allocated SB_BLOCK s fb in
    let s2 := inode_appended SB_BLOCK INO_BLOCK s1 tbl new in
    let s3 := block_written s2 pblk (BDir recs1) in
    N < MAX /\ (S_ISDIR mode || S_ISREG mode = true)
    /\ i_private dir = Some parent
    /\ simplefs_sb_get_a_freeblock SB_BLOCK MAX s = Ret (inr blk, s1)
    /\ 0 <= SB_BLOCK /\ 0 <= INO_BLOCK /\ 0 <= pblk
    /\ is_Some (s_bdev s !! Z.to_nat SB_BLOCK)
    /\ s_bdev s1 !! Z.to_nat INO_BLOCK = Some (BInodes tbl)
    /\ N < Z.of_nat (length tbl)
    /\ s_bdev s2 !! Z.to_nat pblk = Some (BDir recs)
    /\ dir_children_count parent < Z.of_nat (length recs)
    /\ Z.of_nat (String.length name) < FILENAME_MAXLEN
    /\ s_bdev s3 !! Z.to_nat INO_BLOCK = Some (BInodes tbl3)
    /\ simplefs_inode_search (s_fs_info s3) tbl3 parent' = Ret (Some k)
    /\ child = {| i_ino := ino; i_private := Some new |}
    /\ dir' = with_private dir parent'
    /\ s' = block_written s3 INO_BLOCK (BInodes (<[k := parent']> tbl3)).
Proof.
  unfold simplefs_create_fs_object. rewrite kbind_run.
  unfold simplefs_sb_get_objects_count at 1. rewrite kbind_run.
  unfold get_sb at 1. rewrite kret_run. cbv zeta.
  destruct (Z.leb_spec MAX (inodes_count (s_fs_info s))) as [|HN]; [discriminate|].
  destruct (negb (S_ISDIR mode) && negb (S_ISREG mode)) eqn:Hmode; [discriminate|].
  rewrite kbind_run.
  destruct (simplefs_sb_get_a_freeblock SB_BLOCK MAX s) as [[r s1]|] eqn:Ealloc;
    [|discriminate].
  pose proof Ealloc as Ealloc'.
  apply simplefs_sb_get_a_freeblock_inv in Ealloc'
    as [(-> & ->)|(blk & fb & -> & -> & Hsb & Hsbs)]; [discriminate|].
  rewrite kbind_run.
  match goal with |- context [simplefs_inode_add _ _ ?i ?s0] =>
    destruct (simplefs_inode_add SB_BLOCK INO_BLOCK i s0) as [[u s2]|] eqn:Eadd end;
    [|discriminate].
  apply simplefs_inode_add_inv in Eadd as (tbl & Hino & Htbl & Hroom & _ & _ & ->).
  destruct (i_private dir) as [parent|] eqn:Hp; [|discriminate].
  rewrite kbind_run.
  match goal with |- context [sb_bread ?n ?s0] =>
    destruct (sb_bread n s0) as [[bh s2]|] eqn:Ebread end; [|discriminate].
  apply sb_bread_inv in Ebread as [-> Hbh].
  destruct bh as [b|]; [|discriminate].
  destruct (Hbh b eq_refl) as [Hpblk Hb].
  destruct b as [| |recs|]; cbn [as_dir]; try discriminate.
  destruct (Z.leb_spec (Z.of_nat (length recs)) (dir_children_count parent))
    as [|Hrecs]; [discriminate|].
  destruct (Z.leb_spec FILENAME_MAXLEN (Z.of_nat (String.length name)))
    as [|Hname]; [discriminate|].
  cbn [orb]. rewrite write_back_run by eauto. rewrite kbind_run.
  match goal with |- context [simplefs_inode_save _ ?i ?s0] =>
    destruct (simplefs_inode_save INO_BLOCK i s0) as [[r s4]|] eqn:Esave end;
    [|discriminate].
  apply simplefs_inode_save_inv in Esave
    as (tbl3 & _ & Htbl3 & [(_ & -> & _)|(k & Hk & -> & ->)]); [discriminate|].
  rewrite kret_run. intros H. injection H as <- <- <-.
  exists parent, blk, fb, tbl, recs, tbl3, k.
  split; [assumption|]. split.
  { destruct (S_ISDIR mode), (S_ISREG mode); try reflexivity; discriminate. }
  repeat (split; [reflexivity || assumption|]). reflexivity.
Qed.

(** What a successful create did, in terms of the state before it: the
    blocks it read, the records it stored and the requests it issued, in
    order. *)
Lemma create_success_state dir name mode s child dir' s' :
  create dir name mode s = Ret (inr child, dir', s') ->
  let sb := s_fs_info s in
  let N := inodes_count sb in
  let ino := to_u64 (N + START_INO - RESERVED_INODES + 1) in
  exists parent blk fb tbl recs k,
    let pblk := data_block_number parent in
    let new := {| mode := mode; inode_no := ino; data_block_number := blk;
                  dir_children_count := 0 |} in
    let tbl1 := <[Z.to_nat N := new]> tbl in
    let recs1 := <[Z.to_nat (dir_children_count parent)
                   := {| filename := name; rec_inode_no := ino |}]> recs in
    let parent' :=
      with_size parent (to_u64 (dir_children_count parent + 1)) in
    let sb1 := with_free_blocks sb fb in
    let sb2 := with_inodes_count sb1 (to_u64 (N + 1)) in
    let tbl2 := <[k := parent']> tbl1 in
    (N < MAX /\ (S_ISDIR mode || S_ISREG mode = true)
     /\ i_private dir = Some parent
     /\ simplefs_sb_get_a_freeblock SB_BLOCK MAX s
        = Ret (inr blk, allocated SB_BLOCK s fb))
    /\ (0 <= SB_BLOCK /\ 0 <= INO_BLOCK /\ 0 <= pblk
        /\ s_bdev s !! Z.to_nat INO_BLOCK = Some (BInodes tbl)
        /\ N < Z.of_nat (length tbl)
        /\ s_bdev s !! Z.to_nat pblk = Some (BDir recs)
        /\ dir_children_count parent < Z.of_nat (length recs)
        /\ Z.of_nat (String.length name) < FILENAME_MAXLEN
        /\ simplefs_inode_search sb2 tbl1 parent' = Ret (Some k))
    /\ (child = {| i_ino := ino; i_private := Some new |}
        /\ dir' = with_private dir parent'
        /\ s_fs_info s' = sb2
        /\ s_bdev s' !! Z.to_nat INO_BLOCK = Some (BInodes tbl2)
        /\ s_bdev s' !! Z.to_nat pblk = Some (BDir recs1)
        /\ s_io s' = s_io s
             ++ [MarkDirty SB_BLOCK (BSuper sb1);
                 SyncDirty SB_BLOCK (BSuper sb1);
                 MarkDirty INO_BLOCK (BInodes tbl1);
                 MarkDirty SB_BLOCK (BSuper sb2);
                 SyncDirty SB_BLOCK (BSuper sb2);
                 MarkDirty pblk (BDir recs1);
                 SyncDirty pblk (BDir recs1);
                 MarkDirty INO_BLOCK (BInodes tbl2);
                 SyncDirty INO_BLOCK (BInodes tbl2)]).
Proof.
  intros H. apply create_success_inv in H. cbv zeta in H |- *.
  destruct H as (parent & blk & fb & tbl & recs & tbl3 & k & HN & Hmode & Hp
                 & Halloc & Hsb & Hino & Hpblk & Hsbs & Htbl & Hroom & Hb
                 & Hrecs & Hname & Htbl3 & Hk & -> & -> & ->).
  exists parent, blk, fb, tbl, recs, k.
  cbn [allocated inode_appended block_written synced s_bdev s_fs_info s_io]
    in Htbl, Hb, Htbl3, Hk |- *.
  set (d := s_bdev s) in *.
  set (sb1 := with_free_blocks (s_fs_info s) fb) in *.
  set (sb2 := with_inodes_count sb1 _) in *.
  set (tbl1 := <[Z.to_nat (inodes_count (s_fs_info s)) := _]> tbl) in *.
  set (recs1 := <[Z.to_nat (dir_children_count parent) := _]> recs) in *.
  set (parent' := with_size parent _) in *.
  set (nsb := Z.to_nat SB_BLOCK) in *. set (nino := Z.to_nat INO_BLOCK) in *.
  set (npb := Z.to_nat (data_block_number parent)) in *.
  assert (nsb < length d)%nat as Hlsb by (apply lookup_lt_is_Some; exact Hsbs).
  assert (nsb <> nino) as Hne1.
  { intros E. rewrite <- E, list_lookup_insert_eq in Htbl by exact Hlsb.
    discriminate. }
  rewrite list_lookup_insert_ne in Htbl by exact Hne1.
  assert (nino < length d)%nat as Hlino by (apply lookup_lt_Some in Htbl; exact Htbl).
  assert (npb <> nsb) as Hne2.
  { intros E. rewrite E, list_lookup_insert_eq in Hb
      by (rewrite !length_insert; exact Hlsb).
    discriminate. }
  rewrite list_lookup_insert_ne in Hb by auto.
  assert (npb <> nino) as Hne3.
  { intros E. rewrite E, list_lookup_insert_eq in Hb
      by (rewrite !length_insert; exact Hlino).
    discriminate. }
  rewrite !list_lookup_insert_ne in Hb by auto.
  assert (npb < length d)%nat as Hlpb by (apply lookup_lt_Some in Hb; exact Hb).
  rewrite !list_lookup_insert_ne in Htbl3 by auto.
  rewrite list_lookup_insert_eq in Htbl3 by (rewrite !length_insert; exact Hlino).
  injection Htbl3 as <-.
  split; [auto|]. split; [auto 15|].
  split; [reflexivity|]. split; [reflexivity|]. split; [reflexivity|].
  split; [apply list_lookup_insert_eq; rewrite !length_insert; exact Hlino|].
  split.
  - rewrite list_lookup_insert_ne by auto.
    apply list_lookup_insert_eq. rewrite !length_insert. exact Hlpb.
  - rewrite <- !app_assoc. reflexivity.
Qed.


Lemma to_nat_succ_u64 z :
  0 <= z < 2 ^ 64 - 1 -> Z.to_nat (to_u64 (z + 1)) = S (Z.to_nat z).
Proof. intros H. rewrite to_u64_small by lia. lia. Qed.


End Create.

(** ** simplefs_fill_super *)

Section Mount.

Variable MAGIC : Z.
Variable BLOCK_SIZE : Z.
Variable ROOT_INO : Z.
Variable SB_BLOCK : Z.
Variable INO_BLOCK : Z.

Abbreviation fill_super :=
  (simplefs_fill_super MAGIC BLOCK_SIZE ROOT_INO SB_BLOCK INO_BLOCK).

(** C6, as the code has it: mount fails with one and the same error,
    EPERM, when the stored magic number does not match the expected
    constant and when the stored block size does not match the compiled
    block size, leaving the super block as it was; when both match it
    sets the stored superblock as [s_fs_info] and returns the root
    directory: the inode numbered as the root, with the record the inode
    store holds for that number. *)
Theorem fill_super_outcomes s sb_disk :
  0 <= SB_BLOCK ->
  s_bdev s !! Z.to_nat SB_BLOCK = Some (BSuper sb_disk) ->
  (magic sb_disk <> MAGIC -> fill_super s = Ret (inl EPERM, s))
  /\ (magic sb_disk = MAGIC -> block_size sb_disk <> BLOCK_SIZE ->
      fill_super s = Ret (inl EPERM, s))
  /\ (magic sb_disk = MAGIC -> block_size sb_disk = BLOCK_SIZE ->
      forall tbl root,
        0 <= INO_BLOCK ->
        s_bdev s !! Z.to_nat INO_BLOCK = Some (BInodes tbl) ->
        get_inode_loop (Z.to_nat (inodes_count sb_disk)) tbl ROOT_INO
        = Ret root ->
        fill_super s
        = Ret (inr {| i_ino := ROOT_INO; i_private := root |},
               {| s_fs_info := sb_disk; s_bdev := s_bdev s; s_io := s_io s |})).
Proof.
  intros Hsb Hb.
  assert (forall k : option block -> kernel (errno + inode),
            (sb_bread SB_BLOCK ≫= k) s = k (Some (BSuper sb_disk)) s) as Hrun.
  { intros k. rewrite kbind_run, (sb_bread_ok _ _ _ Hsb Hb). reflexivity. }
  unfold simplefs_fill_super. rewrite Hrun. cbn [as_super].
  split; [|split].
  - intros Hm. apply Z.eqb_neq in Hm. rewrite Hm. reflexivity.
  - intros Hm Hs. apply Z.eqb_eq in Hm. apply Z.eqb_neq in Hs.
    rewrite Hm, Hs. reflexivity.
  - intros Hm Hs tbl root Hino Htbl Hroot.
    apply Z.eqb_eq in Hm. apply Z.eqb_eq in Hs. rewrite Hm, Hs. cbn [negb].
    rewrite kbind_run. unfold set_sb at 1. rewrite kbind_run.
    rewrite (simplefs_get_inode_run _ _ tbl) by assumption.
    cbn [s_fs_info]. rewrite Hroot. reflexivity.
Qed.

End Mount.

Lemma fill_super_outcomes_witness :
  Image.fill_super (Image.unmounted Image.disk_sb)
  = Ret (inr Image.root,
         {| s_fs_info := Image.disk_sb;
            s_bdev := s_bdev (Image.unmounted Image.disk_sb);
            s_io := [] |})
  /\ Image.fill_super (Image.unmounted Image.bad_magic_sb)
     = Ret (inl EPERM, Image.unmounted Image.bad_magic_sb)
  /\ Image.fill_super (Image.unmounted Image.bad_size_sb)
     = Ret (inl EPERM, Image.unmounted Image.bad_size_sb).
Proof.
  split; [|split].
  - refine (proj2 (proj2 (fill_super_outcomes Image.MAGIC Image.BLOCK_SIZE
              Image.ROOTDIR_INODE_NUMBER Image.SUPERBLOCK_BLOCK_NUMBER
              Image.INODESTORE_BLOCK_NUMBER
              (Image.unmounted Image.disk_sb) Image.disk_sb _ _))
              _ _ Image.table (Some Image.root_inode) _ _ _).
    + unfold Image.SUPERBLOCK_BLOCK_NUMBER. lia.
    + reflexivity.
    + reflexivity.
    + reflexivity.
    + unfold Image.INODESTORE_BLOCK_NUMBER. lia.
    + reflexivity.
    + reflexivity.
  - refine (proj1 (fill_super_outcomes Image.MAGIC Image.BLOCK_SIZE
              Image.ROOTDIR_INODE_NUMBER Image.SUPERBLOCK_BLOCK_NUMBER
              Image.INODESTORE_BLOCK_NUMBER
              (Image.unmounted Image.bad_magic_sb) Image.bad_magic_sb _ _) _).
    + unfold Image.SUPERBLOCK_BLOCK_NUMBER. lia.
    + reflexivity.
    + discriminate.
  - refine (proj1 (proj2 (fill_super_outcomes Image.MAGIC Image.BLOCK_SIZE
              Image.ROOTDIR_INODE_NUMBER Image.SUPERBLOCK_BLOCK_NUMBER
              Image.INODESTORE_BLOCK_NUMBER
              (Image.unmounted Image.bad_size_sb) Image.bad_size_sb _ _)) _ _).
    + unfold Image.SUPERBLOCK_BLOCK_NUMBER. lia.
    + reflexivity.
    + reflexivity.
    + discriminate.
Defined.

(** C6 as stated asks for two distinct errors.  An image with a foreign
    magic number and an image with the right magic number and a foreign
    block size are both refused with EPERM. *)
Lemma fill_super_errors_coincide :
  magic Image.bad_magic_sb <> Image.MAGIC
  /\ magic Image.bad_size_sb = Image.MAGIC
  /\ block_size Image.bad_size_sb <> Image.BLOCK_SIZE
  /\ Image.fill_super (Image.unmounted Image.bad_magic_sb)
     = Ret (inl EPERM, Image.unmounted Image.bad_magic_sb)
  /\ Image.fill_super (Image.unmounted Image.bad_size_sb)
     = Ret (inl EPERM, Image.unmounted Image.bad_size_sb).
Proof. repeat split; discriminate. Qed.

(** ** Evaluation on the image *)

Example lookup_hello :
  Image.lookup Image.root "hello" Image.mounted
  = Ret (Some Image.file, Image.mounted).
Proof. reflexivity. Qed.

Example lookup_absent :
  Image.lookup Image.root "world" Image.mounted = Ret (None, Image.mounted).
Proof. reflexivity. Qed.

Example read_whole_file :
  simplefs_read Image.file true 100 0 Image.mounted
  = Ret (inr (4, Image.abcd), 4, Image.mounted).
Proof. reflexivity. Qed.

Example first_allocation :
  Image.sb_get_a_freeblock Image.mounted
  = Ret (inr 4, allocated 0 Image.mounted (2 ^ 64 - 1 - 8 - 16)).
Proof. reflexivity. Qed.

(** C5: allocate_free_block is to return the lowest free bit position of
    the supported range, clear exactly that bit and persist the
    superblock, or fail with no-space and leave the bitmask alone.  With
    64 supported objects the mask [1 << i] is computed at type [int]:
    - bitmask with bits 0 to 2 and 31 to 63 (a fresh image once blocks 4
      to 30 are taken): block 31 is returned and bits 32 to 63 are
      cleared with bit 31;
    - the bitmask 7 this leaves, with no bit from 3 to 63: the scan goes
      on to a shift by 32 instead of failing with no-space;
    - bitmask with bit 40 alone: the scan stops at 31, whose mask covers
      bits 31 to 63; block 31, which is not free, is returned and bit 40
      is cleared. *)
Theorem freeblock_mask_is_int :
  Image.sb_get_a_freeblock (Image.with_bitmask (2 ^ 64 - 2 ^ 31 + 7))
  = Ret (inr 31, allocated 0 (Image.with_bitmask (2 ^ 64 - 2 ^ 31 + 7)) 7)
  /\ Z.clearbit (2 ^ 64 - 2 ^ 31 + 7) 31 = 2 ^ 64 - 2 ^ 32 + 7
  /\ Image.sb_get_a_freeblock (Image.with_bitmask 7) = Fault BAD_SHIFT
  /\ Image.sb_get_a_freeblock (Image.with_bitmask (2 ^ 40))
     = Ret (inr 31, allocated 0 (Image.with_bitmask (2 ^ 40)) 0)
  /\ Z.testbit (2 ^ 40) 31 = false.
Proof. repeat split. Qed.

(** C4: step (3) of create is to allocate a fresh data block and to
    fail with no-space when the allocation fails.  With 64 supported
    objects the allocator's mask [1 << i] is computed at type [int] (as
    for C5), and create takes what the allocator hands out:
    - on the image whose only free block is block 40 and whose file
      "hello" (inode 2) holds block 31, create succeeds and gives the new
      object block 31: the bit of block 31 was not set in the bitmask,
      the bit of block 40 is the one cleared, and afterwards the inode
      store has two live records with data block 31;
    - on the image with no free bit from 3 to 63 (bitmask 7) and room
      for more objects, create does not fail with no-space: the scan goes
      on to a shift by 32.
    For a bound of at most 31 the steps are as claimed, in the order
    claimed (lemma [create_steps_for_small_bound]). *)
Theorem create_gives_a_block_in_use :
  inodes_count (s_fs_info Image.crowded) < Image.MAX_OBJECTS
  /\ Z.testbit (free_blocks (s_fs_info Image.crowded)) 31 = false
  /\ Image.get_inode 2 Image.crowded
     = Ret (Some Image.held_inode, Image.crowded)
  /\ data_block_number Image.held_inode = 31
  /\ (exists dir' s',
        Image.create Image.root "new" S_IFREG Image.crowded
        = Ret (inr {| i_ino := 10; i_private := Some Image.twin_inode |},
               dir', s')
        /\ data_block_number Image.twin_inode = 31
        /\ free_blocks (s_fs_info s') = 0
        /\ Image.get_inode 2 s' = Ret (Some Image.held_inode, s')
        /\ Image.get_inode 10 s' = Ret (Some Image.twin_inode, s'))
  /\ inodes_count (s_fs_info (Image.with_bitmask 7)) < Image.MAX_OBJECTS
  /\ Image.create Image.root "new" S_IFREG (Image.with_bitmask 7)
     = Fault BAD_SHIFT.
Proof.
  split; [reflexivity|]. split; [reflexivity|]. split; [reflexivity|].
  split; [reflexivity|]. split; [|split; reflexivity].
  eexists _, _. split; [vm_compute; reflexivity|].
  repeat split.
Qed.

(** The same allocator on the same image, low bits: first fit. *)
Example freeblock_low_bits :
  Image.sb_get_a_freeblock (Image.with_bitmask (2 ^ 5 + 2 ^ 9 + 2 ^ 40))
  = Ret (inr 5,
         allocated 0 (Image.with_bitmask (2 ^ 5 + 2 ^ 9 + 2 ^ 40))
           (2 ^ 9 + 2 ^ 40)).
Proof. reflexivity. Qed.

(** C8: the find operation is to stop after inodes_count records and
    never read the record at index inodes_count.  The table of the image
    has 2 live records and, behind them, a record numbered 10:
    [simplefs_inode_search] for number 10 returns that record (position
    2); on a table of exactly 2 records it reads past the end;
    [simplefs_get_inode], the other scan of the same table, stops after
    the 2 live records. *)
Theorem inode_search_reads_record_at_inodes_count :
  inodes_count Image.disk_sb = 2
  /\ Image.table !! 2%nat = Some Image.stale_inode
  /\ simplefs_inode_search Image.disk_sb Image.table Image.unappended_inode
     = Ret (Some 2%nat)
  /\ simplefs_inode_search Image.disk_sb (take 2 Image.table)
       Image.unappended_inode
     = Fault OUT_OF_BOUNDS
  /\ Image.get_inode 10 Image.mounted = Ret (None, Image.mounted).
Proof. repeat split. Qed.

Section Update.

Variable INO_BLOCK : Z.

(** An update for a number that is in none of the records the search
    reads (positions 0 to inodes_count) fails with EIO and changes
    nothing. *)
Lemma simplefs_inode_save_absent i s tbl :
  0 <= INO_BLOCK ->
  s_bdev s !! Z.to_nat INO_BLOCK = Some (BInodes tbl) ->
  (Z.to_nat (inodes_count (s_fs_info s)) < length tbl)%nat ->
  (forall j c, (j <= Z.to_nat (inodes_count (s_fs_info s)))%nat ->
               tbl !! j = Some c -> inode_no c <> inode_no i) ->
  simplefs_inode_save INO_BLOCK i s = Ret (inl EIO, s).
Proof.
  intros Hn Hb Hlen Hno. unfold simplefs_inode_save.
  rewrite kbind_run, (inode_store_bread_ok _ _ _ Hn Hb), kbind_run.
  unfold get_sb at 1, simplefs_inode_search.
  rewrite inode_search_loop_absent by assumption. reflexivity.
Qed.

End Update.

(** C9: an update for an inode whose number is not in the inode store is
    to fail with stale-reference and leave the store alone.  On the
    image, number 10 is in none of the 2 live records, yet the update of
    an inode numbered 10 returns 0 and overwrites the record at position
    2, behind the live ones. *)
Theorem inode_save_of_unappended_inode_succeeds :
  get_inode_loop (Z.to_nat (inodes_count Image.disk_sb)) Image.table
    (inode_no Image.unappended_inode) = Ret None
  /\ Image.inode_save Image.unappended_inode Image.mounted
     = Ret (inr tt,
            block_written Image.mounted Image.INODESTORE_BLOCK_NUMBER
              (BInodes [Image.root_inode; Image.file_inode;
                        Image.unappended_inode; Image.blank_inode])).
Proof. repeat split. Qed.

(** ** The theorems with hypotheses, applied on the image *)


Lemma write_sets_file_size_to_end_offset_witness :
  exists n filp1 ppos1 s1 ino1,
    Image.write Image.file true (Image.abcd ++ Image.abcd) 0 Image.mounted
    = Ret (inr n, filp1, ppos1, s1)
    /\ i_private filp1 = Some ino1 /\ file_size ino1 = 0 + 8
    /\ forall n2 filp2 ppos2 s2,
         Image.write filp1 true [Byte.x78] 0 s1 = Ret (inr n2, filp2, ppos2, s2) ->
         exists ino2, i_private filp2 = Some ino2 /\ file_size ino2 = 0 + 1.
Proof.
  eexists _, _, _, _, _. split; [vm_compute; reflexivity|].
  split; [reflexivity|].
  destruct (write_sets_file_size_to_end_offset Image.INODESTORE_BLOCK_NUMBER
              Image.file Image.file_inode true (Image.abcd ++ Image.abcd) 0
              Image.mounted _ _ _ _
              ltac:(reflexivity) ltac:(simpl; lia) ltac:(simpl; eauto)
              ltac:(lia) ltac:(simpl; lia) ltac:(vm_compute; reflexivity))
    as [(ino1 & tbl & k & Hp & Hsize & _) Hsecond].
  injection Hp as <-. split; [exact Hsize|].
  intros n2 filp2 ppos2 s2 H2.
  destruct (Hsecond true [Byte.x78] n2 filp2 ppos2 s2 ltac:(simpl; lia) H2)
    as (ino2 & tbl2 & k2 & Hp2 & Hsize2 & _).
  exists ino2. split; assumption.
Defined.

(** * Further properties of the code *)

(** ** The allocator, for every bound *)

Lemma int_shl_1_range i m : int_shl_1 i = Ret m -> - 2 ^ 31 <= m < 2 ^ 31.
Proof.
  unfold int_shl_1. destruct ((0 <=? i) && (i <? 32)); [|discriminate].
  intros H. injection H as <-. unfold to_int.
  pose proof (Z.mod_pos_bound (2 ^ i + 2 ^ 31) (2 ^ 32) ltac:(lia)). lia.
Qed.

(** A mask and its complement, both converted to 64 bits, share no
    bit. *)
Lemma mask_lnot_disjoint m :
  - 2 ^ 31 <= m < 2 ^ 31 ->
  Z.land (to_u64 (to_int (Z.lnot m))) (to_u64 m) = 0.
Proof.
  intros Hm. rewrite to_int_small by (unfold Z.lnot; lia).
  unfold to_u64. rewrite <- !Z.land_ones by lia.
  rewrite (Z.land_comm m), Z.land_assoc, <- (Z.land_assoc (Z.lnot m)).
  rewrite Z.land_diag, <- Z.land_assoc, (Z.land_comm (Z.ones 64)).
  rewrite Z.land_assoc, (Z.land_comm (Z.lnot m)), Z.land_lnot_diag.
  apply Z.land_0_l.
Qed.

Lemma land_subset_zero fb x m :
  Z.land fb m = 0 -> Z.land (Z.land fb x) m = 0.
Proof.
  intros H. rewrite <- Z.land_assoc, (Z.land_comm x), Z.land_assoc, H.
  apply Z.land_0_l.
Qed.

(** What the scan loop computes, for every bound: it passes the
    positions whose mask meets no bit and stops at the first whose mask
    meets one. *)
Lemma freeblock_scan_inv fb n i j :
  freeblock_scan n i fb = Ret j ->
  i <= j <= i + Z.of_nat n
  /\ (forall k, i <= k < j ->
        exists m, int_shl_1 k = Ret m /\ Z.land fb (to_u64 m) = 0)
  /\ (j < i + Z.of_nat n ->
        exists m, int_shl_1 j = Ret m /\ Z.land fb (to_u64 m) <> 0).
Proof.
  revert i. induction n as [|n IH]; intros i H.
  - cbn in H. injection H as <-. split; [lia|]. split; intros; lia.
  - cbn [freeblock_scan] in H.
    destruct (int_shl_1 i) as [m|] eqn:Hm; [|discriminate].
    destruct (Z.eqb_spec (Z.land fb (to_u64 m)) 0) as [Hz|Hnz].
    + apply IH in H as (Hr & Hlow & Hstop). split; [lia|]. split.
      * intros k Hk. destruct (Z.eq_dec k i) as [->|]; [eauto|].
        apply Hlow. lia.
      * intros Hlt. apply Hstop. lia.
    + injection H as <-. split; [lia|]. split; [intros; lia|]. eauto.
Qed.

Lemma int_shl_1_own_bit i m : int_shl_1 i = Ret m -> Z.testbit m i = true.
Proof.
  unfold int_shl_1.
  destruct (Z.leb_spec 0 i) as [H0|]; [|discriminate].
  destruct (Z.ltb_spec i 32) as [H32|]; [|discriminate]. cbn [andb].
  intros H. injection H as <-.
  destruct (Z.eq_dec i 31) as [->|Hne]; [reflexivity|].
  rewrite to_int_small
    by (pose proof (pow2_lt_pow2 i 31 ltac:(lia)); lia).
  apply Z.pow2_bits_true. lia.
Qed.

Section Allocator.

Variable SB_BLOCK : Z.
Variable MAX : Z.

Abbreviation alloc := (simplefs_sb_get_a_freeblock SB_BLOCK MAX).

(** A successful allocation in full: where the scan stopped and what the
    bitmask became. *)
Lemma alloc_success_inv s blk s1 :
  alloc s = Ret (inr blk, s1) ->
  exists m,
    freeblock_scan (Z.to_nat (MAX - 3)) 3 (free_blocks (s_fs_info s)) = Ret blk
    /\ blk <> MAX /\ int_shl_1 blk = Ret m
    /\ 0 <= SB_BLOCK /\ is_Some (s_bdev s !! Z.to_nat SB_BLOCK)
    /\ s1 = allocated SB_BLOCK s
              (Z.land (free_blocks (s_fs_info s)) (to_u64 (to_int (Z.lnot m)))).
Proof.
  unfold simplefs_sb_get_a_freeblock. rewrite kbind_run. unfold get_sb at 1.
  destruct (freeblock_scan _ _ _) as [i|]; [|discriminate].
  destruct (Z.eqb_spec i MAX) as [|Hne]; [discriminate|].
  destruct (int_shl_1 i) as [m|] eqn:Hm; [|discriminate].
  rewrite kbind_run. unfold set_sb at 1. rewrite kbind_run.
  match goal with |- context [simplefs_sb_sync _ ?s0] =>
    destruct (simplefs_sb_sync SB_BLOCK s0) as [[u s2]|] eqn:E end;
    [|discriminate].
  apply simplefs_sb_sync_inv in E as (Hn & Hs & ->).
  rewrite kret_run. intros H. injection H as <- <-.
  exists m. auto 10.
Qed.

Lemma alloc_clears_own_bit s blk s1 :
  simplefs_sb_get_a_freeblock SB_BLOCK MAX s = Ret (inr blk, s1) ->
  Z.testbit (free_blocks (s_fs_info s1)) blk = false.
Proof.
  intros H. apply alloc_success_inv in H as (m & Hscan & _ & Hm & _ & _ & ->).
  apply freeblock_scan_inv in Hscan as (Hr & _). cbn.
  pose proof (int_shl_1_range _ _ Hm) as Hrange.
  assert (0 <= blk < 32) as Hblk.
  { unfold int_shl_1 in Hm.
    destruct (Z.leb_spec 0 blk); [|discriminate].
    destruct (Z.ltb_spec blk 32); [lia|discriminate]. }
  rewrite Z.land_spec. apply andb_false_intro2.
  rewrite to_int_small by (unfold Z.lnot; lia).
  unfold to_u64. rewrite Z.mod_pow2_bits_low, Z.lnot_spec by lia.
  rewrite (int_shl_1_own_bit _ _ Hm). reflexivity.
Qed.

(** X1: a block the allocator returns is never one of the reserved
    blocks 0 to 2 and lies below the bound; the allocation clears the
    bit of the block it returns and sets none, leaves the other fields
    of the superblock as they were, writes the superblock back to its
    block (it stores the superblock in the buffer of the block and asks
    for this buffer, and no other, to be marked dirty and synced) and
    touches no other block. *)
Theorem alloc_effect s blk s1 :
  3 <= MAX ->
  alloc s = Ret (inr blk, s1) ->
  3 <= blk < MAX
  /\ Z.testbit (free_blocks (s_fs_info s1)) blk = false
  /\ (forall k, Z.testbit (free_blocks (s_fs_info s1)) k = true ->
                Z.testbit (free_blocks (s_fs_info s)) k = true)
  /\ with_free_blocks (s_fs_info s1) (free_blocks (s_fs_info s)) = s_fs_info s
  /\ s_bdev s1 !! Z.to_nat SB_BLOCK = Some (BSuper (s_fs_info s1))
  /\ (forall n, n <> Z.to_nat SB_BLOCK -> s_bdev s1 !! n = s_bdev s !! n)
  /\ s_io s1 = s_io s ++ [MarkDirty SB_BLOCK (BSuper (s_fs_info s1));
                          SyncDirty SB_BLOCK (BSuper (s_fs_info s1))].
Proof.
  intros HM H. pose proof (alloc_clears_own_bit _ _ _ H) as Hown.
  apply alloc_success_inv in H
    as (m & Hscan & Hne & Hm & Hsb & Hs & ->).
  apply freeblock_scan_inv in Hscan as (Hr & _ & _).
  split; [lia|]. split; [exact Hown|]. cbn.
  split; [|split; [|split; [|split]]].
  - intros k Hk. rewrite Z.land_spec in Hk.
    apply andb_true_iff in Hk as [Hk _]. exact Hk.
  - destruct (s_fs_info s); reflexivity.
  - apply list_lookup_insert_eq. apply lookup_lt_is_Some. exact Hs.
  - intros n Hn. apply list_lookup_insert_ne. auto.
  - reflexivity.
Qed.

Lemma alloc_never_repeats_aux s b1 s1 s1' b2 s2 :
  3 <= MAX ->
  alloc s = Ret (inr b1, s1) ->
  free_blocks (s_fs_info s1') = free_blocks (s_fs_info s1) ->
  alloc s1' = Ret (inr b2, s2) ->
  b1 < b2.
Proof.
  intros HM H1 Hfb H2.
  apply alloc_success_inv in H1 as (m1 & Hscan1 & Hne1 & Hm1 & _ & _ & ->).
  apply alloc_success_inv in H2 as (m2 & Hscan2 & Hne2 & Hm2 & _ & _ & _).
  rewrite Hfb in Hscan2. cbn in Hscan2.
  apply freeblock_scan_inv in Hscan1 as (Hr1 & Hlow1 & _).
  apply freeblock_scan_inv in Hscan2 as (Hr2 & _ & Hstop2).
  destruct (Hstop2 ltac:(lia)) as (m & Hm & Hnz). rewrite Hm2 in Hm.
  injection Hm as <-.
  destruct (Z.lt_trichotomy b2 b1) as [Hlt|[->|Hgt]]; [| |exact Hgt]; exfalso.
  - destruct (Hlow1 b2 ltac:(lia)) as (m & Hm & Hz). rewrite Hm2 in Hm.
    injection Hm as <-. apply Hnz. apply land_subset_zero. exact Hz.
  - rewrite Hm1 in Hm2. injection Hm2 as <-. apply Hnz.
    rewrite <- Z.land_assoc, mask_lnot_disjoint
      by (apply (int_shl_1_range b1); exact Hm1).
    apply Z.land_0_r.
Qed.

(** X2: the allocator never returns a block twice: an allocation from a
    state whose bitmask is the one an earlier allocation left returns a
    higher block. *)
Theorem alloc_never_repeats s b1 s1 s1' b2 s2 :
  3 <= MAX ->
  simplefs_sb_get_a_freeblock SB_BLOCK MAX s = Ret (inr b1, s1) ->
  free_blocks (s_fs_info s1') = free_blocks (s_fs_info s1) ->
  simplefs_sb_get_a_freeblock SB_BLOCK MAX s1' = Ret (inr b2, s2) ->
  b1 < b2.
Proof.
  intros HM H1 Hfb H2.
  exact (alloc_never_repeats_aux s b1 s1 s1' b2 s2 HM H1 Hfb H2).
Qed.

End Allocator.

Lemma alloc_effect_witness :
  exists s1,
    Image.sb_get_a_freeblock Image.mounted = Ret (inr 4, s1)
    /\ 3 <= 4 < Image.MAX_OBJECTS
    /\ Z.testbit (free_blocks (s_fs_info s1)) 4 = false
    /\ s_io s1 = [MarkDirty 0 (BSuper (s_fs_info s1));
                  SyncDirty 0 (BSuper (s_fs_info s1))].
Proof.
  exists (allocated 0 Image.mounted (2 ^ 64 - 1 - 8 - 16)).
  split; [reflexivity|].
  destruct (alloc_effect Image.SUPERBLOCK_BLOCK_NUMBER Image.MAX_OBJECTS
              Image.mounted 4
              (allocated 0 Image.mounted (2 ^ 64 - 1 - 8 - 16))
              ltac:(unfold Image.MAX_OBJECTS; lia) ltac:(reflexivity))
    as (Hr & Hown & _ & _ & _ & _ & Hio).
  split; [exact Hr|]. split; [exact Hown|exact Hio].
Defined.

Lemma alloc_never_repeats_witness :
  exists b1 s1 b2 s2,
    Image.sb_get_a_freeblock Image.mounted = Ret (inr b1, s1)
    /\ Image.sb_get_a_freeblock s1 = Ret (inr b2, s2)
    /\ b1 < b2.
Proof.
  eexists _, _, _, _. split; [vm_compute; reflexivity|].
  split; [vm_compute; reflexivity|].
  apply (alloc_never_repeats Image.SUPERBLOCK_BLOCK_NUMBER Image.MAX_OBJECTS
           Image.mounted 4 (allocated 0 Image.mounted (2 ^ 64 - 1 - 8 - 16))
           (allocated 0 Image.mounted (2 ^ 64 - 1 - 8 - 16)) 5
           (allocated 0 (allocated 0 Image.mounted (2 ^ 64 - 1 - 8 - 16))
              (2 ^ 64 - 1 - 8 - 16 - 32))).
  - unfold Image.MAX_OBJECTS. lia.
  - reflexivity.
  - reflexivity.
  - reflexivity.
Defined.

(** ** The linear scans as searches of the live prefix *)

Lemma find_app {A} (p : A -> bool) l1 l2 :
  find p (l1 ++ l2) = match find p l1 with
                      | Some x => Some x
                      | None => find p l2
                      end.
Proof.
  induction l1 as [|x l1 IH]; [reflexivity|]. cbn.
  destruct (p x); [reflexivity|exact IH].
Qed.

Lemma find_none_forall {A} (p : A -> bool) l :
  find p l = None <-> (forall x, x ∈ l -> p x = false).
Proof.
  induction l as [|y l IH]; cbn.
  - split; [intros _ x Hx; inversion Hx|reflexivity].
  - destruct (p y) eqn:Hy.
    + split; [discriminate|]. intros H.
      rewrite (H y) in Hy by (left; reflexivity). discriminate.
    + rewrite IH. split.
      * intros H x Hx. apply elem_of_cons in Hx as [->|Hx]; auto.
      * intros H x Hx. apply H. right. exact Hx.
Qed.

Lemma find_some_elem {A} (p : A -> bool) l x :
  find p l = Some x -> x ∈ l /\ p x = true.
Proof.
  induction l as [|y l IH]; cbn; [discriminate|].
  destruct (p y) eqn:Hy.
  - intros H. injection H as <-. split; [left; reflexivity|exact Hy].
  - intros H. apply IH in H as [Hx Hp]. split; [right; exact Hx|exact Hp].
Qed.

(** Overwriting an element on which the test fails by another one on
    which it fails does not change the search. *)
Lemma find_insert_false {A} (p : A -> bool) l k x y :
  l !! k = Some x -> p x = false -> p y = false ->
  find p (<[k := y]> l) = find p l.
Proof.
  revert k. induction l as [|z l IH]; intros k Hk Hx Hy; [discriminate|].
  destruct k as [|k]; cbn in Hk |- *.
  - injection Hk as ->. rewrite Hx, Hy. reflexivity.
  - destruct (p z); [reflexivity|]. apply IH; assumption.
Qed.

(** Overwriting the first element on which the test holds by another one
    on which it holds makes the search return this one. *)
Lemma find_insert_first {A} (p : A -> bool) l k x y :
  l !! k = Some x -> find p l = Some x -> p y = true ->
  (forall j z, (j < k)%nat -> l !! j = Some z -> p z = false) ->
  find p (<[k := y]> l) = Some y.
Proof.
  revert k. induction l as [|z l IH]; intros k Hk Hf Hy Hlow; [discriminate|].
  destruct k as [|k]; cbn in Hk, Hf |- *.
  - rewrite Hy. reflexivity.
  - rewrite (Hlow 0%nat z) in Hf |- * by (lia || reflexivity).
    apply (IH k); [exact Hk|exact Hf|exact Hy|].
    intros j w Hj Hw. apply (Hlow (S j) w); [lia|exact Hw].
Qed.

(** [simplefs_get_inode]: the first live record with the number. *)
Lemma get_inode_loop_find n cells ino :
  (n <= length cells)%nat ->
  get_inode_loop n cells ino
  = Ret (find (fun c => inode_no c =? ino) (take n cells)).
Proof.
  revert cells. induction n as [|n IH]; intros cells Hn; [reflexivity|].
  destruct cells as [|c rest]; [simpl in Hn; lia|]. cbn.
  destruct (inode_no c =? ino); [reflexivity|]. apply IH. simpl in Hn. lia.
Qed.

Lemma get_inode_loop_returns n cells ino r :
  get_inode_loop n cells ino = Ret r ->
  r = find (fun c => inode_no c =? ino) (take n cells).
Proof.
  revert cells. induction n as [|n IH]; intros cells H.
  - cbn in H. injection H as <-. reflexivity.
  - destruct cells as [|c rest]; [discriminate|]. cbn in H |- *.
    destruct (inode_no c =? ino); [injection H as <-; reflexivity|].
    apply IH. exact H.
Qed.

(** [simplefs_lookup]: the first of the directory's records with the
    name. *)
Lemma lookup_scan_find n recs name :
  (n <= length recs)%nat ->
  lookup_scan n recs name
  = Ret (find (fun r => String.eqb (filename r) name) (take n recs)).
Proof.
  revert recs. induction n as [|n IH]; intros recs Hn; [reflexivity|].
  destruct recs as [|r rest]; [simpl in Hn; lia|]. cbn.
  destruct (String.eqb (filename r) name); [reflexivity|].
  apply IH. simpl in Hn. lia.
Qed.

Lemma lookup_scan_returns n recs name r :
  lookup_scan n recs name = Ret r ->
  r = find (fun r => String.eqb (filename r) name) (take n recs).
Proof.
  revert recs. induction n as [|n IH]; intros recs H.
  - cbn in H. injection H as <-. reflexivity.
  - destruct recs as [|c rest]; [discriminate|]. cbn in H |- *.
    destruct (String.eqb (filename c) name); [injection H as <-; reflexivity|].
    apply IH. exact H.
Qed.

Section Find.

Variable INO_BLOCK : Z.

Lemma get_inode_is_search_of_live_records_aux ino s r s' :
  simplefs_get_inode INO_BLOCK ino s = Ret (r, s') ->
  s' = s
  /\ exists tbl,
       s_bdev s !! Z.to_nat INO_BLOCK = Some (BInodes tbl)
       /\ r = find (fun c => inode_no c =? ino) (live_inodes s tbl).
Proof.
  unfold simplefs_get_inode. rewrite kbind_run. unfold get_sb at 1.
  rewrite kbind_run.
  destruct (inode_store_bread INO_BLOCK s) as [[tbl s0]|] eqn:E; [|discriminate].
  apply inode_store_bread_inv in E as (-> & Hn & Hb).
  destruct (get_inode_loop _ _ _) as [r0|] eqn:Hl; [|discriminate].
  rewrite kret_run. intros H. injection H as <- <-.
  split; [reflexivity|]. exists tbl. split; [exact Hb|].
  apply get_inode_loop_returns. exact Hl.
Qed.

(** X3: [simplefs_get_inode] changes nothing and returns the first of
    the live records (the first inodes_count records of the table) that
    carries the number, NULL when none does; a record behind the live
    ones is never returned. *)
Theorem get_inode_is_search_of_live_records ino s r s' :
  simplefs_get_inode INO_BLOCK ino s = Ret (r, s') ->
  s' = s
  /\ exists tbl,
       s_bdev s !! Z.to_nat INO_BLOCK = Some (BInodes tbl)
       /\ r = find (fun c => inode_no c =? ino) (live_inodes s tbl).
Proof.
  intros H.
  exact (get_inode_is_search_of_live_records_aux ino s r s' H).
Qed.

End Find.

Lemma get_inode_is_search_of_live_records_witness :
  Image.get_inode 10 Image.mounted = Ret (None, Image.mounted)
  /\ None = find (fun c => inode_no c =? 10)
              (live_inodes Image.mounted Image.table).
Proof.
  split; [reflexivity|].
  destruct (get_inode_is_search_of_live_records Image.INODESTORE_BLOCK_NUMBER
              10 Image.mounted None Image.mounted ltac:(reflexivity))
    as (_ & tbl & Htbl & Hr).
  injection Htbl as <-. exact Hr.
Defined.

(** ** Append, update and find on the inode store *)

Lemma get_inode_loop_insert_other n cells k x y ino :
  cells !! k = Some x -> inode_no x <> ino -> inode_no y <> ino ->
  get_inode_loop n (<[k := y]> cells) ino = get_inode_loop n cells ino.
Proof.
  revert cells k. induction n as [|n IH]; intros cells k Hk Hx Hy; [reflexivity|].
  destruct cells as [|c rest]; [discriminate|].
  destruct k as [|k]; cbn in Hk |- *.
  - injection Hk as ->.
    apply Z.eqb_neq in Hx, Hy. rewrite Hx, Hy. reflexivity.
  - destruct (inode_no c =? ino); [reflexivity|]. apply IH; assumption.
Qed.

Section StoreRoundTrip.

Variable SB_BLOCK : Z.
Variable INO_BLOCK : Z.

Abbreviation get_inode := (simplefs_get_inode INO_BLOCK).

(** X4: [simplefs_inode_add] appends: the live records afterwards are
    the live records before followed by the new one and inodes_count
    has grown by one; [simplefs_get_inode] then returns the new record
    for its number when no live record carried that number, and answers
    for every other number as the table before did. *)
Theorem inode_add_then_get_inode i s u s' :
  SB_BLOCK <> INO_BLOCK ->
  0 <= inodes_count (s_fs_info s) < 2 ^ 64 - 1 ->
  simplefs_inode_add SB_BLOCK INO_BLOCK i s = Ret (u, s') ->
  exists tbl tbl',
    s_bdev s !! Z.to_nat INO_BLOCK = Some (BInodes tbl)
    /\ s_bdev s' !! Z.to_nat INO_BLOCK = Some (BInodes tbl')
    /\ inodes_count (s_fs_info s') = inodes_count (s_fs_info s) + 1
    /\ live_inodes s' tbl' = live_inodes s tbl ++ [i]
    /\ ((forall c, c ∈ live_inodes s tbl -> inode_no c <> inode_no i) ->
        get_inode (inode_no i) s' = Ret (Some i, s'))
    /\ (forall ino, ino <> inode_no i ->
        get_inode ino s'
        = Ret (find (fun c => inode_no c =? ino) (live_inodes s tbl), s')).
Proof.
  intros Hne HN H.
  apply simplefs_inode_add_inv in H as (tbl & Hino & Htbl & Hroom & Hsb & Hs & ->).
  set (n := Z.to_nat (inodes_count (s_fs_info s))).
  set (tbl' := <[n := i]> tbl).
  assert (s_bdev (inode_appended SB_BLOCK INO_BLOCK s tbl i)
            !! Z.to_nat INO_BLOCK = Some (BInodes tbl')) as Htbl'.
  { cbn. rewrite list_lookup_insert_ne by lia.
    apply list_lookup_insert_eq. apply lookup_lt_Some in Htbl. exact Htbl. }
  assert (take (S n) tbl' = take n tbl ++ [i]) as Htake.
  { rewrite (take_S_r tbl' n i) by (apply list_lookup_insert_eq; lia).
    unfold tbl'. rewrite take_insert_ge by lia. reflexivity. }
  assert (forall ino,
            get_inode ino (inode_appended SB_BLOCK INO_BLOCK s tbl i)
            = Ret (find (fun c => inode_no c =? ino) (take n tbl ++ [i]),
                   inode_appended SB_BLOCK INO_BLOCK s tbl i)) as Hget.
  { intros ino. rewrite (simplefs_get_inode_run _ _ tbl') by assumption.
    cbn [inode_appended synced s_fs_info with_inodes_count inodes_count].
    rewrite to_nat_succ_u64 by exact HN. fold n.
    rewrite get_inode_loop_find by (unfold tbl'; rewrite length_insert; lia).
    rewrite Htake. reflexivity. }
  exists tbl, tbl'. split; [exact Htbl|]. split; [exact Htbl'|].
  split; [cbn; apply to_u64_small; lia|]. split; [|split].
  - unfold live_inodes.
    cbn [inode_appended synced s_fs_info with_inodes_count inodes_count].
    rewrite to_nat_succ_u64 by exact HN. exact Htake.
  - intros Hfresh. rewrite Hget, find_app.
    replace (find _ (take n tbl)) with (@None simplefs_inode).
    + cbn. rewrite Z.eqb_refl. reflexivity.
    + symmetry. apply find_none_forall. intros c Hc.
      apply Z.eqb_neq. apply Hfresh. exact Hc.
  - intros ino Hino'. rewrite Hget, find_app. unfold live_inodes. fold n.
    destruct (find _ (take n tbl)); [reflexivity|]. cbn.
    replace (inode_no i =? ino) with false
      by (symmetry; apply Z.eqb_neq; congruence).
    reflexivity.
Qed.

Lemma inode_save_then_get_inode_aux i s s' :
  simplefs_inode_save INO_BLOCK i s = Ret (inr tt, s') ->
  (forall tbl, s_bdev s !! Z.to_nat INO_BLOCK = Some (BInodes tbl) ->
     exists c, c ∈ live_inodes s tbl /\ inode_no c = inode_no i) ->
  s_fs_info s' = s_fs_info s
  /\ (exists tbl tbl',
        s_bdev s !! Z.to_nat INO_BLOCK = Some (BInodes tbl)
        /\ s_bdev s' !! Z.to_nat INO_BLOCK = Some (BInodes tbl')
        /\ length tbl' = length tbl)
  /\ get_inode (inode_no i) s' = Ret (Some i, s')
  /\ (forall ino r, ino <> inode_no i ->
        get_inode ino s = Ret (r, s) -> get_inode ino s' = Ret (r, s')).
Proof.
  intros H Hlive.
  apply simplefs_inode_save_inv in H
    as (tbl & Hino & Htbl & [(_ & E & _)|(k & Hk & _ & ->)]); [discriminate|].
  destruct (Hlive tbl Htbl) as (c & Hc & Hcno).
  apply elem_of_take in Hc as (j & Hj & Hjn).
  unfold simplefs_inode_search in Hk.
  apply inode_search_loop_Some in Hk as (k' & pc & -> & _ & Hpc & Hpcno & Hfirst).
  cbn [Nat.add].
  assert (k' <= j)%nat as Hkj.
  { destruct (Nat.le_gt_cases k' j) as [|Hlt]; [assumption|]. exfalso.
    apply (Hfirst j c Hlt Hj Hcno). }
  assert (s_bdev (block_written s INO_BLOCK (BInodes (<[k' := i]> tbl)))
            !! Z.to_nat INO_BLOCK = Some (BInodes (<[k' := i]> tbl))) as Htbl'.
  { cbn. apply list_lookup_insert_eq. apply lookup_lt_Some in Htbl. exact Htbl. }
  split; [reflexivity|]. split; [|split].
  - exists tbl, (<[k' := i]> tbl). rewrite length_insert. auto.
  - rewrite (simplefs_get_inode_run _ _ _ _ Hino Htbl').
    cbn [block_written s_fs_info].
    rewrite (get_inode_loop_found _ _ (inode_no i) k' i).
    + reflexivity.
    + lia.
    + apply list_lookup_insert_eq. apply lookup_lt_Some in Hpc. exact Hpc.
    + reflexivity.
    + intros j' cj Hj' Hcj. rewrite list_lookup_insert_ne in Hcj by lia.
      apply (Hfirst j' cj Hj' Hcj).
  - intros ino r Hne Hget.
    rewrite (simplefs_get_inode_run _ _ _ _ Hino Htbl) in Hget.
    rewrite (simplefs_get_inode_run _ _ _ _ Hino Htbl').
    cbn [block_written s_fs_info].
    rewrite (get_inode_loop_insert_other _ _ _ pc) by congruence.
    destruct (get_inode_loop _ _ _); [|discriminate].
    injection Hget as <-. reflexivity.
Qed.

(** X5: a [simplefs_inode_save] that returns 0 for an inode whose number
    a live record carries leaves the superblock as it was and the table
    with the same number of records; [simplefs_get_inode] then returns
    the saved inode for that number and answers for every other number
    as it did before. *)
Theorem inode_save_then_get_inode i s s' :
  simplefs_inode_save INO_BLOCK i s = Ret (inr tt, s') ->
  (forall tbl, s_bdev s !! Z.to_nat INO_BLOCK = Some (BInodes tbl) ->
     exists c, c ∈ live_inodes s tbl /\ inode_no c = inode_no i) ->
  s_fs_info s' = s_fs_info s
  /\ (exists tbl tbl',
        s_bdev s !! Z.to_nat INO_BLOCK = Some (BInodes tbl)
        /\ s_bdev s' !! Z.to_nat INO_BLOCK = Some (BInodes tbl')
        /\ length tbl' = length tbl)
  /\ get_inode (inode_no i) s' = Ret (Some i, s')
  /\ (forall ino r, ino <> inode_no i ->
        get_inode ino s = Ret (r, s) -> get_inode ino s' = Ret (r, s')).
Proof.
  intros H Hlive.
  exact (inode_save_then_get_inode_aux i s s' H Hlive).
Qed.

End StoreRoundTrip.

(** ** Write, then read *)

Lemma splice_in_bounds buffer ppos bytes :
  0 <= ppos ->
  ppos + Z.of_nat (length bytes) <= Z.of_nat (length buffer) ->
  splice buffer ppos bytes
  = Some (take (Z.to_nat ppos) buffer ++ bytes
            ++ drop (Z.to_nat ppos + length bytes) buffer).
Proof.
  intros Hp Hfit. unfold splice.
  destruct (Z.eqb_spec (Z.of_nat (length bytes)) 0) as [Hz|Hnz].
  - destruct bytes; [|discriminate]. cbn.
    rewrite Nat.add_0_r, take_drop. reflexivity.
  - rewrite (leb_true_of 0), leb_true_of by lia. cbn.
    replace (Z.to_nat (ppos + Z.of_nat (length bytes)))
      with (Z.to_nat ppos + length bytes)%nat by lia.
    reflexivity.
Qed.

Section WriteRead.

Variable INO_BLOCK : Z.

Abbreviation write := (simplefs_write INO_BLOCK).

(** The run of a write that stays inside its data block, up to the save
    of the inode. *)
Lemma simplefs_write_run filp ino buf_ok bytes ppos s buffer :
  let len := Z.of_nat (length bytes) in
  let blk := data_block_number ino in
  let buffer' := take (Z.to_nat ppos) buffer ++ bytes
                   ++ drop (Z.to_nat ppos + length bytes) buffer in
  let ino' := with_size ino (to_u64 (to_s64 (to_u64 ppos + len))) in
  i_private filp = Some ino ->
  0 <= blk -> s_bdev s !! Z.to_nat blk = Some (BData buffer) ->
  0 <= ppos -> ppos + len <= Z.of_nat (length buffer) ->
  buf_ok = true \/ bytes = [] ->
  write filp buf_ok bytes ppos s
  = match simplefs_inode_save INO_BLOCK ino'
            (block_written s blk (BData buffer')) with
    | Ret (r, s') =>
        Ret (match r with inl e => inl e | inr _ => inr len end,
             with_private filp ino', to_s64 (to_u64 ppos + len), s')
    | Fault f => Fault f
    end.
Proof.
  cbv zeta. intros Hp Hblk Hb Hpos Hfit Hok. unfold simplefs_write.
  rewrite Hp, kbind_run, (sb_bread_ok _ _ _ Hblk Hb). cbn [as_data].
  replace (negb buf_ok && (0 <? Z.of_nat (length bytes))) with false
    by (destruct Hok as [->| ->]; [reflexivity|symmetry; apply andb_false_r]).
  rewrite splice_in_bounds by assumption. cbv zeta.
  rewrite write_back_run by eauto. rewrite kbind_run.
  destruct (simplefs_inode_save _ _ _) as [[r s']|]; reflexivity.
Qed.

(** X6: after a write that stays inside the data block and returns its
    byte count, a read from position 0 that asks for at least the new
    file size delivers the bytes that stood in the block before the
    offset followed by the bytes written, and moves the position to the
    new file size; for a write at offset 0 the read gives back exactly
    the bytes written. *)
Theorem write_then_read_from_start
    filp ino buf_ok bytes ppos s buffer n filp1 ppos1 s1 ask :
  let len := Z.of_nat (length bytes) in
  i_private filp = Some ino ->
  0 <= data_block_number ino ->
  s_bdev s !! Z.to_nat (data_block_number ino) = Some (BData buffer) ->
  0 <= ppos -> ppos + len <= Z.of_nat (length buffer) ->
  ppos + len <= ask < 2 ^ 31 ->
  write filp buf_ok bytes ppos s = Ret (inr n, filp1, ppos1, s1) ->
  simplefs_read filp1 true ask 0 s1
  = Ret (inr (ppos + len, take (Z.to_nat ppos) buffer ++ bytes),
         ppos + len, s1).
Proof.
  cbv zeta. intros Hp Hblk Hb Hpos Hfit Hask H.
  assert (buf_ok = true \/ bytes = []) as Hok.
  { unfold simplefs_write in H.
    rewrite Hp, kbind_run, (sb_bread_ok _ _ _ Hblk Hb) in H. cbn [as_data] in H.
    destruct buf_ok; [auto|]. destruct bytes; [auto|discriminate]. }
  rewrite (simplefs_write_run _ _ _ _ _ _ _ Hp Hblk Hb Hpos Hfit Hok) in H.
  destruct (simplefs_inode_save _ _ _) as [[r s']|] eqn:Esave; [|discriminate].
  apply simplefs_inode_save_inv in Esave
    as (tbl & Hino & Htbl & [(_ & -> & _)|(k & _ & -> & ->)]);
    [discriminate|].
  injection H as _ <- _ <-.
  set (len := Z.of_nat (length bytes)) in *.
  set (blk := data_block_number ino) in *.
  assert (Z.to_nat blk <> Z.to_nat INO_BLOCK) as Hne.
  { intros E. cbn in Htbl. rewrite <- E, list_lookup_insert_eq in Htbl
      by (apply lookup_lt_Some in Hb; exact Hb).
    discriminate. }
  unfold simplefs_read. cbn [with_private i_private with_size dir_children_count
                             data_block_number].
  rewrite (to_u64_small ppos), to_s64_small, (to_u64_small (ppos + len)),
    (to_u64_small 0) by lia.
  destruct (Z.leb_spec (ppos + len) 0) as [Hz|Hnz].
  - assert (ppos = 0 /\ len = 0) as [-> Hl] by lia.
    destruct bytes; [|discriminate]. rewrite kret_run. reflexivity.
  - rewrite kbind_run. fold blk.
    rewrite (sb_bread_ok _ _
               (BData (take (Z.to_nat ppos) buffer ++ bytes
                         ++ drop (Z.to_nat ppos + length bytes) buffer)))
      by (try assumption; cbn; rewrite list_lookup_insert_ne by auto;
          apply list_lookup_insert_eq; apply lookup_lt_Some in Hb; exact Hb).
    cbn [as_data negb andb]. rewrite Z.min_l by lia.
    rewrite to_int_small, to_u64_small by lia.
    assert (length (take (Z.to_nat ppos) buffer) = Z.to_nat ppos) as Htl
      by (rewrite length_take; lia).
    replace (Z.of_nat (length _) <? ppos + len) with false.
    + rewrite kret_run. rewrite to_s64_small by lia.
      rewrite app_assoc, take_app_le by (rewrite length_app, Htl; lia).
      rewrite take_ge by (rewrite length_app, Htl; lia).
      reflexivity.
    + symmetry. apply Z.ltb_ge. rewrite !length_app, Htl, length_drop. lia.
Qed.

(** X7: a write that stays inside the data block and returns its byte
    count changes, in the data block, the bytes from the offset to the
    end of the write only (the block keeps its length), replaces one
    record of the inode table, leaves the superblock and every other
    block as they were, and asks for the data block to be written back
    before it asks for the inode table. *)
Theorem write_changes_the_range_written
    filp ino buf_ok bytes ppos s buffer n filp1 ppos1 s1 :
  let len := Z.of_nat (length bytes) in
  let blk := data_block_number ino in
  let buffer' := take (Z.to_nat ppos) buffer ++ bytes
                   ++ drop (Z.to_nat ppos + length bytes) buffer in
  i_private filp = Some ino ->
  0 <= blk -> s_bdev s !! Z.to_nat blk = Some (BData buffer) ->
  0 <= ppos -> ppos + len <= Z.of_nat (length buffer) ->
  write filp buf_ok bytes ppos s = Ret (inr n, filp1, ppos1, s1) ->
  n = len
  /\ s_fs_info s1 = s_fs_info s
  /\ s_bdev s1 !! Z.to_nat blk = Some (BData buffer')
  /\ length buffer' = length buffer
  /\ (forall j, (j < Z.to_nat ppos \/ Z.to_nat ppos + length bytes <= j)%nat ->
                buffer' !! j = buffer !! j)
  /\ (forall j, (j < length bytes)%nat ->
                buffer' !! (Z.to_nat ppos + j)%nat = bytes !! j)
  /\ (forall m, m <> Z.to_nat blk -> m <> Z.to_nat INO_BLOCK ->
                s_bdev s1 !! m = s_bdev s !! m)
  /\ exists tbl k,
       s_bdev s !! Z.to_nat INO_BLOCK = Some (BInodes tbl)
       /\ s_bdev s1 !! Z.to_nat INO_BLOCK
          = Some (BInodes (<[k := default ino (i_private filp1)]> tbl))
       /\ s_io s1 = s_io s
            ++ [MarkDirty blk (BData buffer'); SyncDirty blk (BData buffer');
                MarkDirty INO_BLOCK
                  (BInodes (<[k := default ino (i_private filp1)]> tbl));
                SyncDirty INO_BLOCK
                  (BInodes (<[k := default ino (i_private filp1)]> tbl))].
Proof.
  cbv zeta. intros Hp Hblk Hb Hpos Hfit H.
  assert (buf_ok = true \/ bytes = []) as Hok.
  { unfold simplefs_write in H.
    rewrite Hp, kbind_run, (sb_bread_ok _ _ _ Hblk Hb) in H. cbn [as_data] in H.
    destruct buf_ok; [auto|]. destruct bytes; [auto|discriminate]. }
  rewrite (simplefs_write_run _ _ _ _ _ _ _ Hp Hblk Hb Hpos Hfit Hok) in H.
  destruct (simplefs_inode_save _ _ _) as [[r s']|] eqn:Esave; [|discriminate].
  apply simplefs_inode_save_inv in Esave
    as (tbl & Hino & Htbl & [(_ & -> & _)|(k & _ & -> & ->)]);
    [discriminate|].
  injection H as <- <- _ <-.
  set (blk := data_block_number ino) in *.
  assert (Z.to_nat blk < length (s_bdev s))%nat as Hlb
    by (apply lookup_lt_Some in Hb; exact Hb).
  assert (Z.to_nat blk <> Z.to_nat INO_BLOCK) as Hne.
  { intros E. cbn in Htbl. rewrite <- E, list_lookup_insert_eq in Htbl
      by exact Hlb.
    discriminate. }
  cbn in Htbl. rewrite list_lookup_insert_ne in Htbl by exact Hne.
  assert (length (take (Z.to_nat ppos) buffer) = Z.to_nat ppos) as Htl
    by (rewrite length_take; lia).
  split; [reflexivity|]. split; [reflexivity|]. split.
  { cbn. rewrite list_lookup_insert_ne by auto.
    apply list_lookup_insert_eq. exact Hlb. }
  split; [rewrite !length_app, Htl, length_drop; lia|]. split.
  { intros j [Hj|Hj].
    - rewrite lookup_app_l by lia. apply lookup_take_lt. exact Hj.
    - rewrite lookup_app_r by lia. rewrite lookup_app_r by lia.
      rewrite lookup_drop. f_equal. lia. }
  split.
  { intros j Hj. rewrite lookup_app_r by lia.
    rewrite lookup_app_l by lia. f_equal. lia. }
  split.
  { intros m Hm1 Hm2. cbn. rewrite !list_lookup_insert_ne by auto. reflexivity. }
  exists tbl, k. split; [exact Htbl|]. cbn. split.
  - apply list_lookup_insert_eq. rewrite length_insert.
    apply lookup_lt_Some in Htbl. exact Htbl.
  - rewrite <- app_assoc. reflexivity.
Qed.

(** X8: a write that stays inside the data block for an inode whose
    number is in none of the records the save reads returns the error
    EIO after the fact: the bytes are in the data block, which was
    written back, the position and the size in the private inode have
    moved, and the inode table is as it was. *)
Theorem write_of_unstored_inode_fails_late
    filp ino bytes ppos s buffer tbl :
  let len := Z.of_nat (length bytes) in
  let blk := data_block_number ino in
  let buffer' := take (Z.to_nat ppos) buffer ++ bytes
                   ++ drop (Z.to_nat ppos + length bytes) buffer in
  i_private filp = Some ino ->
  0 <= blk -> s_bdev s !! Z.to_nat blk = Some (BData buffer) ->
  0 <= ppos -> ppos + len <= Z.of_nat (length buffer) ->
  0 <= INO_BLOCK -> s_bdev s !! Z.to_nat INO_BLOCK = Some (BInodes tbl) ->
  (Z.to_nat (inodes_count (s_fs_info s)) < length tbl)%nat ->
  (forall j c, (j <= Z.to_nat (inodes_count (s_fs_info s)))%nat ->
               tbl !! j = Some c -> inode_no c <> inode_no ino) ->
  write filp true bytes ppos s
  = Ret (inl EIO,
         with_private filp
           (with_size ino (to_u64 (to_s64 (to_u64 ppos + len)))),
         to_s64 (to_u64 ppos + len),
         block_written s blk (BData buffer')).
Proof.
  cbv zeta. intros Hp Hblk Hb Hpos Hfit Hino Htbl Hlen Habsent.
  rewrite (simplefs_write_run _ _ _ _ _ _ _ Hp Hblk Hb Hpos Hfit) by auto.
  rewrite (simplefs_inode_save_absent _ _ _ tbl); [reflexivity|assumption| | |].
  - cbn. rewrite list_lookup_insert_ne; [exact Htbl|].
    intros E. rewrite E, Htbl in Hb. discriminate.
  - exact Hlen.
  - exact Habsent.
Qed.

End WriteRead.

(** ** Every return of simplefs_create_fs_object *)

Section CreateReturns.

Variable FILENAME_MAXLEN : Z.
Variable START_INO : Z.
Variable RESERVED_INODES : Z.
Variable SB_BLOCK : Z.
Variable INO_BLOCK : Z.
Variable MAX : Z.

Abbreviation create_object :=
  (simplefs_create_fs_object FILENAME_MAXLEN START_INO RESERVED_INODES
     SB_BLOCK INO_BLOCK MAX).

(** The state in which create calls [simplefs_inode_save]: block
    allocated, inode appended, record linked into the parent's block. *)
Lemma create_linked_state s fb tbl new pblk recs recs1 :
  let s2 := inode_appended SB_BLOCK INO_BLOCK (allocated SB_BLOCK s fb) tbl new in
  let s3 := block_written s2 pblk (BDir recs1) in
  let tbl1 := <[Z.to_nat (inodes_count (s_fs_info s)) := new]> tbl in
  0 <= SB_BLOCK -> 0 <= INO_BLOCK -> 0 <= pblk ->
  is_Some (s_bdev s !! Z.to_nat SB_BLOCK) ->
  s_bdev (allocated SB_BLOCK s fb) !! Z.to_nat INO_BLOCK = Some (BInodes tbl) ->
  s_bdev s2 !! Z.to_nat pblk = Some (BDir recs) ->
  (Z.to_nat SB_BLOCK <> Z.to_nat INO_BLOCK
   /\ Z.to_nat pblk <> Z.to_nat SB_BLOCK
   /\ Z.to_nat pblk <> Z.to_nat INO_BLOCK)
  /\ s_bdev s !! Z.to_nat INO_BLOCK = Some (BInodes tbl)
  /\ s_bdev s !! Z.to_nat pblk = Some (BDir recs)
  /\ s_bdev s3 !! Z.to_nat SB_BLOCK = Some (BSuper (s_fs_info s3))
  /\ s_bdev s3 !! Z.to_nat INO_BLOCK = Some (BInodes tbl1)
  /\ s_bdev s3 !! Z.to_nat pblk = Some (BDir recs1)
  /\ (forall m, m <> Z.to_nat SB_BLOCK -> m <> Z.to_nat INO_BLOCK ->
                m <> Z.to_nat pblk -> s_bdev s3 !! m = s_bdev s !! m).
Proof.
  cbv zeta. intros Hsb Hino Hpblk Hsbs Htbl Hb.
  cbn [allocated inode_appended block_written synced s_bdev s_fs_info s_io]
    in Htbl, Hb |- *.
  set (d := s_bdev s) in *.
  set (nsb := Z.to_nat SB_BLOCK) in *. set (nino := Z.to_nat INO_BLOCK) in *.
  set (npb := Z.to_nat pblk) in *.
  assert (nsb < length d)%nat as Hlsb by (apply lookup_lt_is_Some; exact Hsbs).
  assert (nsb <> nino) as Hne1.
  { intros E. rewrite <- E, list_lookup_insert_eq in Htbl by exact Hlsb.
    discriminate. }
  rewrite list_lookup_insert_ne in Htbl by exact Hne1.
  assert (nino < length d)%nat as Hlino by (apply lookup_lt_Some in Htbl; exact Htbl).
  assert (npb <> nsb) as Hne2.
  { intros E. rewrite E, list_lookup_insert_eq in Hb
      by (rewrite !length_insert; exact Hlsb).
    discriminate. }
  rewrite list_lookup_insert_ne in Hb by auto.
  assert (npb <> nino) as Hne3.
  { intros E. rewrite E, list_lookup_insert_eq in Hb
      by (rewrite !length_insert; exact Hlino).
    discriminate. }
  rewrite !list_lookup_insert_ne in Hb by auto.
  assert (npb < length d)%nat as Hlpb by (apply lookup_lt_Some in Hb; exact Hb).
  split; [auto|]. split; [exact Htbl|]. split; [exact Hb|]. split; [|split; [|split]].
  - rewrite list_lookup_insert_ne by auto.
    apply list_lookup_insert_eq. rewrite !length_insert. exact Hlsb.
  - rewrite !list_lookup_insert_ne by auto.
    apply list_lookup_insert_eq. rewrite !length_insert. exact Hlino.
  - apply list_lookup_insert_eq. rewrite !length_insert. exact Hlpb.
  - intros m H1 H2 H3. rewrite !list_lookup_insert_ne by auto. reflexivity.
Qed.

(** Every normal return of create: one of the three early failures,
    with nothing changed, or a return after the record was linked into
    the parent, EIO or success by what [simplefs_inode_save] said. *)
Lemma create_return_inv dir name md s r dir' s' :
  create_object dir name md s = Ret (r, dir', s') ->
  let N := inodes_count (s_fs_info s) in
  let ino := to_u64 (N + START_INO - RESERVED_INODES + 1) in
  (s' = s /\ dir' = dir
   /\ (r = inl ENOSPC
       \/ (r = inl EINVAL /\ S_ISDIR md || S_ISREG md = false)))
  \/ exists parent blk fb tbl recs,
       let pblk := data_block_number parent in
       let new := {| mode := md; inode_no := ino; data_block_number := blk;
                     dir_children_count := 0 |} in
       let recs1 := <[Z.to_nat (dir_children_count parent)
                      := {| filename := name; rec_inode_no := ino |}]> recs in
       let parent' :=
         with_size parent (to_u64 (dir_children_count parent + 1)) in
       let s1 := allocated SB_BLOCK s fb in
       let s2 := inode_appended SB_BLOCK INO_BLOCK s1 tbl new in
       let s3 := block_written s2 pblk (BDir recs1) in
       (N < MAX /\ i_private dir = Some parent
        /\ simplefs_sb_get_a_freeblock SB_BLOCK MAX s = Ret (inr blk, s1)
        /\ 0 <= SB_BLOCK /\ 0 <= INO_BLOCK /\ 0 <= pblk
        /\ is_Some (s_bdev s !! Z.to_nat SB_BLOCK)
        /\ s_bdev s1 !! Z.to_nat INO_BLOCK = Some (BInodes tbl)
        /\ N < Z.of_nat (length tbl)
        /\ s_bdev s2 !! Z.to_nat pblk = Some (BDir recs)
        /\ dir_children_count parent < Z.of_nat (length recs))
       /\ dir' = with_private dir parent'
       /\ ((r = inl EIO /\ s' = s3)
           \/ exists k tbl3,
                r = inr {| i_ino := ino; i_private := Some new |}
                /\ s_bdev s3 !! Z.to_nat INO_BLOCK = Some (BInodes tbl3)
                /\ s' = block_written s3 INO_BLOCK
                          (BInodes (<[k := parent']> tbl3))).
Proof.
  unfold simplefs_create_fs_object. rewrite kbind_run.
  unfold simplefs_sb_get_objects_count at 1. rewrite kbind_run.
  unfold get_sb at 1. rewrite kret_run. cbv zeta.
  destruct (Z.leb_spec MAX (inodes_count (s_fs_info s))) as [HM|HN].
  { rewrite kret_run. intros E. injection E as <- <- <-. left. auto. }
  destruct (negb (S_ISDIR md) && negb (S_ISREG md)) eqn:Hmode.
  { rewrite kret_run. intros E. injection E as <- <- <-. left.
    split; [reflexivity|]. split; [reflexivity|]. right.
    split; [reflexivity|].
    destruct (S_ISDIR md), (S_ISREG md); try discriminate; reflexivity. }
  rewrite kbind_run.
  destruct (simplefs_sb_get_a_freeblock SB_BLOCK MAX s) as [[r0 s1]|] eqn:Ealloc;
    [|discriminate].
  pose proof Ealloc as Ealloc'.
  apply simplefs_sb_get_a_freeblock_inv in Ealloc'
    as [(-> & ->)|(blk & fb & -> & -> & Hsb & Hsbs)].
  { rewrite kret_run. intros E. injection E as <- <- <-. left. auto. }
  rewrite kbind_run.
  match goal with |- context [simplefs_inode_add _ _ ?i ?s0] =>
    destruct (simplefs_inode_add SB_BLOCK INO_BLOCK i s0) as [[u s2]|] eqn:Eadd end;
    [|discriminate].
  apply simplefs_inode_add_inv in Eadd as (tbl & Hino & Htbl & Hroom & _ & _ & ->).
  destruct (i_private dir) as [parent|] eqn:Hp; [|discriminate].
  rewrite kbind_run.
  match goal with |- context [sb_bread ?n ?s0] =>
    destruct (sb_bread n s0) as [[bh s2]|] eqn:Ebread end; [|discriminate].
  apply sb_bread_inv in Ebread as [-> Hbh].
  destruct bh as [b|]; [|discriminate].
  destruct (Hbh b eq_refl) as [Hpblk Hb].
  destruct b as [| |recs|]; cbn [as_dir]; try discriminate.
  destruct (Z.leb_spec (Z.of_nat (length recs)) (dir_children_count parent))
    as [Hfull|Hrecs]; [discriminate|].
  destruct (Z.leb_spec FILENAME_MAXLEN (Z.of_nat (String.length name)))
    as [Hlong|Hname]; [discriminate|].
  cbn [orb]. rewrite write_back_run by eauto. rewrite kbind_run.
  match goal with |- context [simplefs_inode_save _ ?i ?s0] =>
    destruct (simplefs_inode_save INO_BLOCK i s0) as [[r1 s4]|] eqn:Esave end;
    [|discriminate].
  apply simplefs_inode_save_inv in Esave
    as (tbl3 & _ & Htbl3 & [(_ & -> & ->)|(k & Hk & -> & ->)]);
    rewrite kret_run; intros E; injection E as <- <- <-; right;
    exists parent, blk, fb, tbl, recs; cbv zeta.
  - split; [auto 15|]. split; [reflexivity|]. left. auto.
  - split; [auto 15|]. split; [reflexivity|]. right. exists k, tbl3. auto.
Qed.

(** X9: create does not undo its steps: when it fails with EIO at the
    last step (the parent's inode could not be saved), the data block
    stays taken out of the bitmask, the new inode stays appended to the
    table with inodes_count incremented, the record stays in the
    parent's block, and the children count of the parent's private inode
    stays incremented. *)
Theorem create_failure_at_last_step_keeps_changes dir name md s dir' s' :
  0 <= inodes_count (s_fs_info s) < 2 ^ 64 - 1 ->
  create_object dir name md s = Ret (inl EIO, dir', s') ->
  let N := inodes_count (s_fs_info s) in
  let ino := to_u64 (N + START_INO - RESERVED_INODES + 1) in
  exists parent blk fb tbl recs,
    i_private dir = Some parent
    /\ simplefs_sb_get_a_freeblock SB_BLOCK MAX s
       = Ret (inr blk, allocated SB_BLOCK s fb)
    /\ s_bdev s !! Z.to_nat INO_BLOCK = Some (BInodes tbl)
    /\ s_bdev s !! Z.to_nat (data_block_number parent) = Some (BDir recs)
    /\ free_blocks (s_fs_info s') = fb
    /\ inodes_count (s_fs_info s') = N + 1
    /\ s_bdev s' !! Z.to_nat INO_BLOCK
       = Some (BInodes (<[Z.to_nat N
                         := {| mode := md; inode_no := ino;
                               data_block_number := blk;
                               dir_children_count := 0 |}]> tbl))
    /\ s_bdev s' !! Z.to_nat (data_block_number parent)
       = Some (BDir (<[Z.to_nat (dir_children_count parent)
                       := {| filename := name; rec_inode_no := ino |}]> recs))
    /\ dir' = with_private dir
                (with_size parent (to_u64 (dir_children_count parent + 1))).
Proof.
  intros HN H. apply create_return_inv in H. cbv zeta in H |- *.
  destruct H as [(_ & _ & [E|[E _]])|H]; try discriminate.
  destruct H as (parent & blk & fb & tbl & recs
                 & (_ & Hp & Halloc & Hsb & Hino & Hpblk & Hsbs & Htbl & _ & Hb & _)
                 & -> & [(_ & ->)|(k & tbl3 & E & _)]); [|discriminate].
  destruct (create_linked_state s fb tbl _ _ recs
              (<[Z.to_nat (dir_children_count parent)
                 := {| filename := name;
                       rec_inode_no :=
                         to_u64 (inodes_count (s_fs_info s) + START_INO
                                 - RESERVED_INODES + 1) |}]> recs)
              Hsb Hino Hpblk Hsbs Htbl Hb)
    as (_ & Htbl0 & Hrecs0 & _ & Htbl1 & Hrecs1 & _).
  exists parent, blk, fb, tbl, recs.
  split; [exact Hp|]. split; [exact Halloc|]. split; [exact Htbl0|].
  split; [exact Hrecs0|]. split; [reflexivity|].
  split; [cbn; apply to_u64_small; lia|].
  split; [exact Htbl1|]. split; [exact Hrecs1|reflexivity].
Qed.

Lemma block_written_keeps_synced s n b b0 :
  superblock_synced SB_BLOCK s ->
  s_bdev s !! Z.to_nat n = Some b0 -> as_super b0 = None ->
  superblock_synced SB_BLOCK (block_written s n b).
Proof.
  intros [Hsb Hs] Hb0 Hns. split; [exact Hsb|]. cbn.
  rewrite list_lookup_insert_ne; [exact Hs|].
  intros E. rewrite E, Hs in Hb0. injection Hb0 as <-. discriminate.
Qed.

Lemma synced_is_synced s :
  0 <= SB_BLOCK -> is_Some (s_bdev s !! Z.to_nat SB_BLOCK) ->
  superblock_synced SB_BLOCK (synced SB_BLOCK s).
Proof.
  intros Hsb Hs. split; [exact Hsb|]. cbn.
  apply list_lookup_insert_eq. apply lookup_lt_is_Some. exact Hs.
Qed.

(** X10: the operations keep the superblock on the device equal to the
    superblock in memory: when the block of the superblock holds
    [s_fs_info] before an allocation, an append or an update of the
    inode store, a create or a write, it does so after it, whatever the
    operation returns. *)
Theorem operations_keep_superblock_synced s :
  superblock_synced SB_BLOCK s ->
  (forall r s', simplefs_sb_get_a_freeblock SB_BLOCK MAX s = Ret (r, s') ->
                superblock_synced SB_BLOCK s')
  /\ (forall i u s', simplefs_inode_add SB_BLOCK INO_BLOCK i s = Ret (u, s') ->
                     superblock_synced SB_BLOCK s')
  /\ (forall i r s', simplefs_inode_save INO_BLOCK i s = Ret (r, s') ->
                     superblock_synced SB_BLOCK s')
  /\ (forall dir name md r dir' s',
        create_object dir name md s = Ret (r, dir', s') ->
        superblock_synced SB_BLOCK s')
  /\ (forall filp buf_ok bytes ppos r filp' ppos' s',
        simplefs_write INO_BLOCK filp buf_ok bytes ppos s
        = Ret (r, filp', ppos', s') ->
        superblock_synced SB_BLOCK s').
Proof.
  intros Hsync.
  assert (forall i r s0 s',
            superblock_synced SB_BLOCK s0 ->
            simplefs_inode_save INO_BLOCK i s0 = Ret (r, s') ->
            superblock_synced SB_BLOCK s') as Hsave.
  { intros i r s0 s' H0 H. apply simplefs_inode_save_inv in H
      as (tbl & _ & Htbl & [(_ & _ & ->)|(k & _ & _ & ->)]); [exact H0|].
    apply (block_written_keeps_synced _ _ _ _ H0 Htbl). reflexivity. }
  split; [|split; [|split; [|split]]].
  - intros r s' H. apply simplefs_sb_get_a_freeblock_inv in H
      as [(_ & ->)|(blk & fb & _ & -> & Hsb & Hs)]; [exact Hsync|].
    apply synced_is_synced; assumption.
  - intros i u s' H. apply simplefs_inode_add_inv in H
      as (tbl & _ & _ & _ & Hsb & Hs & ->).
    apply synced_is_synced; [exact Hsb|]. cbn.
    apply lookup_lt_is_Some. rewrite length_insert.
    apply lookup_lt_is_Some. exact Hs.
  - intros i r s'. apply Hsave. exact Hsync.
  - intros dir name md r dir' s' H. apply create_return_inv in H.
    cbv zeta in H. destruct H as [(-> & _)|H]; [exact Hsync|].
    destruct H as (parent & blk & fb & tbl & recs
                   & (_ & _ & _ & Hsb & Hino & Hpblk & Hsbs & Htbl & _ & Hb & _)
                   & _ & Hend).
    match type of Hb with
      s_bdev ?s2 !! _ = _ =>
        assert (superblock_synced SB_BLOCK s2) as H2
    end.
    { apply synced_is_synced; [exact Hsb|]. cbn.
      apply lookup_lt_is_Some. rewrite !length_insert.
      apply lookup_lt_is_Some. exact Hsbs. }
    pose proof (block_written_keeps_synced _ _
                  (BDir (<[Z.to_nat (dir_children_count parent)
                           := {| filename := name;
                                 rec_inode_no :=
                                   to_u64 (inodes_count (s_fs_info s) + START_INO
                                           - RESERVED_INODES + 1) |}]> recs))
                  _ H2 Hb eq_refl) as H3.
    destruct Hend as [(_ & ->)|(k & tbl3 & _ & Htbl3 & ->)]; [exact H3|].
    apply (block_written_keeps_synced _ _ _ _ H3 Htbl3). reflexivity.
  - intros filp buf_ok bytes ppos r filp' ppos' s'. unfold simplefs_write.
    destruct (i_private filp) as [ino|]; [|discriminate].
    rewrite kbind_run.
    destruct (sb_bread (data_block_number ino) s) as [[bh s0]|] eqn:Eb;
      [|discriminate].
    apply sb_bread_inv in Eb as [-> Hbh].
    destruct bh as [b|]; [|rewrite kret_run; intros E; injection E as _ _ _ <-;
                           exact Hsync].
    destruct (Hbh b eq_refl) as [Hblk Hb].
    destruct b as [| | |buffer]; cbn [as_data]; try discriminate.
    destruct (negb buf_ok && _);
      [rewrite kret_run; intros E; injection E as _ _ _ <-; exact Hsync|].
    destruct (splice buffer ppos bytes) as [buffer'|]; [|discriminate].
    cbv zeta. rewrite write_back_run by eauto. rewrite kbind_run.
    destruct (simplefs_inode_save _ _ _) as [[r1 s1]|] eqn:Es; [|discriminate].
    rewrite kret_run. intros E. injection E as _ _ _ <-.
    apply (Hsave _ _ _ _ (block_written_keeps_synced _ _ _ _ Hsync Hb eq_refl) Es).
Qed.

End CreateReturns.

(** ** simplefs_lookup and simplefs_iterate *)

Section Directory.

Variable FILENAME_MAXLEN : Z.
Variable INO_BLOCK : Z.
Variable DIR_RECORD_SIZE : Z.

Abbreviation iterate := (simplefs_iterate FILENAME_MAXLEN DIR_RECORD_SIZE).

Lemma lookup_is_search_of_directory_aux parent_inode name s r s' :
  simplefs_lookup INO_BLOCK parent_inode name s = Ret (r, s') ->
  s' = s
  /\ exists parent recs,
       i_private parent_inode = Some parent
       /\ s_bdev s !! Z.to_nat (data_block_number parent) = Some (BDir recs)
       /\ match find (fun rec => String.eqb (filename rec) name)
                  (take (Z.to_nat (dir_children_count parent)) recs) with
          | None => r = None
          | Some rec =>
              exists tbl i,
                s_bdev s !! Z.to_nat INO_BLOCK = Some (BInodes tbl)
                /\ find (fun c => inode_no c =? rec_inode_no rec)
                     (live_inodes s tbl) = Some i
                /\ r = Some {| i_ino := rec_inode_no rec; i_private := Some i |}
          end.
Proof.
  unfold simplefs_lookup.
  destruct (i_private parent_inode) as [parent|]; [|discriminate].
  rewrite kbind_run.
  destruct (sb_bread (data_block_number parent) s) as [[bh s0]|] eqn:Eb;
    [|discriminate].
  apply sb_bread_inv in Eb as [-> Hbh].
  destruct bh as [b|]; [|discriminate].
  destruct (Hbh b eq_refl) as [Hblk Hb].
  destruct b as [| |recs|]; cbn [as_dir]; try discriminate.
  destruct (lookup_scan _ recs name) as [found|] eqn:Hscan; [|discriminate].
  apply lookup_scan_returns in Hscan. subst found.
  destruct (find _ _) as [rec|] eqn:Hfind.
  - rewrite kbind_run.
    destruct (simplefs_get_inode INO_BLOCK (rec_inode_no rec) s)
      as [[gi s1]|] eqn:Eg; [|discriminate].
    apply get_inode_is_search_of_live_records_aux in Eg
      as (-> & tbl & Htbl & ->).
    destruct (find _ (live_inodes s tbl)) as [i|] eqn:Hi; [|discriminate].
    rewrite kret_run. intros E. injection E as <- <-.
    split; [reflexivity|]. exists parent, recs.
    split; [reflexivity|]. split; [exact Hb|]. rewrite Hfind. eauto.
  - rewrite kret_run. intros E. injection E as <- <-.
    split; [reflexivity|]. exists parent, recs.
    split; [reflexivity|]. split; [exact Hb|]. rewrite Hfind. reflexivity.
Qed.

(** X11: [simplefs_lookup] changes nothing.  It leaves the dentry
    negative exactly when none of the first dir_children_count records
    of the parent's block carries the name; otherwise it attaches the
    inode numbered as the first such record says, with the first live
    record of the inode table that carries this number. *)
Theorem lookup_is_search_of_directory parent_inode name s r s' :
  simplefs_lookup INO_BLOCK parent_inode name s = Ret (r, s') ->
  s' = s
  /\ exists parent recs,
       i_private parent_inode = Some parent
       /\ s_bdev s !! Z.to_nat (data_block_number parent) = Some (BDir recs)
       /\ match find (fun rec => String.eqb (filename rec) name)
                  (take (Z.to_nat (dir_children_count parent)) recs) with
          | None => r = None
          | Some rec =>
              exists tbl i,
                s_bdev s !! Z.to_nat INO_BLOCK = Some (BInodes tbl)
                /\ find (fun c => inode_no c =? rec_inode_no rec)
                     (live_inodes s tbl) = Some i
                /\ r = Some {| i_ino := rec_inode_no rec; i_private := Some i |}
          end.
Proof.
  intros H.
  exact (lookup_is_search_of_directory_aux parent_inode name s r s' H).
Qed.

(** The loop of [simplefs_iterate] within the records of the block and
    within the range of [loff_t]. *)
Lemma iterate_loop_listing n recs pos :
  (n <= length recs)%nat ->
  0 <= pos -> 0 <= DIR_RECORD_SIZE ->
  pos + Z.of_nat n * DIR_RECORD_SIZE < 2 ^ 63 ->
  iterate_loop FILENAME_MAXLEN DIR_RECORD_SIZE n recs pos
  = Ret (imap (fun j r => {| d_name := filename r;
                             d_namlen := FILENAME_MAXLEN;
                             d_ino := rec_inode_no r;
                             d_off := pos + Z.of_nat j * DIR_RECORD_SIZE |})
           (take n recs),
         pos + Z.of_nat n * DIR_RECORD_SIZE).
Proof.
  revert recs pos. induction n as [|n IH]; intros recs pos Hn Hpos Hsz Hend.
  - cbn. f_equal. f_equal. lia.
  - destruct recs as [|r rest]; [simpl in Hn; lia|]. cbn [iterate_loop].
    rewrite to_s64_small by nia.
    rewrite IH by (try nia; simpl in Hn; lia).
    cbn [take imap]. f_equal. f_equal; [|lia]. f_equal.
    + f_equal. lia.
    + apply imap_ext. intros j x _. cbn. f_equal. lia.
Qed.

(** X12: [simplefs_iterate] changes nothing.  Called with a position
    other than 0 it hands over no entry and returns 0; on an inode that
    is not a directory it fails with ENOTDIR; on a directory at position
    0 it hands over one entry for each of the first dir_children_count
    records of the block, in the order of the block, each with the
    length SIMPLEFS_FILENAME_MAXLEN and the offsets 0, size, 2 * size,
    ..., and leaves the position at dir_children_count * size, so that a
    second call with this position lists nothing. *)
Theorem iterate_lists_the_directory_once filp d s :
  i_private filp = Some d ->
  (forall pos, pos <> 0 -> iterate filp pos s = Ret (inr tt, [], pos, s))
  /\ (S_ISDIR (mode d) = false -> iterate filp 0 s = Ret (inl ENOTDIR, [], 0, s))
  /\ (S_ISDIR (mode d) = true ->
      forall recs,
        0 <= data_block_number d ->
        s_bdev s !! Z.to_nat (data_block_number d) = Some (BDir recs) ->
        0 <= dir_children_count d <= Z.of_nat (length recs) ->
        0 <= DIR_RECORD_SIZE ->
        dir_children_count d * DIR_RECORD_SIZE < 2 ^ 63 ->
        iterate filp 0 s
        = Ret (inr tt,
               listing FILENAME_MAXLEN DIR_RECORD_SIZE
                 (take (Z.to_nat (dir_children_count d)) recs),
               dir_children_count d * DIR_RECORD_SIZE, s)).
Proof.
  intros Hp. split; [|split].
  - intros pos Hpos. unfold simplefs_iterate.
    apply Z.eqb_neq in Hpos. rewrite Hpos. reflexivity.
  - intros Hk. unfold simplefs_iterate. cbn [Z.eqb negb]. rewrite Hp, Hk.
    reflexivity.
  - intros Hk recs Hblk Hb Hch Hsz Hend. unfold simplefs_iterate.
    cbn [Z.eqb negb]. rewrite Hp, Hk. cbn [negb].
    rewrite kbind_run, (sb_bread_ok _ _ _ Hblk Hb). cbn [as_dir].
    rewrite iterate_loop_listing by lia.
    rewrite kret_run. unfold listing. cbn [Z.add].
    rewrite Z2Nat.id by lia. reflexivity.
Qed.

End Directory.

(** ** Create, then the directory operations *)

Lemma simplefs_lookup_run INO_BLOCK dir parent name s recs tbl :
  i_private dir = Some parent ->
  0 <= data_block_number parent ->
  s_bdev s !! Z.to_nat (data_block_number parent) = Some (BDir recs) ->
  (Z.to_nat (dir_children_count parent) <= length recs)%nat ->
  0 <= INO_BLOCK ->
  s_bdev s !! Z.to_nat INO_BLOCK = Some (BInodes tbl) ->
  (Z.to_nat (inodes_count (s_fs_info s)) <= length tbl)%nat ->
  simplefs_lookup INO_BLOCK dir name s
  = match find (fun rec => String.eqb (filename rec) name)
            (take (Z.to_nat (dir_children_count parent)) recs) with
    | None => Ret (None, s)
    | Some rec =>
        match find (fun c => inode_no c =? rec_inode_no rec)
                (live_inodes s tbl) with
        | Some i => Ret (Some {| i_ino := rec_inode_no rec;
                                 i_private := Some i |}, s)
        | None => Fault NULL_DEREF
        end
    end.
Proof.
  intros Hp Hblk Hb Hch Hino Htbl HN. unfold simplefs_lookup.
  rewrite Hp, kbind_run, (sb_bread_ok _ _ _ Hblk Hb). cbn [as_dir].
  rewrite lookup_scan_find by exact Hch.
  destruct (find _ _) as [rec|]; [|reflexivity].
  rewrite kbind_run, (simplefs_get_inode_run _ _ _ _ Hino Htbl).
  rewrite get_inode_loop_find by exact HN. unfold live_inodes.
  destruct (find _ _); reflexivity.
Qed.

Section CreateCompose.

Variable FILENAME_MAXLEN : Z.
Variable START_INO : Z.
Variable RESERVED_INODES : Z.
Variable SB_BLOCK : Z.
Variable INO_BLOCK : Z.
Variable MAX : Z.
Variable DIR_RECORD_SIZE : Z.

Abbreviation mk :=
  (simplefs_create_fs_object FILENAME_MAXLEN START_INO RESERVED_INODES
     SB_BLOCK INO_BLOCK MAX).

(** X13: after a successful create in a directory, [simplefs_iterate] on
    the directory hands over the entries it handed over before the
    create, followed by one entry for the new name with the new object
    number: the listing is in the order of creation. *)
Theorem create_then_iterate_appends_entry
    dir parent name md s recs child dir' s' :
  let ch := dir_children_count parent in
  i_private dir = Some parent ->
  S_ISDIR (mode parent) = true ->
  s_bdev s !! Z.to_nat (data_block_number parent) = Some (BDir recs) ->
  0 <= ch < 2 ^ 64 - 1 ->
  0 <= DIR_RECORD_SIZE -> (ch + 1) * DIR_RECORD_SIZE < 2 ^ 63 ->
  mk dir name md s = Ret (inr child, dir', s') ->
  simplefs_iterate FILENAME_MAXLEN DIR_RECORD_SIZE dir 0 s
  = Ret (inr tt,
         listing FILENAME_MAXLEN DIR_RECORD_SIZE (take (Z.to_nat ch) recs),
         ch * DIR_RECORD_SIZE, s)
  /\ simplefs_iterate FILENAME_MAXLEN DIR_RECORD_SIZE dir' 0 s'
     = Ret (inr tt,
            listing FILENAME_MAXLEN DIR_RECORD_SIZE (take (Z.to_nat ch) recs)
              ++ [{| d_name := name; d_namlen := FILENAME_MAXLEN;
                     d_ino := i_ino child; d_off := ch * DIR_RECORD_SIZE |}],
            (ch + 1) * DIR_RECORD_SIZE, s').
Proof.
  cbv zeta. intros Hp Hdir Hrecs Hch Hsz Hend H.
  apply create_success_state in H. cbv zeta in H.
  destruct H as (parent0 & blk & fb & tbl0 & recs0 & k
                 & (_ & _ & Hp0 & _)
                 & (_ & Hino & Hpblk & _ & _ & Hrecs0 & Hfit & _ & _)
                 & (-> & -> & _ & _ & Hrecs' & _)).
  rewrite Hp in Hp0. injection Hp0 as <-.
  rewrite Hrecs in Hrecs0. injection Hrecs0 as <-.
  set (ch := Z.to_nat (dir_children_count parent)) in *.
  assert (forall f d st rs,
            i_private f = Some d -> S_ISDIR (mode d) = true ->
            0 <= data_block_number d ->
            s_bdev st !! Z.to_nat (data_block_number d) = Some (BDir rs) ->
            0 <= dir_children_count d <= Z.of_nat (length rs) ->
            dir_children_count d * DIR_RECORD_SIZE < 2 ^ 63 ->
            simplefs_iterate FILENAME_MAXLEN DIR_RECORD_SIZE f 0 st
            = Ret (inr tt,
                   listing FILENAME_MAXLEN DIR_RECORD_SIZE
                     (take (Z.to_nat (dir_children_count d)) rs),
                   dir_children_count d * DIR_RECORD_SIZE, st)) as Hrun.
  { intros f d st rs Hf Hk Hblk Hb Hc He. unfold simplefs_iterate.
    cbn [Z.eqb negb]. rewrite Hf, Hk. cbn [negb].
    rewrite kbind_run, (sb_bread_ok _ _ _ Hblk Hb). cbn [as_dir].
    rewrite iterate_loop_listing by lia.
    rewrite kret_run. unfold listing. cbn [Z.add].
    rewrite Z2Nat.id by lia. reflexivity. }
  split.
  - apply Hrun; try assumption; nia.
  - pose proof (Hrun (with_private dir
                        (with_size parent
                           (to_u64 (dir_children_count parent + 1))))
                  (with_size parent (to_u64 (dir_children_count parent + 1)))
                  s' _ eq_refl Hdir Hpblk Hrecs') as Hr.
    cbn [with_size dir_children_count] in Hr.
    rewrite length_insert in Hr.
    rewrite (to_u64_small (dir_children_count parent + 1)) in Hr |- * by lia.
    rewrite Hr by lia. clear Hr.
    replace (Z.to_nat (dir_children_count parent + 1)) with (S ch) by lia.
    rewrite (take_S_r _ ch {| filename := name;
                              rec_inode_no :=
                                to_u64 (inodes_count (s_fs_info s) + START_INO
                                        - RESERVED_INODES + 1) |})
      by (apply list_lookup_insert_eq; lia).
    rewrite take_insert_ge by lia.
    unfold listing. rewrite imap_app. cbn [imap i_ino d_name].
    rewrite length_take_le by lia. rewrite Nat.add_0_r.
    unfold ch. rewrite Z2Nat.id by lia. reflexivity.
Qed.

Lemma S_ISDIR_lor_IFDIR md :
  Z.land md S_IFMT = 0 ->
  S_ISDIR (Z.lor S_IFDIR md) = true /\ S_ISREG (Z.lor S_IFDIR md) = false.
Proof.
  intros H. unfold S_ISDIR, S_ISREG.
  rewrite Z.land_lor_distr_l, H, Z.lor_0_r. split; reflexivity.
Qed.

(** X14: [simplefs_mkdir] called with permission bits only (no bit of
    the file type set) is never refused as an invalid argument, and when
    it succeeds the object it creates is stored as a directory with the
    given permission bits and no children. *)
Theorem mkdir_creates_a_directory dir name md s r dir' s' :
  Z.land md S_IFMT = 0 ->
  simplefs_mkdir FILENAME_MAXLEN START_INO RESERVED_INODES SB_BLOCK INO_BLOCK
    MAX dir name md s = Ret (r, dir', s') ->
  match r with
  | inl e => e <> EINVAL
  | inr child =>
      exists i,
        i_private child = Some i
        /\ mode i = Z.lor S_IFDIR md
        /\ S_ISDIR (mode i) = true /\ S_ISREG (mode i) = false
        /\ Z.land (mode i) (Z.lnot S_IFMT) = md
        /\ dir_children_count i = 0
  end.
Proof.
  intros Hmd H. unfold simplefs_mkdir in H.
  destruct (S_ISDIR_lor_IFDIR md Hmd) as [Hd Hr].
  apply create_return_inv in H. cbv zeta in H.
  destruct H as [(_ & _ & [->|[-> Hbad]])|H].
  - discriminate.
  - rewrite Hd in Hbad. discriminate.
  - destruct H as (parent & blk & fb & tbl & recs & _ & _
                   & [(-> & _)|(k & tbl3 & -> & _)]); [discriminate|].
    eexists. split; [reflexivity|]. cbn [mode dir_children_count].
    split; [reflexivity|]. split; [exact Hd|]. split; [exact Hr|].
    split; [|reflexivity].
    rewrite Z.land_lor_distr_l.
    replace (Z.land S_IFDIR (Z.lnot S_IFMT)) with 0 by reflexivity.
    rewrite Z.lor_0_l. apply Z.bits_inj'. intros n Hn.
    rewrite Z.land_spec, Z.lnot_spec by lia.
    destruct (Z.testbit md n) eqn:Hb; [|reflexivity]. cbn.
    assert (Z.testbit (Z.land md S_IFMT) n = false) as Hz
      by (rewrite Hmd; apply Z.bits_0).
    rewrite Z.land_spec, Hb in Hz. cbn in Hz. rewrite Hz. reflexivity.
Qed.

(** X15: a successful create leaves the other names of the directory
    as they were: for a parent whose inode is a live record and a new
    object number no live record carries, the lookup of any other name
    whose object is not the parent itself gives, after the create, what
    it gave before. *)
Theorem create_keeps_other_names
    dir parent name md s tbl recs child dir' s' name2 r :
  let N := inodes_count (s_fs_info s) in
  i_private dir = Some parent ->
  s_bdev s !! Z.to_nat INO_BLOCK = Some (BInodes tbl) ->
  s_bdev s !! Z.to_nat (data_block_number parent) = Some (BDir recs) ->
  0 <= N < 2 ^ 64 - 1 ->
  0 <= dir_children_count parent < 2 ^ 64 - 1 ->
  (exists c, c ∈ live_inodes s tbl /\ inode_no c = inode_no parent) ->
  (forall c, c ∈ live_inodes s tbl ->
             inode_no c <> to_u64 (N + START_INO - RESERVED_INODES + 1)) ->
  mk dir name md s = Ret (inr child, dir', s') ->
  name2 <> name ->
  simplefs_lookup INO_BLOCK dir name2 s = Ret (r, s) ->
  (forall f, r = Some f -> i_ino f <> inode_no parent) ->
  simplefs_lookup INO_BLOCK dir' name2 s' = Ret (r, s').
Proof.
  cbv zeta. intros Hp Htbl Hrecs HN Hch (c & Hc & Hcno) Hfresh H Hne Hlk Hnp.
  apply create_success_state in H. cbv zeta in H.
  destruct H as (parent0 & blk & fb & tbl0 & recs0 & k
                 & (_ & _ & Hp0 & _)
                 & (_ & Hino & Hpblk & Htbl0 & Hroom & Hrecs0 & Hfit & _ & Hk)
                 & (-> & -> & Hsb' & Htbl' & Hrecs' & _)).
  rewrite Hp in Hp0. injection Hp0 as <-.
  rewrite Htbl in Htbl0. injection Htbl0 as <-.
  rewrite Hrecs in Hrecs0. injection Hrecs0 as <-.
  set (ino := to_u64 (inodes_count (s_fs_info s) + START_INO
                      - RESERVED_INODES + 1)) in *.
  set (new := {| mode := md; inode_no := ino; data_block_number := blk;
                 dir_children_count := 0 |}) in *.
  set (n := Z.to_nat (inodes_count (s_fs_info s))) in *.
  set (ch := Z.to_nat (dir_children_count parent)) in *.
  set (newrec := {| filename := name; rec_inode_no := ino |}) in *.
  set (parent' := with_size parent (to_u64 (dir_children_count parent + 1))) in *.
  (* the position of the parent's record *)
  unfold simplefs_inode_search in Hk.
  apply inode_search_loop_Some in Hk as (k' & pc & -> & _ & Hpc & Hpcno & Hfirst).
  cbn [with_size inode_no parent'] in Hpcno, Hfirst. cbn [Nat.add] in Htbl'.
  apply elem_of_take in Hc as (j & Hj & Hjn). fold n in Hjn.
  assert (k' <= j)%nat as Hkj.
  { destruct (Nat.le_gt_cases k' j) as [|Hlt]; [assumption|]. exfalso.
    apply (Hfirst j c Hlt); [|exact Hcno].
    rewrite list_lookup_insert_ne by lia. exact Hj. }
  rewrite list_lookup_insert_ne in Hpc by lia.
  (* the lookup before the create *)
  rewrite (simplefs_lookup_run _ _ _ _ _ recs tbl Hp Hpblk Hrecs) in Hlk
    by (try assumption; unfold ch, n in *; lia).
  (* the lookup after it *)
  assert (Z.to_nat (dir_children_count parent')
          <= length (<[ch:=newrec]> recs))%nat as Hc1.
  { cbn [parent' with_size dir_children_count].
    rewrite length_insert, to_nat_succ_u64 by assumption. fold ch. lia. }
  assert (Z.to_nat (inodes_count (s_fs_info s'))
          <= length (<[k':=parent']> (<[n:=new]> tbl)))%nat as Hc2.
  { rewrite Hsb'. cbn [with_inodes_count inodes_count].
    rewrite !length_insert, to_nat_succ_u64 by assumption. fold n. lia. }
  rewrite (simplefs_lookup_run INO_BLOCK (with_private dir parent') parent'
             name2 s' _ _ eq_refl Hpblk Hrecs' Hc1 Hino Htbl' Hc2).
  cbn [parent' with_size dir_children_count].
  rewrite to_nat_succ_u64 by assumption.
  fold ch. unfold live_inodes. rewrite Hsb'. cbn [with_inodes_count inodes_count].
  rewrite to_nat_succ_u64 by assumption. fold n.
  rewrite (take_S_r _ ch newrec) by (apply list_lookup_insert_eq; lia).
  rewrite take_insert_ge, find_app by lia.
  fold ch in Hlk.
  destruct (find _ (take ch recs)) as [rec|] eqn:Hfind.
  - unfold live_inodes in Hlk. fold n in Hlk.
    destruct (find _ (take n tbl)) as [i|] eqn:Hi; [|discriminate].
    injection Hlk as <-.
    specialize (Hnp _ eq_refl). cbn [i_ino] in Hnp.
    rewrite take_insert_lt by lia.
    rewrite (take_S_r _ n new) by (apply list_lookup_insert_eq; lia).
    rewrite take_insert_ge by lia.
    rewrite (find_insert_false _ _ k' pc parent').
    + rewrite find_app, Hi. reflexivity.
    + rewrite lookup_app_l by (rewrite length_take; lia).
      rewrite lookup_take_lt by lia. exact Hpc.
    + apply Z.eqb_neq. congruence.
    + apply Z.eqb_neq. cbn. congruence.
  - injection Hlk as <-. cbn [find filename newrec].
    replace (String.eqb name name2) with false
      by (symmetry; apply String.eqb_neq; congruence).
    reflexivity.
Qed.

(** The bit of the block handed out is not in the bitmask the allocation
    leaves. *)
(** X16: create keeps the data blocks of the live objects out of the
    free set: when no live object's data block (from block 3 on) is in
    the bitmask and the data block of the parent's private inode is not
    either, the same holds after a successful create, of the new object's
    block too. *)
Theorem create_keeps_blocks_busy dir parent name md s child dir' s' :
  0 <= inodes_count (s_fs_info s) < 2 ^ 64 - 1 ->
  i_private dir = Some parent ->
  (3 <= data_block_number parent ->
   Z.testbit (free_blocks (s_fs_info s)) (data_block_number parent) = false) ->
  blocks_busy INO_BLOCK s ->
  mk dir name md s = Ret (inr child, dir', s') ->
  blocks_busy INO_BLOCK s'.
Proof.
  intros HN Hp Hpbusy Hbusy H.
  apply create_success_state in H. cbv zeta in H.
  destruct H as (parent0 & blk & fb & tbl & recs & k
                 & (_ & _ & Hp0 & Halloc)
                 & (_ & Hino & Hpblk & Htbl & Hroom & _ & _ & _ & Hk)
                 & (_ & _ & Hsb' & Htbl' & _ & _)).
  rewrite Hp in Hp0. injection Hp0 as <-.
  pose proof (alloc_clears_own_bit _ _ _ _ _ Halloc) as Hown. cbn in Hown.
  assert (forall b, Z.testbit (free_blocks (s_fs_info s)) b = false ->
                    Z.testbit fb b = false) as Hsub.
  { intros b Hb. apply alloc_success_inv in Halloc
      as (m & _ & _ & _ & _ & _ & E).
    apply (f_equal (fun st => free_blocks (s_fs_info st))) in E. cbn in E.
    rewrite E, Z.land_spec, Hb. reflexivity. }
  intros tbl2 c Htbl2 Hc Hc3. rewrite Htbl' in Htbl2. injection Htbl2 as <-.
  unfold live_inodes in Hc. rewrite Hsb' in Hc |- *.
  cbn [with_inodes_count with_free_blocks inodes_count free_blocks] in Hc |- *.
  rewrite to_nat_succ_u64 in Hc by exact HN.
  apply elem_of_take in Hc as (j & Hj & Hjn).
  destruct (Nat.eq_dec j k) as [->|Hjk].
  - apply list_lookup_insert_Some in Hj as [(_ & <- & _)|(Hkk & _)]; [|lia].
    cbn in Hc3 |- *. apply Hsub. apply Hpbusy. exact Hc3.
  - rewrite list_lookup_insert_ne in Hj by auto.
    destruct (Nat.eq_dec j (Z.to_nat (inodes_count (s_fs_info s)))) as [->|Hjn'].
    + rewrite list_lookup_insert_eq in Hj by lia. injection Hj as <-.
      cbn. exact Hown.
    + rewrite list_lookup_insert_ne in Hj by auto.
      apply Hsub. apply (Hbusy tbl c Htbl); [|exact Hc3].
      apply elem_of_take. exists j. split; [exact Hj|lia].
Qed.

(** X17: with a bound of at most 31 objects, the data block a successful
    create gives the new object is the block of no live object, when no
    live object's data block (from block 3 on) is in the bitmask. *)
Theorem create_gives_an_unshared_block dir name md s child dir' s' tbl c new :
  3 <= MAX <= 31 ->
  blocks_busy INO_BLOCK s ->
  s_bdev s !! Z.to_nat INO_BLOCK = Some (BInodes tbl) ->
  c ∈ live_inodes s tbl ->
  mk dir name md s = Ret (inr child, dir', s') ->
  i_private child = Some new ->
  data_block_number new <> data_block_number c.
Proof.
  intros HM Hbusy Htbl Hc H Hnew.
  apply create_success_state in H. cbv zeta in H.
  destruct H as (parent & blk & fb & tbl0 & recs & k
                 & (_ & _ & _ & Halloc) & _ & (-> & _)).
  cbn in Hnew. injection Hnew as <-. cbn.
  apply alloc_success_inv in Halloc as (m & Hscan & Hne & Hm & _).
  apply freeblock_scan_inv in Hscan as (Hr & _ & Hstop).
  destruct (Hstop ltac:(lia)) as (m' & Hm' & Hnz).
  rewrite int_shl_1_low in Hm' by lia. injection Hm' as <-.
  rewrite to_u64_small in Hnz
    by (pose proof (pow2_lt_pow2 blk 64 ltac:(lia)); lia).
  assert (Z.testbit (free_blocks (s_fs_info s)) blk = true) as Hfree.
  { destruct (Z.testbit _ blk) eqn:Hb; [reflexivity|]. exfalso. apply Hnz.
    apply Z.eqb_eq. rewrite land_pow2_eqb, Hb by lia. reflexivity. }
  intros E. rewrite E, (Hbusy tbl c Htbl Hc) in Hfree by lia. discriminate.
Qed.

(** X18: two creates in a row give their objects different numbers and
    different data blocks, the second block being the higher one. *)
Theorem successive_creates_differ
    dir1 name1 md1 s child1 dir1' s1 dir2 name2 md2 child2 dir2' s2 i1 i2 :
  3 <= MAX ->
  0 <= inodes_count (s_fs_info s) < 2 ^ 64 - 1 ->
  simplefs_create_fs_object FILENAME_MAXLEN START_INO RESERVED_INODES
    SB_BLOCK INO_BLOCK MAX dir1 name1 md1 s
  = Ret (inr child1, dir1', s1) ->
  simplefs_create_fs_object FILENAME_MAXLEN START_INO RESERVED_INODES
    SB_BLOCK INO_BLOCK MAX dir2 name2 md2 s1
  = Ret (inr child2, dir2', s2) ->
  i_private child1 = Some i1 -> i_private child2 = Some i2 ->
  i_ino child1 <> i_ino child2
  /\ inode_no i1 <> inode_no i2
  /\ data_block_number i1 < data_block_number i2.
Proof.
  intros HM HN H1 H2 Hi1 Hi2.
  apply create_success_state in H1. apply create_success_state in H2.
  cbv zeta in H1, H2.
  destruct H1 as (p1 & b1 & fb1 & t1 & r1 & k1
                  & (_ & _ & _ & Ha1) & _ & (-> & _ & Hsb1 & _)).
  destruct H2 as (p2 & b2 & fb2 & t2 & r2 & k2
                  & (_ & _ & _ & Ha2) & _ & (-> & _)).
  cbn in Hi1, Hi2. injection Hi1 as <-. injection Hi2 as <-. cbn.
  rewrite Hsb1. cbn [with_inodes_count inodes_count].
  assert (to_u64 (inodes_count (s_fs_info s) + START_INO - RESERVED_INODES + 1)
          <> to_u64 (to_u64 (inodes_count (s_fs_info s) + 1) + START_INO
                     - RESERVED_INODES + 1)) as Hno.
  { rewrite (to_u64_small (inodes_count (s_fs_info s) + 1)) by lia.
    unfold to_u64. intros E.
    assert ((inodes_count (s_fs_info s) + 1 + START_INO - RESERVED_INODES + 1
             - (inodes_count (s_fs_info s) + START_INO - RESERVED_INODES + 1))
              mod 2 ^ 64 = 0) as Hz
      by (rewrite Zminus_mod, <- E, Z.sub_diag; reflexivity).
    replace (_ - _) with 1 in Hz by lia. discriminate. }
  split; [exact Hno|]. split; [exact Hno|].
  apply (alloc_never_repeats_aux SB_BLOCK MAX s b1 (allocated SB_BLOCK s fb1)
           s1 b2 (allocated SB_BLOCK s1 fb2) HM Ha1); [|exact Ha2].
  rewrite Hsb1. reflexivity.
Qed.

End CreateCompose.

(** ** A write is seen by a later find *)

Section WritePersists.

Variable INO_BLOCK : Z.

(** X19: after a write that stays inside the data block and returns its
    byte count, for a file whose inode is a live record of the store,
    [simplefs_get_inode] (and with it every later lookup of the file)
    returns the inode with file_size equal to the end offset of the
    write. *)
Theorem write_is_seen_by_get_inode
    filp ino buf_ok bytes ppos s buffer tbl n filp1 ppos1 s1 :
  let len := Z.of_nat (length bytes) in
  i_private filp = Some ino ->
  0 <= data_block_number ino ->
  s_bdev s !! Z.to_nat (data_block_number ino) = Some (BData buffer) ->
  0 <= ppos -> ppos + len <= Z.of_nat (length buffer) ->
  ppos + len < 2 ^ 63 ->
  s_bdev s !! Z.to_nat INO_BLOCK = Some (BInodes tbl) ->
  (exists c, c ∈ live_inodes s tbl /\ inode_no c = inode_no ino) ->
  simplefs_write INO_BLOCK filp buf_ok bytes ppos s
  = Ret (inr n, filp1, ppos1, s1) ->
  simplefs_get_inode INO_BLOCK (inode_no ino) s1
  = Ret (Some (with_size ino (ppos + len)), s1)
  /\ i_private filp1 = Some (with_size ino (ppos + len)).
Proof.
  cbv zeta. intros Hp Hblk Hb Hpos Hfit Hend Htbl Hlive H.
  assert (buf_ok = true \/ bytes = []) as Hok.
  { unfold simplefs_write in H.
    rewrite Hp, kbind_run, (sb_bread_ok _ _ _ Hblk Hb) in H. cbn [as_data] in H.
    destruct buf_ok; [auto|]. destruct bytes; [auto|discriminate]. }
  rewrite (simplefs_write_run _ _ _ _ _ _ _ _ Hp Hblk Hb Hpos Hfit Hok) in H.
  rewrite write_end_offset in H by lia.
  destruct (simplefs_inode_save _ _ _) as [[r s']|] eqn:Esave; [|discriminate].
  destruct r as [e|[]]; [discriminate|].
  injection H as _ <- _ <-. split; [|reflexivity].
  destruct (inode_save_then_get_inode_aux INO_BLOCK _ _ _ Esave)
    as (_ & _ & Hget & _); [|exact Hget].
  intros tbl0 Htbl0. cbn in Htbl0.
  rewrite list_lookup_insert_ne in Htbl0
    by (intros E; rewrite E, Htbl in Hb; discriminate).
  rewrite Htbl in Htbl0. injection Htbl0 as <-. exact Hlive.
Qed.

End WritePersists.

(** ** Mount *)

Section MountState.

Variable MAGIC : Z.
Variable BLOCK_SIZE : Z.
Variable ROOT_INO : Z.
Variable SB_BLOCK : Z.
Variable INO_BLOCK : Z.


End MountState.

(** ** The object count and new objects *)

Section CreateCount.

Variable FILENAME_MAXLEN : Z.
Variable START_INO : Z.
Variable RESERVED_INODES : Z.
Variable SB_BLOCK : Z.
Variable INO_BLOCK : Z.
Variable MAX : Z.

Abbreviation create_obj :=
  (simplefs_create_fs_object FILENAME_MAXLEN START_INO RESERVED_INODES
     SB_BLOCK INO_BLOCK MAX).


(** X22: a new object is empty: after a successful create,
    [simplefs_read] on the inode returned delivers no byte and no error
    at every position and for every length, and leaves the position and
    the file system as they are. *)
Theorem created_object_reads_empty
    dir name md s child dir' s' buf_ok len ppos :
  create_obj dir name md s = Ret (inr child, dir', s') ->
  simplefs_read child buf_ok len ppos s' = Ret (inr (0, []), ppos, s').
Proof.
  intros H. apply create_success_state in H. cbv zeta in H.
  destruct H as (parent & blk & fb & tbl & recs & k & _ & _ & -> & _).
  unfold simplefs_read. cbn [i_private dir_children_count].
  assert (0 <= to_u64 ppos) as Hp
    by (unfold to_u64; apply Z.mod_pos_bound; lia).
  rewrite leb_true_of by exact Hp. reflexivity.
Qed.

End CreateCount.

(** ** The steps of create for a small bound *)

Section CreateSteps.

Variable FILENAME_MAXLEN : Z.
Variable START_INO : Z.
Variable RESERVED_INODES : Z.
Variable SB_BLOCK : Z.
Variable INO_BLOCK : Z.
Variable MAX : Z.

Abbreviation create_steps :=
  (simplefs_create_fs_object FILENAME_MAXLEN START_INO RESERVED_INODES
     SB_BLOCK INO_BLOCK MAX).

(** With a bound of at most 31 objects (where the mask [1 << i] is the
    bit of block [i]) create runs its steps in this order: (1) with no
    headroom in the object count it fails with no-space, (2) with a mode
    that is neither directory nor regular file it fails with
    invalid-argument, (3) with no free bit from 3 up to the bound it
    fails with no-space, in all three cases with nothing allocated and
    nothing changed.  A create that succeeds took the lowest free block
    from 3 on and cleared exactly its bit; its requests to the buffer
    cache are, in this order, (3) the superblock with the new bitmask,
    (4) the inode table with the new record (size zero) at position
    inodes_count and the superblock with the count incremented, (5) the
    parent's data block with the record {new object number, name} at
    position dir_children_count, (6) the inode table with the parent's
    record, found as the first record that carries the parent's number,
    replaced by the one with the incremented children count; and these
    are the contents it leaves in the three blocks. *)
Lemma create_steps_for_small_bound dir name md s :
  let sb := s_fs_info s in
  let N := inodes_count sb in
  let ino := to_u64 (N + START_INO - RESERVED_INODES + 1) in
  3 <= MAX <= 31 ->
  0 <= free_blocks sb < 2 ^ 64 ->
  0 <= N < 2 ^ 64 - 1 ->
  (MAX <= N -> create_steps dir name md s = Ret (inl ENOSPC, dir, s))
  /\ (N < MAX -> S_ISDIR md || S_ISREG md = false ->
      create_steps dir name md s = Ret (inl EINVAL, dir, s))
  /\ (N < MAX -> S_ISDIR md || S_ISREG md = true ->
      (forall j, 3 <= j < MAX -> Z.testbit (free_blocks sb) j = false) ->
      create_steps dir name md s = Ret (inl ENOSPC, dir, s))
  /\ (forall child dir' s',
        create_steps dir name md s = Ret (inr child, dir', s') ->
        exists parent blk tbl recs k,
          let pblk := data_block_number parent in
          let new := {| mode := md; inode_no := ino; data_block_number := blk;
                        dir_children_count := 0 |} in
          let tbl1 := <[Z.to_nat N := new]> tbl in
          let recs1 := <[Z.to_nat (dir_children_count parent)
                         := {| filename := name; rec_inode_no := ino |}]> recs in
          let parent' :=
            with_size parent (to_u64 (dir_children_count parent + 1)) in
          let sb1 := with_free_blocks sb (Z.clearbit (free_blocks sb) blk) in
          let sb2 := with_inodes_count sb1 (N + 1) in
          let tbl2 := <[k := parent']> tbl1 in
          (N < MAX /\ (S_ISDIR md || S_ISREG md = true)
           /\ i_private dir = Some parent)
          /\ (3 <= blk < MAX
              /\ Z.testbit (free_blocks sb) blk = true
              /\ (forall j, 3 <= j < blk ->
                            Z.testbit (free_blocks sb) j = false))
          /\ (s_bdev s !! Z.to_nat INO_BLOCK = Some (BInodes tbl)
              /\ s_bdev s !! Z.to_nat pblk = Some (BDir recs))
          /\ ((k <= Z.to_nat (N + 1))%nat
              /\ (exists c, tbl1 !! k = Some c
                            /\ inode_no c = inode_no parent)
              /\ (forall j c, (j < k)%nat -> tbl1 !! j = Some c ->
                              inode_no c <> inode_no parent))
          /\ (child = {| i_ino := ino; i_private := Some new |}
              /\ dir' = with_private dir parent')
          /\ s_io s' = s_io s
               ++ [MarkDirty SB_BLOCK (BSuper sb1);
                   SyncDirty SB_BLOCK (BSuper sb1);
                   MarkDirty INO_BLOCK (BInodes tbl1);
                   MarkDirty SB_BLOCK (BSuper sb2);
                   SyncDirty SB_BLOCK (BSuper sb2);
                   MarkDirty pblk (BDir recs1);
                   SyncDirty pblk (BDir recs1);
                   MarkDirty INO_BLOCK (BInodes tbl2);
                   SyncDirty INO_BLOCK (BInodes tbl2)]
          /\ (s_fs_info s' = sb2
              /\ s_bdev s' !! Z.to_nat INO_BLOCK = Some (BInodes tbl2)
              /\ s_bdev s' !! Z.to_nat pblk = Some (BDir recs1))).
Proof.
  cbv zeta. intros HM Hfb HNr. split; [|split; [|split]].
  - intros HN. unfold simplefs_create_fs_object. rewrite kbind_run.
    unfold simplefs_sb_get_objects_count at 1. rewrite kbind_run.
    unfold get_sb at 1. rewrite kret_run.
    rewrite leb_true_of by exact HN. reflexivity.
  - intros HN Hmode. unfold simplefs_create_fs_object. rewrite kbind_run.
    unfold simplefs_sb_get_objects_count at 1. rewrite kbind_run.
    unfold get_sb at 1. rewrite kret_run.
    rewrite leb_false_of by exact HN.
    apply orb_false_iff in Hmode as [-> ->]. reflexivity.
  - intros HN Hmode Hnone.
    pose proof (freeblock_no_space SB_BLOCK MAX s HM Hnone) as Halloc.
    unfold simplefs_create_fs_object. rewrite kbind_run.
    unfold simplefs_sb_get_objects_count at 1. rewrite kbind_run.
    unfold get_sb at 1. rewrite kret_run.
    rewrite leb_false_of by exact HN.
    replace (negb (S_ISDIR md) && negb (S_ISREG md)) with false
      by (destruct (S_ISDIR md), (S_ISREG md); try reflexivity; discriminate).
    rewrite kbind_run, Halloc. reflexivity.
  - intros child dir' s' H. apply create_success_state in H. cbv zeta in H.
    destruct H as (parent & blk & fb & tbl & recs & k
                   & (HN & Hmode & Hp & Halloc)
                   & (_ & _ & _ & Htbl & _ & Hrecs & _ & _ & Hk)
                   & (-> & -> & Hsb & Htbl2 & Hrecs1 & Hio)).
    rewrite (to_u64_small (inodes_count (s_fs_info s) + 1)) in Hk, Hsb, Hio
      by lia.
    (* the block and the bitmask *)
    pose proof Halloc as Hinv.
    apply alloc_success_inv in Hinv as (m & Hscan & Hne & _ & Hsb0 & Hs0 & _).
    destruct (freeblock_scan_spec (free_blocks (s_fs_info s))
                (Z.to_nat (MAX - 3)) 3 ltac:(lia) ltac:(lia))
      as (j & Hj & Hr & Hlow & Hset).
    rewrite Hscan in Hj. injection Hj as <-.
    assert (3 <= blk < MAX) as Hblk by lia.
    specialize (Hset ltac:(lia)).
    pose proof (freeblock_first_fit SB_BLOCK MAX s blk HM Hfb Hsb0 Hs0 Hblk
                  Hset Hlow) as Hfit.
    rewrite Halloc in Hfit. injection Hfit as Hfit. subst fb.
    (* the parent's record *)
    unfold simplefs_inode_search in Hk. cbn [inodes_count with_inodes_count
      inode_no with_size] in Hk.
    apply inode_search_loop_Some in Hk
      as (k0 & c & -> & Hle & Hc & Hno & Hfirst).
    exists parent, blk, tbl, recs, (0 + k0)%nat.
    split; [auto|]. split; [auto|]. split; [auto|].
    split; [split; [exact Hle|split; [exists c; auto|exact Hfirst]]|].
    split; [auto|]. split; [exact Hio|]. auto.
Qed.

End CreateSteps.

(** ** The further theorems applied on the image *)

Lemma inode_add_then_get_inode_witness :
  exists s',
    Image.inode_add Image.unappended_inode Image.mounted = Ret (tt, s')
    /\ Image.get_inode 10 s' = Ret (Some Image.unappended_inode, s').
Proof.
  eexists. split; [vm_compute; reflexivity|].
  destruct (inode_add_then_get_inode Image.SUPERBLOCK_BLOCK_NUMBER
              Image.INODESTORE_BLOCK_NUMBER Image.unappended_inode
              Image.mounted tt _ ltac:(discriminate) ltac:(simpl; lia)
              ltac:(vm_compute; reflexivity))
    as (tbl & tbl' & Htbl & _ & _ & _ & Hfresh & _).
  injection Htbl as <-. apply Hfresh. intros c Hc.
  apply elem_of_cons in Hc as [->|Hc]; [discriminate|].
  apply elem_of_cons in Hc as [->|Hc]; [discriminate|].
  inversion Hc.
Defined.

Lemma inode_save_then_get_inode_witness :
  exists s',
    Image.inode_save (with_size Image.file_inode 9) Image.mounted
    = Ret (inr tt, s')
    /\ Image.get_inode 2 s' = Ret (Some (with_size Image.file_inode 9), s').
Proof.
  eexists. split; [vm_compute; reflexivity|].
  destruct (inode_save_then_get_inode Image.INODESTORE_BLOCK_NUMBER
              (with_size Image.file_inode 9) Image.mounted _
              ltac:(vm_compute; reflexivity))
    as (_ & _ & Hget & _); [|exact Hget].
  intros tbl Htbl. injection Htbl as <-. exists Image.file_inode.
  split; [|reflexivity]. right. left.
Defined.

Lemma write_then_read_from_start_witness :
  exists n filp1 ppos1 s1,
    Image.write Image.file true [Byte.x78; Byte.x79] 0 Image.mounted
    = Ret (inr n, filp1, ppos1, s1)
    /\ simplefs_read filp1 true 2 0 s1
       = Ret (inr (0 + 2, [] ++ [Byte.x78; Byte.x79]), 0 + 2, s1).
Proof.
  eexists _, _, _, _. split; [vm_compute; reflexivity|].
  eapply (write_then_read_from_start Image.INODESTORE_BLOCK_NUMBER
            Image.file Image.file_inode true [Byte.x78; Byte.x79] 0
            Image.mounted (Image.abcd ++ repeat Byte.x00 4) _ _ _ _ 2).
  - reflexivity.
  - simpl. lia.
  - reflexivity.
  - lia.
  - simpl. lia.
  - simpl. lia.
  - vm_compute. reflexivity.
Defined.

Lemma write_changes_the_range_written_witness :
  exists n filp1 ppos1 s1,
    Image.write Image.file true [Byte.x78; Byte.x79] 1 Image.mounted
    = Ret (inr n, filp1, ppos1, s1)
    /\ s_bdev s1 !! 3%nat
       = Some (BData ([Byte.x61; Byte.x78; Byte.x79; Byte.x64]
                        ++ repeat Byte.x00 4))
    /\ s_fs_info s1 = Image.disk_sb.
Proof.
  eexists _, _, _, _. split; [vm_compute; reflexivity|].
  destruct (write_changes_the_range_written Image.INODESTORE_BLOCK_NUMBER
              Image.file Image.file_inode true [Byte.x78; Byte.x79] 1
              Image.mounted (Image.abcd ++ repeat Byte.x00 4) _ _ _ _
              ltac:(reflexivity) ltac:(simpl; lia) ltac:(reflexivity)
              ltac:(lia) ltac:(simpl; lia) ltac:(vm_compute; reflexivity))
    as (_ & Hsb & Hblk & _).
  split; [exact Hblk|exact Hsb].
Defined.

Lemma write_of_unstored_inode_fails_late_witness :
  exists filp1 ppos1 s1,
    Image.write Image.unstored_file true [Byte.x78] 0 Image.mounted
    = Ret (inl EIO, filp1, ppos1, s1)
    /\ s_bdev s1 !! 3%nat
       = Some (BData ([Byte.x78; Byte.x62; Byte.x63; Byte.x64]
                        ++ repeat Byte.x00 4)).
Proof.
  assert (Hfresh : forall (j : nat) c,
             (j <= Z.to_nat (inodes_count (s_fs_info Image.mounted)))%nat ->
             Image.table !! j = Some c -> inode_no c <> 99).
  { intros [|[|[|j]]] c Hj Hc; simpl in Hj; try lia;
      injection Hc as <-; discriminate. }
  eexists _, _, _. split.
  - exact (write_of_unstored_inode_fails_late Image.INODESTORE_BLOCK_NUMBER
             Image.unstored_file _ [Byte.x78] 0 Image.mounted
             (Image.abcd ++ repeat Byte.x00 4) Image.table
             eq_refl ltac:(simpl; lia) eq_refl ltac:(lia) ltac:(simpl; lia)
             ltac:(unfold Image.INODESTORE_BLOCK_NUMBER; lia) eq_refl
             ltac:(simpl; lia) Hfresh).
  - reflexivity.
Defined.

Lemma create_failure_at_last_step_keeps_changes_witness :
  exists dir' s',
    Image.create Image.unstored_dir "x" S_IFREG Image.mounted
    = Ret (inl EIO, dir', s')
    /\ inodes_count (s_fs_info s') = 3
    /\ dir' = with_private Image.unstored_dir
                (with_size {| mode := S_IFDIR; inode_no := 77;
                              data_block_number := 2;
                              dir_children_count := 1 |} 2).
Proof.
  eexists _, _. split; [vm_compute; reflexivity|].
  destruct (create_failure_at_last_step_keeps_changes
              Image.FILENAME_MAXLEN Image.START_INO Image.RESERVED_INODES
              Image.SUPERBLOCK_BLOCK_NUMBER Image.INODESTORE_BLOCK_NUMBER
              Image.MAX_OBJECTS Image.unstored_dir "x" S_IFREG Image.mounted
              _ _ ltac:(simpl; lia) ltac:(vm_compute; reflexivity))
    as (parent & blk & fb & tbl & recs & Hp & _ & _ & _ & _ & HN & _ & _ & Hd).
  split; [exact HN|]. injection Hp as <-. exact Hd.
Defined.

Lemma image_superblock_synced :
  superblock_synced Image.SUPERBLOCK_BLOCK_NUMBER Image.mounted.
Proof. split; [unfold Image.SUPERBLOCK_BLOCK_NUMBER; lia|reflexivity]. Qed.

Lemma operations_keep_superblock_synced_witness :
  exists r dir' s',
    Image.create Image.root "new" S_IFREG Image.mounted = Ret (r, dir', s')
    /\ superblock_synced Image.SUPERBLOCK_BLOCK_NUMBER s'.
Proof.
  eexists _, _, _. split; [vm_compute; reflexivity|].
  destruct (operations_keep_superblock_synced
              Image.FILENAME_MAXLEN Image.START_INO Image.RESERVED_INODES
              Image.SUPERBLOCK_BLOCK_NUMBER Image.INODESTORE_BLOCK_NUMBER
              Image.MAX_OBJECTS Image.mounted image_superblock_synced)
    as (_ & _ & _ & Hc & _).
  eapply (Hc Image.root "new" S_IFREG). vm_compute. reflexivity.
Defined.

Lemma lookup_is_search_of_directory_witness :
  exists r s',
    Image.lookup Image.root "hello" Image.mounted = Ret (r, s')
    /\ s' = Image.mounted.
Proof.
  eexists _, _. split; [vm_compute; reflexivity|].
  eapply (proj1 (lookup_is_search_of_directory
                   Image.INODESTORE_BLOCK_NUMBER Image.root "hello"
                   Image.mounted _ _ ltac:(vm_compute; reflexivity))).
Defined.

Lemma iterate_lists_the_directory_once_witness :
  Image.iterate Image.root 0 Image.mounted
  = Ret (inr tt,
         [{| d_name := "hello"; d_namlen := 255; d_ino := 2; d_off := 0 |}],
         264, Image.mounted)
  /\ Image.iterate Image.root 264 Image.mounted
     = Ret (inr tt, [], 264, Image.mounted).
Proof.
  destruct (iterate_lists_the_directory_once
              Image.FILENAME_MAXLEN Image.DIR_RECORD_SIZE Image.root
              Image.root_inode Image.mounted eq_refl)
    as (Hpos & _ & Hdir).
  split.
  - exact (Hdir eq_refl Image.root_records ltac:(simpl; lia) eq_refl
             ltac:(simpl; lia)
             ltac:(unfold Image.DIR_RECORD_SIZE; lia)
             ltac:(unfold Image.DIR_RECORD_SIZE; simpl; lia)).
  - apply Hpos. discriminate.
Defined.

Lemma image_live_inodes_not_10 c :
  c ∈ live_inodes Image.mounted Image.table -> inode_no c <> 10.
Proof.
  intros Hc.
  apply elem_of_cons in Hc as [->|Hc]; [discriminate|].
  apply elem_of_cons in Hc as [->|Hc]; [discriminate|].
  inversion Hc.
Qed.

Lemma image_blocks_busy :
  blocks_busy Image.INODESTORE_BLOCK_NUMBER Image.mounted.
Proof.
  intros tbl c Htbl Hc H3. injection Htbl as <-.
  apply elem_of_cons in Hc as [->|Hc]; [simpl in H3; lia|].
  apply elem_of_cons in Hc as [->|Hc]; [reflexivity|].
  inversion Hc.
Qed.

Lemma create_then_iterate_appends_entry_witness :
  exists child dir' s',
    Image.create Image.root "new" S_IFREG Image.mounted
    = Ret (inr child, dir', s')
    /\ Image.iterate dir' 0 s'
       = Ret (inr tt,
              [{| d_name := "hello"; d_namlen := 255; d_ino := 2;
                  d_off := 0 |};
               {| d_name := "new"; d_namlen := 255; d_ino := 10;
                  d_off := 264 |}],
              528, s').
Proof.
  eexists _, _, _. split; [vm_compute; reflexivity|].
  destruct (create_then_iterate_appends_entry
              Image.FILENAME_MAXLEN Image.START_INO Image.RESERVED_INODES
              Image.SUPERBLOCK_BLOCK_NUMBER Image.INODESTORE_BLOCK_NUMBER
              Image.MAX_OBJECTS Image.DIR_RECORD_SIZE
              Image.root Image.root_inode "new" S_IFREG Image.mounted
              Image.root_records _ _ _
              eq_refl eq_refl eq_refl ltac:(simpl; lia)
              ltac:(unfold Image.DIR_RECORD_SIZE; lia)
              ltac:(unfold Image.DIR_RECORD_SIZE; simpl; lia)
              ltac:(vm_compute; reflexivity))
    as (_ & Hafter).
  exact Hafter.
Defined.

Lemma mkdir_creates_a_directory_witness :
  exists child dir' s',
    Image.mkdir Image.root "d" 493 Image.mounted = Ret (inr child, dir', s')
    /\ exists i, i_private child = Some i
                 /\ S_ISDIR (mode i) = true
                 /\ Z.land (mode i) (Z.lnot S_IFMT) = 493.
Proof.
  eexists _, _, _. split; [vm_compute; reflexivity|].
  pose proof (mkdir_creates_a_directory
                Image.FILENAME_MAXLEN Image.START_INO Image.RESERVED_INODES
                Image.SUPERBLOCK_BLOCK_NUMBER Image.INODESTORE_BLOCK_NUMBER
                Image.MAX_OBJECTS Image.root "d" 493 Image.mounted
                (inr _) _ _ eq_refl ltac:(vm_compute; reflexivity)) as H.
  cbv beta iota in H.
  destruct H as (i & Hi & _ & Hdir & _ & Hperm & _).
  exists i. split; [exact Hi|]. split; [exact Hdir|exact Hperm].
Defined.

Lemma create_keeps_other_names_witness :
  exists child dir' s',
    Image.create Image.root "new" S_IFREG Image.mounted
    = Ret (inr child, dir', s')
    /\ Image.lookup dir' "hello" s' = Ret (Some Image.file, s').
Proof.
  eexists _, _, _. split; [vm_compute; reflexivity|].
  eapply (create_keeps_other_names
            Image.FILENAME_MAXLEN Image.START_INO Image.RESERVED_INODES
            Image.SUPERBLOCK_BLOCK_NUMBER Image.INODESTORE_BLOCK_NUMBER
            Image.MAX_OBJECTS Image.root Image.root_inode "new" S_IFREG
            Image.mounted Image.table Image.root_records _ _ _ "hello"
            (Some Image.file)).
  - reflexivity.
  - reflexivity.
  - reflexivity.
  - simpl. lia.
  - simpl. lia.
  - exists Image.root_inode. split; [left|reflexivity].
  - exact image_live_inodes_not_10.
  - vm_compute. reflexivity.
  - discriminate.
  - reflexivity.
  - intros f [= <-]. discriminate.
Defined.

Lemma create_keeps_blocks_busy_witness :
  exists child dir' s',
    Image.create Image.root "new" S_IFREG Image.mounted
    = Ret (inr child, dir', s')
    /\ blocks_busy Image.INODESTORE_BLOCK_NUMBER s'.
Proof.
  eexists _, _, _. split; [vm_compute; reflexivity|].
  eapply (create_keeps_blocks_busy
            Image.FILENAME_MAXLEN Image.START_INO Image.RESERVED_INODES
            Image.SUPERBLOCK_BLOCK_NUMBER Image.INODESTORE_BLOCK_NUMBER
            Image.MAX_OBJECTS Image.root Image.root_inode "new" S_IFREG
            Image.mounted).
  - simpl. lia.
  - reflexivity.
  - simpl. lia.
  - exact image_blocks_busy.
  - vm_compute. reflexivity.
Defined.

Lemma create_gives_an_unshared_block_witness :
  exists child dir' s' new,
    Image.small_create Image.root "new" S_IFREG Image.mounted
    = Ret (inr child, dir', s')
    /\ i_private child = Some new
    /\ data_block_number new <> data_block_number Image.file_inode.
Proof.
  eexists _, _, _, _. split; [vm_compute; reflexivity|].
  split; [reflexivity|].
  eapply (create_gives_an_unshared_block
            Image.FILENAME_MAXLEN Image.START_INO Image.RESERVED_INODES
            Image.SUPERBLOCK_BLOCK_NUMBER Image.INODESTORE_BLOCK_NUMBER
            Image.SMALL_MAX Image.root "new" S_IFREG Image.mounted
            _ _ _ Image.table Image.file_inode).
  - unfold Image.SMALL_MAX. lia.
  - exact image_blocks_busy.
  - reflexivity.
  - right. left.
  - vm_compute. reflexivity.
  - reflexivity.
Defined.

Lemma successive_creates_differ_witness :
  exists child1 dir1 s1 child2 dir2 s2,
    Image.create Image.root "a" S_IFREG Image.mounted
    = Ret (inr child1, dir1, s1)
    /\ Image.create dir1 "b" S_IFREG s1 = Ret (inr child2, dir2, s2)
    /\ i_ino child1 <> i_ino child2.
Proof.
  eexists _, _, _, _, _, _. split; [vm_compute; reflexivity|].
  split; [vm_compute; reflexivity|].
  eapply (proj1 (successive_creates_differ
                   Image.FILENAME_MAXLEN Image.START_INO
                   Image.RESERVED_INODES Image.SUPERBLOCK_BLOCK_NUMBER
                   Image.INODESTORE_BLOCK_NUMBER Image.MAX_OBJECTS
                   Image.root "a" S_IFREG Image.mounted _ _ _
                   (with_private Image.root (with_size Image.root_inode 2))
                   "b" S_IFREG _ _ _ _ _
                   ltac:(unfold Image.MAX_OBJECTS; lia) ltac:(simpl; lia)
                   ltac:(vm_compute; reflexivity)
                   ltac:(vm_compute; reflexivity)
                   ltac:(reflexivity) ltac:(reflexivity))).
Defined.

Lemma write_is_seen_by_get_inode_witness :
  exists n filp1 ppos1 s1,
    Image.write Image.file true [Byte.x78; Byte.x79] 3 Image.mounted
    = Ret (inr n, filp1, ppos1, s1)
    /\ Image.get_inode 2 s1 = Ret (Some (with_size Image.file_inode 5), s1).
Proof.
  eexists _, _, _, _. split; [vm_compute; reflexivity|].
  eapply (proj1 (write_is_seen_by_get_inode
                   Image.INODESTORE_BLOCK_NUMBER Image.file Image.file_inode
                   true [Byte.x78; Byte.x79] 3 Image.mounted
                   (Image.abcd ++ repeat Byte.x00 4) Image.table _ _ _ _
                   eq_refl ltac:(simpl; lia) eq_refl ltac:(lia)
                   ltac:(simpl; lia) ltac:(simpl; lia) eq_refl
                   ltac:(exists Image.file_inode;
                         split; [right; left|reflexivity])
                   ltac:(vm_compute; reflexivity))).
Defined.



Lemma created_object_reads_empty_witness :
  exists child dir' s',
    Image.create Image.root "new" S_IFREG Image.mounted
    = Ret (inr child, dir', s')
    /\ simplefs_read child true 10 0 s' = Ret (inr (0, []), 0, s').
Proof.
  eexists _, _, _. split; [vm_compute; reflexivity|].
  eapply (created_object_reads_empty
            Image.FILENAME_MAXLEN Image.START_INO Image.RESERVED_INODES
            Image.SUPERBLOCK_BLOCK_NUMBER Image.INODESTORE_BLOCK_NUMBER
            Image.MAX_OBJECTS Image.root "new" S_IFREG Image.mounted).
  vm_compute. reflexivity.
Defined.

Lemma create_steps_for_small_bound_witness :
  (exists child dir' s',
     Image.small_create Image.root "new" S_IFREG Image.mounted
     = Ret (inr child, dir', s')
     /\ event_block <$> s_io s' = [0; 0; 1; 0; 0; 2; 2; 1; 1])
  /\ simplefs_create_fs_object 255 10 3 0 1 16 Image.root "new" S_IFREG
       (Image.with_bitmask 7)
     = Ret (inl ENOSPC, Image.root, Image.with_bitmask 7).
Proof.
  split.
  - eexists _, _, _. split; [vm_compute; reflexivity|].
    destruct (create_steps_for_small_bound
                Image.FILENAME_MAXLEN Image.START_INO Image.RESERVED_INODES
                Image.SUPERBLOCK_BLOCK_NUMBER Image.INODESTORE_BLOCK_NUMBER
                Image.SMALL_MAX Image.root "new" S_IFREG Image.mounted
                ltac:(unfold Image.SMALL_MAX; lia) ltac:(simpl; lia)
                ltac:(simpl; lia))
      as (_ & _ & _ & Hsteps).
    destruct (Hsteps _ _ _ ltac:(vm_compute; reflexivity))
      as (parent & blk & tbl & recs & k
          & (_ & _ & Hp) & _ & _ & _ & _ & Hio & _).
    injection Hp as <-. rewrite Hio. reflexivity.
  - destruct (create_steps_for_small_bound 255 10 3 0 1 16 Image.root "new"
                S_IFREG (Image.with_bitmask 7)
                ltac:(lia) ltac:(simpl; lia) ltac:(simpl; lia))
      as (_ & _ & Hnone & _).
    apply Hnone; [simpl; lia|reflexivity|].
    intros j Hj. cbn.
    assert (j = 3 \/ j = 4 \/ j = 5 \/ j = 6 \/ j = 7 \/ j = 8 \/ j = 9
            \/ j = 10 \/ j = 11 \/ j = 12 \/ j = 13 \/ j = 14 \/ j = 15)
      as Hcases by lia.
    repeat (destruct Hcases as [->|Hcases]; [reflexivity|]).
    subst j. reflexivity.
Defined.
